(** * chart-web dashboard: a shallow embedding of [frontend/main.js]

    The development follows the source file top-down:
    - [JS]: the fragment of JavaScript values, coercions and exceptions that
      the dashboard relies on (numbers, strings as UTF-16 code units, JSON
      values, [Number(..)], [||], property and index access);
    - [Calendar]: the built-in [Date] arithmetic used by [weekDatesFrom],
      [buildWeekIndex] and [syncSelectionsFromDate];
    - [Dashboard]: the page state (charts, labels, selectors, log table), the
      four asynchronous loaders, the drill-down click handlers and the
      start-up sequence;
    - the properties of the specification, proved or refuted on that model. *)

From Stdlib Require Import ZArith NArith List Lia Bool String Ascii DecimalString.
From Stdlib Require Import Floats.
From Equations Require Import Equations.
Import ListNotations.
Local Open Scope Z_scope.

(* ===================================================================== *)
(** * Part I: the model                                                   *)
(* ===================================================================== *)

(** ** JavaScript values *)

Module JS.

(** A string is its sequence of UTF-16 code units. *)
Definition jsstring := list N.

(** ASCII literals of the source; each byte is its own code unit. *)
Fixpoint utf16 (s : string) : jsstring :=
  match s with
  | EmptyString => []
  | String c r => N_of_ascii c :: utf16 r
  end.

Fixpoint jseqb (a b : jsstring) : bool :=
  match a, b with
  | [], [] => true
  | x :: a', y :: b' => (x =? y)%N && jseqb a' b'
  | _, _ => false
  end.

(** Counts are integers; [NaN] is kept because the coercions of the source
    can produce it.  Sums of counts are exact in this model, as they are for
    doubles below 2^53. *)
Inductive number : Type :=
| Fin (z : Z)
| NaN.

Definition num_add (a b : number) : number :=
  match a, b with
  | Fin x, Fin y => Fin (x + y)
  | _, _ => NaN
  end.

Definition num_truthy (n : number) : bool :=
  match n with
  | Fin z => negb (z =? 0)
  | NaN => false
  end.

(** The values [JSON.parse] can produce, and [undefined] for what is absent. *)
#[warnings="-register-all"]
Inductive value : Type :=
| VUndef
| VNull
| VBool (b : bool)
| VNum (n : number)
| VStr (s : jsstring)
| VArr (items : list value)
| VObj (fields : list (jsstring * value)).

Inductive exn : Type :=
| TypeError
| SyntaxError
| RangeError
| NetworkError
| Error (message : jsstring).

Inductive Result (A : Type) : Type :=
| Ok (a : A)
| Throw (e : exn).
Arguments Ok {A} a.
Arguments Throw {A} e.

Definition rbind {A B} (r : Result A) (f : A -> Result B) : Result B :=
  match r with
  | Ok a => f a
  | Throw e => Throw e
  end.

(** The value of a run of decimal digits, most significant first. *)
Definition digit_val (c : N) : option Z :=
  if ((48 <=? c) && (c <=? 57))%N then Some (Z.of_N c - 48) else None.

Fixpoint digits_val (acc : Z) (s : jsstring) : option Z :=
  match s with
  | [] => Some acc
  | c :: r => match digit_val c with
              | Some v => digits_val (acc * 10 + v) r
              | None => None
              end
  end.

(** What the engine does for conversions whose grammar is not reproduced
    here: [StringToNumber] on arbitrary text and the string form of arrays and
    objects ([Array.prototype.toString], [Object.prototype.toString]).  Of
    [StringToNumber] only this is used: a non-empty run of decimal digits
    denotes its decimal value. *)
Class Engine : Type := {
  StringToNumber : jsstring -> number;
  ObjToPrimitive : value -> jsstring;
  StringToNumber_digits :
    forall s z, s <> [] -> digits_val 0 s = Some z -> StringToNumber s = Fin z
}.

Definition truthy (v : value) : bool :=
  match v with
  | VUndef | VNull => false
  | VBool b => b
  | VNum n => num_truthy n
  | VStr s => match s with [] => false | _ => true end
  | VArr _ | VObj _ => true
  end.

(** [a || b] *)
Definition or_else (a b : value) : value := if truthy a then a else b.

(** [Number(v)] *)
Definition ToNumber `{Engine} (v : value) : number :=
  match v with
  | VUndef => NaN
  | VNull => Fin 0
  | VBool b => Fin (if b then 1 else 0)
  | VNum n => n
  | VStr s => StringToNumber s
  | VArr _ | VObj _ => StringToNumber (ObjToPrimitive v)
  end.

Definition isNullish (v : value) : bool :=
  match v with
  | VUndef | VNull => true
  | _ => false
  end.

Fixpoint lookup_field (k : jsstring) (fs : list (jsstring * value)) : value :=
  match fs with
  | [] => VUndef
  | (k', v) :: r => if jseqb k k' then v else lookup_field k r
  end.

(** [v.k] for a property name [k] that no prototype defines (the payload
    field names [pass], [fail], [labels], [range], [month]). *)
Definition get_prop (v : value) (k : jsstring) : Result value :=
  match v with
  | VUndef | VNull => Throw TypeError
  | VObj fs => Ok (lookup_field k fs)
  | _ => Ok VUndef
  end.

(** Decimal text of a non-negative integer, as [String(n)] prints it. *)
Definition decimal (z : Z) : jsstring :=
  utf16 (NilZero.string_of_uint (N.to_uint (Z.to_N z))).

(** [v[i]] for an integer index. *)
Definition get_index (v : value) (i : Z) : Result value :=
  match v with
  | VUndef | VNull => Throw TypeError
  | VArr l => Ok (if i <? 0 then VUndef else nth (Z.to_nat i) l VUndef)
  | VStr s => Ok (if i <? 0 then VUndef
                  else match nth_error s (Z.to_nat i) with
                       | Some c => VStr [c]
                       | None => VUndef
                       end)
  | VObj fs => Ok (if i <? 0 then VUndef else lookup_field (decimal i) fs)
  | _ => Ok VUndef
  end.

(** [v.length] *)
Definition get_length (v : value) : Result value :=
  match v with
  | VUndef | VNull => Throw TypeError
  | VArr l => Ok (VNum (Fin (Z.of_nat (List.length l))))
  | VStr s => Ok (VNum (Fin (Z.of_nat (List.length s))))
  | VObj fs => Ok (lookup_field (utf16 "length") fs)
  | _ => Ok VUndef
  end.

(** [v.map(f)]: only arrays have a [map] method. *)
Fixpoint mapi_from {A} (f : value -> Z -> Result A) (i : Z) (l : list value)
  : Result (list A) :=
  match l with
  | [] => Ok []
  | x :: r => rbind (f x i) (fun y => rbind (mapi_from f (i + 1) r) (fun ys => Ok (y :: ys)))
  end.

Definition array_map {A} (v : value) (f : value -> Z -> Result A) : Result (list A) :=
  match v with
  | VArr l => mapi_from f 0 l
  | _ => Throw TypeError
  end.

(** [l.slice(n)]: strings and arrays have it, nothing else does. *)
Definition slice_from (n : nat) (v : value) : Result value :=
  match v with
  | VStr s => Ok (VStr (skipn n s))
  | VArr l => Ok (VArr (skipn n l))
  | _ => Throw TypeError
  end.

End JS.
Import JS.

(** ** The built-in [Date] *)

Module Calendar.

Definition msPerDay : Z := 86400000.
Definition msPerMinute : Z := 60000.

(** Day number (days since 1970-01-01) of a proleptic Gregorian date; the
    month is 1-based.  This is [MakeDay] for a month already in range. *)
Definition days_from_civil (y m d : Z) : Z :=
  let y' := if m <=? 2 then y - 1 else y in
  let era := y' / 400 in
  let yoe := y' - era * 400 in
  let mp := if 2 <? m then m - 3 else m + 9 in
  let doy := (153 * mp + 2) / 5 + d - 1 in
  let doe := yoe * 365 + yoe / 4 - yoe / 100 + doy in
  era * 146097 + doe - 719468.

(** [YearFromTime], [MonthFromTime] + 1 and [DateFromTime] of a day number. *)
Definition civil_from_days (z : Z) : Z * Z * Z :=
  let z' := z + 719468 in
  let era := z' / 146097 in
  let doe := z' - era * 146097 in
  let yoe := (doe - doe / 1460 + doe / 36524 - doe / 146096) / 365 in
  let y := yoe + era * 400 in
  let doy := doe - (365 * yoe + yoe / 4 - yoe / 100) in
  let mp := (5 * doy + 2) / 153 in
  let d := doy - (153 * mp + 2) / 5 + 1 in
  let m := if mp <? 10 then mp + 3 else mp - 9 in
  (if m <=? 2 then y + 1 else y, m, d).

Definition isLeap (y : Z) : bool :=
  ((y mod 4 =? 0) && negb (y mod 100 =? 0)) || (y mod 400 =? 0).

(** Gregorian month lengths, used only to decide which date texts are
    calendar dates. *)
Definition monthLength (y m : Z) : Z :=
  if m =? 2 then (if isLeap y then 29 else 28)
  else if (m =? 4) || (m =? 6) || (m =? 9) || (m =? 11) then 30
  else 31.

Definition validDate (y m d : Z) : bool :=
  (1 <=? m) && (m <=? 12) && (1 <=? d) && (d <=? monthLength y m).

(** A [Date] object holds a time value in milliseconds since the epoch (UTC).
    The host's zone is a constant offset [tz], in minutes east of UTC. *)
Definition Day (t : Z) : Z := t / msPerDay.
Definition TimeWithinDay (t : Z) : Z := t mod msPerDay.
Definition WeekDay (t : Z) : Z := (Day t + 4) mod 7.
Definition LocalTime (tz t : Z) : Z := t + tz * msPerMinute.
Definition UTC (tz t : Z) : Z := t - tz * msPerMinute.

(** [d.getDay()], [d.getDate()], [d.getMonth() + 1], [d.getFullYear()] *)
Definition getDay (tz t : Z) : Z := WeekDay (LocalTime tz t).
Definition getDate (tz t : Z) : Z := snd (civil_from_days (Day (LocalTime tz t))).
Definition getMonth1 (tz t : Z) : Z := snd (fst (civil_from_days (Day (LocalTime tz t)))).
Definition getFullYear (tz t : Z) : Z := fst (fst (civil_from_days (Day (LocalTime tz t)))).

(** [d.setDate(dt)]: the day of the month is replaced in local time, days
    outside the month carrying over into the neighbouring months. *)
Definition setDate (tz t dt : Z) : Z :=
  let lt := LocalTime tz t in
  let '(y, m, _) := civil_from_days (Day lt) in
  UTC tz ((days_from_civil y m 1 + dt - 1) * msPerDay + TimeWithinDay lt).

(** [new Date(y, m, 0).getDate()] with the 0-based month argument [m]: the
    last day of the month before, both in local time.  Years 0..99 are taken
    as 1900..1999 by the constructor. *)
Definition daysInMonth (y m : Z) : Z :=
  let yy := if (0 <=? y) && (y <=? 99) then 1900 + y else y in
  let ym := yy + m / 12 in
  let mn := m mod 12 in
  snd (civil_from_days (days_from_civil ym (mn + 1) 1 + 0 - 1)).

(** *** Date texts *)

Definition digit (k : N) : N := (48 + k)%N.
Definition pad2 (n : N) : jsstring := [digit (n / 10 mod 10); digit (n mod 10)]%N.
Definition pad4 (n : N) : jsstring :=
  [digit (n / 1000 mod 10); digit (n / 100 mod 10); digit (n / 10 mod 10); digit (n mod 10)]%N.
Definition pad6 (n : N) : jsstring :=
  [digit (n / 100000 mod 10); digit (n / 10000 mod 10)]%N ++ pad4 n.

Definition dash : N := 45%N.

(** The text [YYYY-MM-DD] of a date. *)
Definition isoText (y m d : Z) : jsstring :=
  pad4 (Z.to_N y) ++ [dash] ++ pad2 (Z.to_N m) ++ [dash] ++ pad2 (Z.to_N d).

(** [d.toISOString().slice(0,10)]: four-digit years print as [YYYY-MM-DD];
    other years print with a sign and six digits, of which the slice keeps
    the sign, the year and the month. *)
Definition toISODate (t : Z) : jsstring :=
  let '(y, m, d) := civil_from_days (Day t) in
  if (0 <=? y) && (y <=? 9999) then isoText y m d
  else [if y <? 0 then 45%N else 43%N] ++ pad6 (Z.to_N (Z.abs y)) ++ [dash] ++ pad2 (Z.to_N m).

(** The fields of a text of the shape [/^\d{4}-\d{2}-\d{2}$/]. *)
Definition parseIsoFields (s : jsstring) : option (Z * Z * Z) :=
  match s with
  | [y1; y2; y3; y4; h1; m1; m2; h2; d1; d2] =>
      if ((h1 =? dash) && (h2 =? dash))%N then
        match digits_val 0 [y1; y2; y3; y4], digits_val 0 [m1; m2], digits_val 0 [d1; d2] with
        | Some y, Some m, Some d => Some (y, m, d)
        | _, _, _ => None
        end
      else None
  | _ => None
  end.

(** [new Date(dateStr)] for the date-only form that the page passes around
    (calendar buttons, [toISOString().slice(0,10)], day labels): midnight UTC
    of that date; [None] is the Invalid Date.  Other spellings that [Date]
    accepts are outside this model. *)
Definition Date_parse (s : jsstring) : option Z :=
  match parseIsoFields s with
  | Some (y, m, d) => if validDate y m d then Some (days_from_civil y m d * msPerDay) else None
  | None => None
  end.

End Calendar.
Import Calendar.

(** ** [weekDatesFrom] *)

(** [weekDatesFrom(dateStr)], lines 92-107.  With an Invalid Date every
    intermediate value is NaN and the first [toISOString()] throws. *)
Definition weekDatesFrom (tz : Z) (dateStr : jsstring) : Result (list jsstring) :=
  match Date_parse dateStr with
  | None => Throw RangeError
  | Some d =>
      let day := getDay tz d in
      let diffToMon := if day =? 0 then -6 else 1 - day in
      let mon := setDate tz d (getDate tz d + diffToMon) in
      Ok (map (fun i => toISODate (setDate tz mon (getDate tz mon + i))) [0; 1; 2; 3; 4; 5; 6])
  end.

(** Vocabulary of the specification: the weekday of a day number (0 is
    Sunday, 1 is Monday) and the texts of the seven days from day [n0] on. *)
Definition weekdayOfDay (n : Z) : Z := (n + 4) mod 7.


(** ** Week blocks of a month *)

(** The loop of [buildWeekIndex], lines 387-392: one option
    [(idx, start, end)] per block, [html] growing by one option a turn. *)
Equations? weekOptionsLoop (days start idx : Z) : list (Z * Z * Z)
  by wf (Z.to_nat (days + 1 - start)) lt :=
  weekOptionsLoop days start idx with Z_le_dec start days => {
    | left _ => (idx, start, Z.min (start + 6) days) :: weekOptionsLoop days (start + 7) (idx + 1);
    | right _ => [] }.
Proof. lia. Qed.

Definition weekOptions (days : Z) : list (Z * Z * Z) := weekOptionsLoop days 1 1.

Definition blockIdx (b : Z * Z * Z) : Z := fst (fst b).
Definition blockStart (b : Z * Z * Z) : Z := snd (fst b).
Definition blockStop (b : Z * Z * Z) : Z := snd b.

(** Vocabulary of the specification: the block of the text
    [weekBlockRange(year, month, w)], the days a block covers, and the
    total length of a list of blocks. *)
Definition weekBlockRange (days w : Z) : Z * Z :=
  ((w - 1) * 7 + 1, Z.min ((w - 1) * 7 + 7) days).

Definition covers (b : Z * Z * Z) (d : Z) : Prop := blockStart b <= d <= blockStop b.

Definition blockLengths (bs : list (Z * Z * Z)) : Z :=
  fold_right (fun b acc => (blockStop b - blockStart b + 1) + acc) 0 bs.

(** [Math.floor((day-1)/7)+1], lines 150 and 403. *)
Definition weekIdxOfDay (day : Z) : Z := (day - 1) / 7 + 1.

(** ** Doubles, where the source divides *)

(** The double that holds a count. *)
Definition toFloat (n : number) : float :=
  match n with
  | Fin z => SF2Prim (binary_normalize prec emax z 0 false)
  | NaN => nan
  end.

(** Truthiness of a double: neither zero nor NaN. *)
Definition float_truthy (x : float) : bool := negb (is_nan x || is_zero x).

(** [Math.round(x)]: the integer nearest to [x], ties towards +infinity,
    that is, the floor of [x + 1/2] taken exactly. *)
Definition Math_round (x : float) : float :=
  match Prim2SF x with
  | S754_finite s m e =>
      if 0 <=? e then x
      else
        let num := if s then Z.neg m else Z.pos m in
        let r := (2 * num + 2 ^ (- e)) / 2 ^ (1 - e) in
        if r =? 0 then (if s then neg_zero else zero)
        else SF2Prim (binary_normalize prec emax r 0 false)
  | _ => x
  end.

(** The body of the rate callback, lines 195-197 and 218-220:
    [tot ? Math.round((p/tot)*100) : 0]. *)
Definition rateOf (p f : number) : float :=
  let pf := toFloat p in
  let ff := toFloat f in
  let tot := (pf + ff)%float in
  if float_truthy tot then Math_round (pf / tot * toFloat (Fin 100))%float
  else zero.

(** ** The page *)

Module Dashboard.

(** *** Requests and responses *)

(** The URLs the loaders build.  Path segments are kept as the text that the
    template literal interpolates; [device] is the value of the [?device=]
    parameter, absent when the selected device is ['all']. *)
Inductive Request : Type :=
| DataDay (date : jsstring) (device : option jsstring)
| LogsDay (date : jsstring) (device : option jsstring)
| DataWeek (y m w : jsstring) (device : option jsstring)
| DataMonth (y m : jsstring) (device : option jsstring)
| DataYear (y : jsstring) (device : option jsstring).

(** What the promise of [fetch] settles with: a rejection (no response at
    all) or a response, whose [json] is the parse of its body, [None] when
    the body is not JSON. *)
Inductive Response : Type :=
| Rejected
| Http (status : Z) (statusText body : jsstring) (json : option value).

Definition space : jsstring := [32%N].

(** [fetchJSON], lines 82-89, once [fetch] has settled with [r]. *)
Definition fetchJSON_of (r : Response) : Result value :=
  match r with
  | Rejected => Throw NetworkError
  | Http status statusText body json =>
      if (200 <=? status) && (status <=? 299) then
        match json with
        | Some v => Ok v
        | None => Throw SyntaxError
        end
      else Throw (Error (decimal status ++ space ++ statusText
                         ++ utf16 " - " ++ body))
  end.

(** *** State of the page *)

(** [chart.data]: the labels and the [data] arrays of the datasets.  The
    third dataset (the rate line) exists on the month and year charts. *)
Record Chart : Type := mkChart {
  labels : value;
  data0 : list number;
  data1 : list number;
  data2 : list float
}.

Definition set_labels (v : value) (c : Chart) : Chart :=
  mkChart v (data0 c) (data1 c) (data2 c).
Definition set_data0 (d : list number) (c : Chart) : Chart :=
  mkChart (labels c) d (data1 c) (data2 c).
Definition set_data1 (d : list number) (c : Chart) : Chart :=
  mkChart (labels c) (data0 c) d (data2 c).
Definition set_data2 (d : list float) (c : Chart) : Chart :=
  mkChart (labels c) (data0 c) (data1 c) d.

(** [charts = { day, week, month, year }] *)
Record Charts : Type := mkCharts {
  day : Chart;
  week : Chart;
  month : Chart;
  year : Chart
}.

Inductive ChartId : Type := CDay | CWeek | CMonth | CYear.

Definition chart (id : ChartId) (cs : Charts) : Chart :=
  match id with
  | CDay => day cs
  | CWeek => week cs
  | CMonth => month cs
  | CYear => year cs
  end.

Definition upd_chart (id : ChartId) (f : Chart -> Chart) (cs : Charts) : Charts :=
  match id with
  | CDay => mkCharts (f (day cs)) (week cs) (month cs) (year cs)
  | CWeek => mkCharts (day cs) (f (week cs)) (month cs) (year cs)
  | CMonth => mkCharts (day cs) (week cs) (f (month cs)) (year cs)
  | CYear => mkCharts (day cs) (week cs) (month cs) (f (year cs))
  end.

(** The [innerText] of [weekLabel], [monthLabel], [yearLabel]: the value
    that was assigned. *)
Record Labels : Type := mkLabels {
  weekLabel : value;
  monthLabel : value;
  yearLabel : value
}.

(** [logSummary] and the rows of [logTable]. *)
Inductive Summary : Type :=
| NoSummary
| DaySummary (date : jsstring) (totalPass totalFail : number).

Inductive Row : Type :=
| HeadRow
| HourRow (h : Z) (p f : value).

Record DayLog : Type := mkDayLog {
  logSummary : Summary;
  logTable : list Row
}.

(** A [<select>].  Every option value the page writes is the decimal text of
    an integer, kept here as the integer; [selectedIndex = None] is the
    state in which [.value] reads as the empty string. *)
Inductive OptText : Type :=
| Plain
| WeekRange (start stop : Z).

Record SelOption : Type := mkOption {
  optValue : Z;
  optText : OptText
}.

Record Select : Type := mkSelect {
  options : list SelOption;
  selectedIndex : option nat
}.

Record Selectors : Type := mkSelectors {
  dayInput : jsstring;
  weekYear : Select;
  weekMonth : Select;
  weekIndex : Select;
  monthYear : Select;
  monthSelect : Select;
  yearSelect : Select
}.

Inductive LogEntry : Type :=
| ConsoleWarn (what arg : jsstring) (e : exn)
| ConsoleError (what : jsstring) (e : exn).

Record UI : Type := mkUI {
  selectedDevice : jsstring;
  charts : Charts;
  viewLabels : Labels;
  dayLog : DayLog;
  selectors : Selectors;
  console : list LogEntry;
  dialogs : list jsstring
}.

Definition with_charts (f : Charts -> Charts) (u : UI) : UI :=
  mkUI (selectedDevice u) (f (charts u)) (viewLabels u) (dayLog u) (selectors u)
       (console u) (dialogs u).
Definition with_labels (f : Labels -> Labels) (u : UI) : UI :=
  mkUI (selectedDevice u) (charts u) (f (viewLabels u)) (dayLog u) (selectors u)
       (console u) (dialogs u).
Definition with_dayLog (f : DayLog -> DayLog) (u : UI) : UI :=
  mkUI (selectedDevice u) (charts u) (viewLabels u) (f (dayLog u)) (selectors u)
       (console u) (dialogs u).
Definition with_selectors (f : Selectors -> Selectors) (u : UI) : UI :=
  mkUI (selectedDevice u) (charts u) (viewLabels u) (dayLog u) (f (selectors u))
       (console u) (dialogs u).
Definition log (e : LogEntry) (u : UI) : UI :=
  mkUI (selectedDevice u) (charts u) (viewLabels u) (dayLog u) (selectors u)
       (console u ++ [e]) (dialogs u).

Definition set_weekLabel (v : value) (l : Labels) : Labels :=
  mkLabels v (monthLabel l) (yearLabel l).
Definition set_monthLabel (v : value) (l : Labels) : Labels :=
  mkLabels (weekLabel l) v (yearLabel l).
Definition set_yearLabel (v : value) (l : Labels) : Labels :=
  mkLabels (weekLabel l) (monthLabel l) v.

(** *** Asynchronous functions *)

(** An [async] function runs until it returns, throws or awaits a batch of
    requests; while it waits the page state is whatever the other handlers
    make of it, and the continuation resumes on the state of that moment. *)
Inductive Async (A : Type) : Type :=
| Ret (u : UI) (a : A)
| Fail (u : UI) (e : exn)
| Wait (u : UI) (reqs : list Request) (k : list Response -> UI -> Async A).
Arguments Ret {A} u a.
Arguments Fail {A} u e.
Arguments Wait {A} u reqs k.

Definition M (A : Type) : Type := UI -> Async A.

Fixpoint bindA {A B} (a : Async A) (f : A -> M B) : Async B :=
  match a with
  | Ret u x => f x u
  | Fail u e => Fail u e
  | Wait u reqs k => Wait u reqs (fun rs u' => bindA (k rs u') f)
  end.

(** [try { .. } catch (err) { .. }] *)
Fixpoint catchA {A} (a : Async A) (h : exn -> M A) : Async A :=
  match a with
  | Ret u x => Ret u x
  | Fail u e => h e u
  | Wait u reqs k => Wait u reqs (fun rs u' => catchA (k rs u') h)
  end.

Definition ret {A} (x : A) : M A := fun u => Ret u x.
Definition bind {A B} (m : M A) (f : A -> M B) : M B := fun u => bindA (m u) f.
Definition try_catch {A} (m : M A) (h : exn -> M A) : M A := fun u => catchA (m u) h.
Definition lift {A} (r : Result A) : M A :=
  fun u => match r with Ok a => Ret u a | Throw e => Fail u e end.
Definition gets {A} (f : UI -> A) : M A := fun u => Ret u (f u).
Definition modify (f : UI -> UI) : M unit := fun u => Ret (f u) tt.

(** One response per request, whatever the scheduler hands over. *)
Definition responses_for (reqs : list Request) (rs : list Response) : list Response :=
  map (fun i => nth i rs Rejected) (seq 0 (List.length reqs)).

(** [await] on the promises of a batch of [fetch] calls. *)
Definition await_all (reqs : list Request) : M (list Response) :=
  fun u => Wait u reqs (fun rs u' => Ret u' (responses_for reqs rs)).

Definition await_one (req : Request) : M Response :=
  fun u => Wait u [req] (fun rs u' => Ret u' (nth 0 rs Rejected)).

Notation "x <- m ;; k" := (bind m (fun x => k))
  (at level 100, m at next level, right associativity).
Notation "m >> k" := (bind m (fun _ => k))
  (at level 100, right associativity).

(** *** Helpers of the source *)

Section WithEngine.
Context `{Engine}.

(** Text of a number inside a template literal. *)
Definition num_text (n : number) : jsstring :=
  match n with
  | Fin z => if z <? 0 then 45%N :: decimal (- z) else decimal z
  | NaN => utf16 "NaN"
  end.

(** [String(v)], as template literals and [RegExp.prototype.test] apply it. *)
Definition ToString (v : value) : jsstring :=
  match v with
  | VUndef => utf16 "undefined"
  | VNull => utf16 "null"
  | VBool b => if b then utf16 "true" else utf16 "false"
  | VNum n => num_text n
  | VStr s => s
  | VArr _ | VObj _ => ObjToPrimitive v
  end.

(** [Number(v || 0)] *)
Definition numOr0 (v : value) : number := ToNumber (or_else v (VNum (Fin 0))).

(** [(Number(b) || 0)] *)
Definition numberOr0 (b : value) : number :=
  let n := ToNumber b in if num_truthy n then n else Fin 0.

(** [sum], line 17. *)
Definition sum (arr : value) : Result number :=
  if truthy arr then
    rbind (get_length arr) (fun len =>
      if truthy len then
        match arr with
        | VArr l => Ok (fold_left (fun a b => num_add a (numberOr0 b)) l (Fin 0))
        | _ => Throw TypeError
        end
      else Ok (Fin 0))
  else Ok (Fin 0).

Definition k_pass : jsstring := utf16 "pass".
Definition k_fail : jsstring := utf16 "fail".
Definition k_labels : jsstring := utf16 "labels".
Definition k_range : jsstring := utf16 "range".
Definition k_month : jsstring := utf16 "month".

(** ['all'] means no [?device=] parameter. *)
Definition deviceParam (u : UI) : option jsstring :=
  if jseqb (selectedDevice u) (utf16 "all") then None else Some (selectedDevice u).

Definition fetchJSON (req : Request) : M value :=
  r <- await_one req ;; lift (fetchJSON_of r).

(** One cell of the log table, lines 249-250:
    [data.pass && data.pass[h] != null ? data.pass[h] : 0]. *)
Definition hourCell (col : value) (h : Z) : Result value :=
  if truthy col then
    rbind (get_index col h) (fun x => Ok (if isNullish x then VNum (Fin 0) else x))
  else Ok (VNum (Fin 0)).

Definition hourRow (data : value) (h : Z) : Result Row :=
  rbind (get_prop data k_pass) (fun pcol =>
  rbind (hourCell pcol h) (fun p =>
  rbind (get_prop data k_fail) (fun fcol =>
  rbind (hourCell fcol h) (fun f =>
  Ok (HourRow h p f))))).

Fixpoint hourRows (n : nat) (h : Z) (data : value) : Result (list Row) :=
  match n with
  | O => Ok []
  | S n' => rbind (hourRow data h) (fun r =>
            rbind (hourRows n' (h + 1) data) (fun rs => Ok (r :: rs)))
  end.

(** [renderDayLog], lines 240-254. *)
Definition renderDayLog (dateStr : jsstring) (data : value) : M unit :=
  modify (with_dayLog (fun d => mkDayLog (logSummary d) [])) >>
  pcol <- lift (get_prop data k_pass) ;;
  sp <- lift (sum pcol) ;;
  fcol <- lift (get_prop data k_fail) ;;
  sf <- lift (sum fcol) ;;
  modify (with_dayLog (fun d => mkDayLog (DaySummary dateStr sp sf) (logTable d))) >>
  modify (with_dayLog (fun d => mkDayLog (logSummary d) (logTable d ++ [HeadRow]))) >>
  rows <- lift (hourRows 24 0 data) ;;
  modify (with_dayLog (fun d => mkDayLog (logSummary d) (logTable d ++ rows))).

(** The callback of [arr.forEach], lines 130-133. *)
Definition addItem (acc : number * number) (item : value) : Result (number * number) :=
  rbind (get_prop item k_pass) (fun p =>
  rbind (get_prop item k_fail) (fun f =>
  Ok (num_add (fst acc) (numOr0 p), num_add (snd acc) (numOr0 f)))).

Fixpoint sumItems (acc : number * number) (items : list value) : Result (number * number) :=
  match items with
  | [] => Ok acc
  | it :: r => rbind (addItem acc it) (fun acc' => sumItems acc' r)
  end.

(** [a[idx] = x] on an array that is long enough (the arrays of the source
    are made with 7 cells and indexed below 7). *)
Definition array_set {A} (idx : nat) (x : A) (a : list A) : list A :=
  firstn idx a ++ x :: skipn (S idx) a.

(** The callback of [perDayArr.forEach], lines 126-136. *)
Fixpoint groupLoop (idx : nat) (perDayArr : list value) (acc : list number * list number)
  : Result (list number * list number) :=
  match perDayArr with
  | [] => Ok acc
  | arr :: r =>
      match arr with
      | VArr items =>
          rbind (sumItems (Fin 0, Fin 0) items) (fun s =>
          groupLoop (S idx) r (array_set idx (fst s) (fst acc), array_set idx (snd s) (snd acc)))
      | _ => groupLoop (S idx) r acc
      end
  end.

Definition groupedCounts (perDayArr : list value) : Result (list number * list number) :=
  groupLoop 0 perDayArr (repeat (Fin 0) 7, repeat (Fin 0) 7).

(** [.catch(e => { console.warn('logs/day failed', dt, e); return []; })] on
    each of the day requests, line 124. *)
Fixpoint catchEach (dates : list jsstring) (rs : list Response) (u : UI) : UI * list value :=
  match dates, rs with
  | dt :: dates', r :: rs' =>
      match fetchJSON_of r with
      | Ok v => let (u', vs) := catchEach dates' rs' u in (u', v :: vs)
      | Throw e =>
          let (u', vs) := catchEach dates' rs' (log (ConsoleWarn (utf16 "logs/day failed") dt e) u) in
          (u', VArr [] :: vs)
      end
  | _, _ => (u, [])
  end.

Definition weekdays : list jsstring :=
  [utf16 "T2"; utf16 "T3"; utf16 "T4"; utf16 "T5"; utf16 "T6"; utf16 "T7"; utf16 "CN"].

(** The label of a day bar, lines 138-141.  A text that is not a date gives
    [weekdays[NaN]], printed as [undefined]. *)
Definition dayLabel (tz : Z) (d : jsstring) : value :=
  let wd := match Date_parse d with
            | Some t => let g := getDay tz t in
                        nth (Z.to_nat (if g =? 0 then 6 else g - 1)) weekdays (utf16 "undefined")
            | None => utf16 "undefined"
            end in
  VStr (wd ++ space ++ skipn 5 d).

(** The cumulative loop, lines 153-161, [n] turns from index [i]. *)
Fixpoint cumLoop (n : nat) (i : Z) (weekData : value) (pSum fSum : number)
  : Result (list number * list number) :=
  match n with
  | O => Ok ([], [])
  | S n' =>
      rbind (get_prop weekData k_pass) (fun pv =>
      rbind (get_index pv i) (fun x =>
      rbind (get_prop weekData k_fail) (fun fv =>
      rbind (get_index fv i) (fun y =>
      let pSum' := num_add pSum (numOr0 x) in
      let fSum' := num_add fSum (numOr0 y) in
      rbind (cumLoop n' (i + 1) weekData pSum' fSum') (fun r =>
      Ok (pSum' :: fst r, fSum' :: snd r))))))
  end.

(** Number of turns of [for (i = 0; i < len; i++)]. *)
Definition turns (len : value) : nat :=
  match ToNumber len with
  | Fin k => Z.to_nat k
  | NaN => O
  end.

Definition toCumulative (weekData : value) : Result (list number * list number) :=
  rbind (get_prop weekData k_labels) (fun lbl =>
  rbind (get_length lbl) (fun len =>
  cumLoop (turns len) 0 weekData (Fin 0) (Fin 0))).

(** [labels.map(l => l.slice(5))] *)
Definition shortLabels (lbl : value) : Result value :=
  rbind (array_map lbl (fun l _ => slice_from 5 l)) (fun ls => Ok (VArr ls)).

(** [arr.map(v => Number(v || 0))] *)
Definition numbersOf (arr : value) : Result (list number) :=
  array_map arr (fun v _ => Ok (numOr0 v)).

(** The rate line, lines 194-198 and 217-221. *)
Definition toRate (j : value) : Result (list float) :=
  rbind (get_prop j k_labels) (fun lbl =>
  array_map lbl (fun _ i =>
    rbind (get_prop j k_pass) (fun pv =>
    rbind (get_index pv i) (fun x =>
    rbind (get_prop j k_fail) (fun fv =>
    rbind (get_index fv i) (fun y =>
    Ok (rateOf (numOr0 x) (numOr0 y)))))))).

(** [Math.floor((day-1)/7)+1] on a number. *)
Definition weekIdxOf (day : number) : number :=
  match day with
  | Fin d => Fin (weekIdxOfDay d)
  | NaN => NaN
  end.

Definition Loi : jsstring := [76%N; 7895%N; 105%N].

(** *** The loaders *)

Section WithZone.
Variable tz : Z.

(** [loadDay], lines 111-170, by the three numbered steps of the source. *)

(** 1) the hourly counts of the selected date, for the log table *)
Definition dayStep1 (dateStr : jsstring) (dev : option jsstring) : M unit :=
  hourly <- fetchJSON (DataDay dateStr dev) ;;
  renderDayLog dateStr hourly.

(** 2) the grouped bars: one request per date of the week *)
Definition dayStep2 (dateStr : jsstring) (dev : option jsstring) : M unit :=
  weekDates <- lift (weekDatesFrom tz dateStr) ;;
  rs <- await_all (map (fun dt => LogsDay dt dev) weekDates) ;;
  perDayArr <- (fun u => let (u', vs) := catchEach weekDates rs u in Ret u' vs) ;;
  grouped <- lift (groupedCounts perDayArr) ;;
  modify (with_charts (upd_chart CDay (fun c =>
    set_data1 (snd grouped) (set_data0 (fst grouped)
      (set_labels (VArr (map (dayLabel tz) weekDates)) c))))).

(** 3) the growth of the week block of the date *)
Definition dayStep3 (dateStr : jsstring) (dev : option jsstring) : M unit :=
  let y := firstn 4 dateStr in
  let m := ToNumber (VStr (firstn 2 (skipn 5 dateStr))) in
  let day := ToNumber (VStr (firstn 2 (skipn 8 dateStr))) in
  let weekIdx := weekIdxOf day in
  weekData <- fetchJSON (DataWeek y (num_text m) (num_text weekIdx) dev) ;;
  cum <- lift (toCumulative weekData) ;;
  lbl <- lift (get_prop weekData k_labels) ;;
  short <- lift (shortLabels lbl) ;;
  modify (with_charts (upd_chart CWeek (fun c =>
    set_data1 (snd cum) (set_data0 (fst cum) (set_labels short c))))).

Definition loadDay (dateStr : jsstring) : M unit :=
  try_catch
    (dev <- gets deviceParam ;;
     dayStep1 dateStr dev >>
     dayStep2 dateStr dev >>
     dayStep3 dateStr dev)
    (fun err => modify (log (ConsoleError (utf16 "loadDay error") err))).

(** [loadWeek], lines 173-183. *)
Definition loadWeek (y m w : jsstring) : M unit :=
  try_catch
    (dev <- gets deviceParam ;;
     j <- fetchJSON (DataWeek y m w dev) ;;
     lbl <- lift (get_prop j k_labels) ;;
     short <- lift (shortLabels lbl) ;;
     modify (with_charts (upd_chart CWeek (set_labels short))) >>
     pv <- lift (get_prop j k_pass) ;;
     ps <- lift (numbersOf pv) ;;
     modify (with_charts (upd_chart CWeek (set_data0 ps))) >>
     fv <- lift (get_prop j k_fail) ;;
     fs <- lift (numbersOf fv) ;;
     modify (with_charts (upd_chart CWeek (set_data1 fs))) >>
     rg <- lift (get_prop j k_range) ;;
     modify (with_labels (set_weekLabel (or_else rg (VStr [])))))
    (fun err =>
       modify (log (ConsoleError (utf16 "loadWeek") err)) >>
       modify (with_labels (set_weekLabel (VStr Loi)))).

(** [loadMonth], lines 186-203. *)
Definition loadMonth (y m : jsstring) : M unit :=
  try_catch
    (dev <- gets deviceParam ;;
     j <- fetchJSON (DataMonth y m dev) ;;
     lbl <- lift (get_prop j k_labels) ;;
     modify (with_charts (upd_chart CMonth (set_labels lbl))) >>
     pv <- lift (get_prop j k_pass) ;;
     ps <- lift (numbersOf pv) ;;
     modify (with_charts (upd_chart CMonth (set_data0 ps))) >>
     fv <- lift (get_prop j k_fail) ;;
     fs <- lift (numbersOf fv) ;;
     modify (with_charts (upd_chart CMonth (set_data1 fs))) >>
     rate <- lift (toRate j) ;;
     modify (with_charts (upd_chart CMonth (set_data2 rate))) >>
     mo <- lift (get_prop j k_month) ;;
     modify (with_labels (set_monthLabel (or_else mo (VStr [])))))
    (fun err =>
       modify (log (ConsoleError (utf16 "loadMonth") err)) >>
       modify (with_labels (set_monthLabel (VStr Loi)))).

(** [loadYear], lines 206-237.  The year chart is created with its three
    datasets, so the rate goes to the third one. *)
Definition loadYear (y : jsstring) : M unit :=
  try_catch
    (dev <- gets deviceParam ;;
     j <- fetchJSON (DataYear y dev) ;;
     lbl <- lift (get_prop j k_labels) ;;
     modify (with_charts (upd_chart CYear (set_labels lbl))) >>
     pv <- lift (get_prop j k_pass) ;;
     passArr <- lift (numbersOf pv) ;;
     fv <- lift (get_prop j k_fail) ;;
     failArr <- lift (numbersOf fv) ;;
     modify (with_charts (upd_chart CYear (fun c => set_data1 failArr (set_data0 passArr c)))) >>
     rate <- lift (toRate j) ;;
     modify (with_charts (upd_chart CYear (set_data2 rate))) >>
     modify (with_labels (set_yearLabel (VStr y))))
    (fun err =>
       modify (log (ConsoleError (utf16 "loadYear") err)) >>
       modify (with_labels (set_yearLabel (VStr Loi)))).

(** *** Selectors *)

(** [select.value]: [None] reads as the empty string. *)
Definition sel_value (s : Select) : option Z :=
  match selectedIndex s with
  | Some i => option_map optValue (nth_error (options s) i)
  | None => None
  end.

(** The text of [select.value] when it is interpolated into a URL. *)
Definition sel_text (s : Select) : jsstring :=
  match sel_value s with
  | Some z => num_text (Fin z)
  | None => []
  end.

Fixpoint find_index (v : Z) (opts : list SelOption) (i : nat) : option nat :=
  match opts with
  | [] => None
  | o :: r => if optValue o =? v then Some i else find_index v r (S i)
  end.

(** [select.value = String(v)]: the first option with that value becomes
    the selected one; when there is none the select is left without a
    selection. *)
Definition set_value (v : number) (s : Select) : Select :=
  mkSelect (options s)
           (match v with
            | Fin z => find_index z (options s) 0
            | NaN => None
            end).

(** [select.innerHTML = html] with options that carry no [selected]
    attribute: a drop-down shows its first option. *)
Definition set_options (opts : list SelOption) : Select :=
  mkSelect opts (match opts with [] => None | _ :: _ => Some O end).

Definition set_dayInput (v : jsstring) (s : Selectors) : Selectors :=
  mkSelectors v (weekYear s) (weekMonth s) (weekIndex s) (monthYear s) (monthSelect s) (yearSelect s).
Definition upd_weekYear (f : Select -> Select) (s : Selectors) : Selectors :=
  mkSelectors (dayInput s) (f (weekYear s)) (weekMonth s) (weekIndex s) (monthYear s) (monthSelect s) (yearSelect s).
Definition upd_weekMonth (f : Select -> Select) (s : Selectors) : Selectors :=
  mkSelectors (dayInput s) (weekYear s) (f (weekMonth s)) (weekIndex s) (monthYear s) (monthSelect s) (yearSelect s).
Definition upd_weekIndex (f : Select -> Select) (s : Selectors) : Selectors :=
  mkSelectors (dayInput s) (weekYear s) (weekMonth s) (f (weekIndex s)) (monthYear s) (monthSelect s) (yearSelect s).
Definition upd_monthYear (f : Select -> Select) (s : Selectors) : Selectors :=
  mkSelectors (dayInput s) (weekYear s) (weekMonth s) (weekIndex s) (f (monthYear s)) (monthSelect s) (yearSelect s).
Definition upd_monthSelect (f : Select -> Select) (s : Selectors) : Selectors :=
  mkSelectors (dayInput s) (weekYear s) (weekMonth s) (weekIndex s) (monthYear s) (f (monthSelect s)) (yearSelect s).
Definition upd_yearSelect (f : Select -> Select) (s : Selectors) : Selectors :=
  mkSelectors (dayInput s) (weekYear s) (weekMonth s) (weekIndex s) (monthYear s) (monthSelect s) (f (yearSelect s)).

Definition weekOption (b : Z * Z * Z) : SelOption :=
  mkOption (fst (fst b)) (WeekRange (snd (fst b)) (snd b)).

(** [buildWeekIndex], lines 384-394.  When a select has no selection
    [parseInt] gives NaN, so does [days], and the loop does not run. *)
Definition buildWeekIndex (u : UI) : UI :=
  let opts :=
    match sel_value (weekYear (selectors u)), sel_value (weekMonth (selectors u)) with
    | Some y, Some m => map weekOption (weekOptions (daysInMonth y m))
    | _, _ => []
    end in
  with_selectors (upd_weekIndex (fun _ => set_options opts)) u.

(** [populateSelects], lines 371-383, at the time value [now]. *)
Definition populateSelects (now : Z) (u : UI) : UI :=
  let thisYear := getFullYear tz now in
  let years := map (fun y => mkOption y Plain) [thisYear - 2; thisYear - 1; thisYear; thisYear + 1] in
  let ysel := mkSelect years (Some 2%nat) in
  let months := map (fun i => mkOption (Z.of_nat i + 1) Plain) (seq 0 12) in
  let msel := mkSelect months (Some (Z.to_nat (getMonth1 tz now - 1))) in
  buildWeekIndex
    (with_selectors (fun s => mkSelectors (dayInput s) ysel msel (weekIndex s) ysel msel ysel) u).

(** [syncSelectionsFromDate], lines 395-405. *)
Definition syncSelectionsFromDate (dateStr : jsstring) (u : UI) : UI :=
  match Date_parse dateStr with
  | None => u
  | Some d =>
      let yyyy := getFullYear tz d in
      let mm := getMonth1 tz d in
      let dd := getDate tz d in
      let u1 := with_selectors (fun s =>
                  upd_monthSelect (set_value (Fin mm)) (upd_weekMonth (set_value (Fin mm))
                    (upd_yearSelect (set_value (Fin yyyy)) (upd_monthYear (set_value (Fin yyyy))
                      (upd_weekYear (set_value (Fin yyyy)) (set_dayInput dateStr s)))))) u in
      let u2 := buildWeekIndex u1 in
      let wk := weekIdxOfDay dd in
      with_selectors (upd_weekIndex (set_value (Fin wk))) u2
  end.

(** *** The event loop *)

(** A loader that awaits is parked with its continuation until its requests
    settle.  Nothing else is kept with it: no selection, no sequence number. *)
Record Task : Type := mkTask {
  pending : list Request;
  resume : list Response -> UI -> Async unit
}.

Record World : Type := mkWorld {
  ui : UI;
  tasks : list (nat * Task);
  fresh : nat
}.

Definition settle (a : Async unit) (ts : list (nat * Task)) (n : nat) : World :=
  match a with
  | Ret u _ => mkWorld u ts n
  | Fail u _ => mkWorld u ts n
  | Wait u reqs k => mkWorld u (ts ++ [(n, mkTask reqs k)]) (S n)
  end.

(** Calling an [async] function without awaiting it. *)
Definition launch (m : M unit) (w : World) : World :=
  settle (m (ui w)) (tasks w) (fresh w).

Fixpoint take_task (id : nat) (ts : list (nat * Task)) : option (Task * list (nat * Task)) :=
  match ts with
  | [] => None
  | (i, t) :: r =>
      if Nat.eqb i id then Some (t, r)
      else match take_task id r with
           | Some (t', r') => Some (t', (i, t) :: r')
           | None => None
           end
  end.

(** The requests of task [id] settle with [rs]; its continuation runs on the
    page as it is now. *)
Definition deliver (id : nat) (rs : list Response) (w : World) : World :=
  match take_task id (tasks w) with
  | Some (t, rest) => settle (resume t rs (ui w)) rest (fresh w)
  | None => w
  end.

(** Running an awaited computation to its end against a server that answers
    every request at once. *)
Fixpoint run {A} (server : Request -> Response) (a : Async A) : UI * Result A :=
  match a with
  | Ret u x => (u, Ok x)
  | Fail u e => (u, Throw e)
  | Wait u reqs k => run server (k (map server reqs) u)
  end.

(** The four awaited loads of [start], lines 501-504. *)
Definition startLoads (today : jsstring) : M unit :=
  loadDay today >>
  (u <- gets (fun u => u) ;;
   loadWeek (sel_text (weekYear (selectors u))) (sel_text (weekMonth (selectors u)))
            (sel_text (weekIndex (selectors u)))) >>
  (u <- gets (fun u => u) ;;
   loadMonth (sel_text (monthYear (selectors u))) (sel_text (monthSelect (selectors u)))) >>
  (u <- gets (fun u => u) ;;
   loadYear (sel_text (yearSelect (selectors u)))).

(** *** Drill-down, lines 408-436 *)









Definition Tuan : jsstring := [84%N; 117%N; 7847%N; 110%N].
Definition Thang : jsstring := [84%N; 104%N; 225%N; 110%N; 103%N].

Definition with_ui (f : UI -> UI) (w : World) : World :=
  mkWorld (f (ui w)) (tasks w) (fresh w).

(** [$('chartWeek').onclick]; [hit] is the index of the element Chart.js
    reports under the pointer, if any.  [labelsFull] is assigned nowhere in
    the source, so the [else] branch does nothing.  A label is handed on as
    its text. *)
Definition clickWeek (hit : option nat) (w : World) : Result World :=
  match hit with
  | None => Ok w
  | Some idx =>
      rbind (get_index (labels (week (charts (ui w)))) (Z.of_nat idx)) (fun label =>
      let text := ToString label in
      match parseIsoFields text with
      | Some _ => Ok (launch (loadDay text) (with_ui (syncSelectionsFromDate text) w))
      | None => Ok w
      end)
  end.




End WithZone.
End WithEngine.

(** The page after [createCharts], lines 25-79, before anything is loaded. *)
Definition emptyChart : Chart := mkChart (VArr []) [] [] [].
Definition emptySelect : Select := mkSelect [] None.
Definition initialUI : UI :=
  mkUI (utf16 "all")
       (mkCharts emptyChart emptyChart emptyChart emptyChart)
       (mkLabels (VStr []) (VStr []) (VStr []))
       (mkDayLog NoSummary [])
       (mkSelectors [] emptySelect emptySelect emptySelect emptySelect emptySelect emptySelect)
       [] [].

(** *** Vocabulary of the statements *)

(** [untouched t u u']: from [u] to [u'] the selected device, the selectors
    and the dialogs are the same, so is every chart outside [t], and the
    console has only grown. *)
Definition untouched (t : ChartId -> bool) (u u' : UI) : Prop :=
  selectedDevice u' = selectedDevice u
  /\ selectors u' = selectors u
  /\ dialogs u' = dialogs u
  /\ (forall id, t id = false -> chart id (charts u') = chart id (charts u))
  /\ exists l, console u' = console u ++ l.

(** The field [k] of an item, [undefined] when there is none. *)
Definition field (k : jsstring) (item : value) : value :=
  match get_prop item k with
  | Ok v => v
  | Throw _ => VUndef
  end.

(** The total of field [k] over the device rows of a day. *)
Definition dayTotal `{Engine} (k : jsstring) (items : list value) : number :=
  fold_left (fun a it => num_add a (numOr0 (field k it))) items (Fin 0).

(** What [perDayArr.forEach] contributes for one day: the totals of an
    array, nothing for anything else. *)
Definition dayCell `{Engine} (k : jsstring) (old : number) (arr : value) : number :=
  match arr with
  | VArr items => dayTotal k items
  | _ => old
  end.

(** The rows of a day are read without error when none of them is [null]. *)
Definition rowsOk (arr : value) : Prop :=
  match arr with
  | VArr items => Forall (fun it => isNullish it = false) items
  | _ => True
  end.

(** What [.catch] turns a settled day request into. *)
Definition caught (r : Response) : value :=
  match fetchJSON_of r with
  | Ok v => v
  | Throw _ => VArr []
  end.

(** The cell of the log table for hour [h] of a column. *)
Definition cellOf (col : value) (h : Z) : value :=
  match hourCell col h with
  | Ok v => v
  | Throw _ => VNum (Fin 0)
  end.

(** A payload whose [labels], [pass] and [fail] are arrays; nothing is said
    of their lengths or of what they hold. *)
Definition payloadArrays (j : value) (lbls ps fs : list value) : Prop :=
  get_prop j k_labels = Ok (VArr lbls)
  /\ get_prop j k_pass = Ok (VArr ps)
  /\ get_prop j k_fail = Ok (VArr fs).

(** The entry of an array at position [i], [undefined] past its end. *)
Definition entry (l : list value) (i : nat) : value := nth i l VUndef.








(** A JSON array of integer counts. *)
Definition counts (l : list Z) : list value := map (fun z => VNum (Fin z)) l.

(** The shape of [/data/day]: an object whose [pass] and [fail] are arrays
    (or absent). *)
Definition isColumn (v : value) : bool :=
  match v with
  | VArr _ | VUndef | VNull => true
  | _ => false
  end.

Definition hourlyShape (v : value) : bool :=
  match v with
  | VObj fs => isColumn (lookup_field k_pass fs) && isColumn (lookup_field k_fail fs)
  | _ => false
  end.

Definition only (c : ChartId) (id : ChartId) : bool :=
  match c, id with
  | CDay, CDay | CWeek, CWeek | CMonth, CMonth | CYear, CYear => true
  | _, _ => false
  end.

Definition dayAndWeek (id : ChartId) : bool :=
  match id with
  | CDay | CWeek => true
  | _ => false
  end.

(** The values of the options of a select, in their order. *)
Definition values (s : Select) : list Z := map optValue (options s).

(** An asynchronous computation that has come to its end: it returned or
    threw, and awaits nothing. *)
Definition settled {A} (a : Async A) : Prop :=
  match a with
  | Wait _ _ _ => False
  | _ => True
  end.

(** A computation that, run to its end against any server, relates the
    state it starts from to the state it leaves by [R]. *)
Definition Keeps (R : UI -> UI -> Prop) {A} (m : M A) : Prop :=
  forall server u, R u (fst (run server (m u))).

End Dashboard.
Import Dashboard.

(** ** The rest of the page: buttons, timer, calendar popup *)

Module Controls.

(** *** More of [Date] *)

(** [MakeDay(year, month, date)] with a 0-based month that may lie outside
    0..11 and a date that may lie outside the month. *)
Definition MakeDay (y m0 d : Z) : Z :=
  days_from_civil (y + m0 / 12) (m0 mod 12 + 1) 1 + d - 1.

(** [new Date(y, m0, d)]: local midnight of that day; the constructor takes
    the years 0..99 as 1900..1999. *)
Definition Date_local (tz y m0 d : Z) : Z :=
  let yy := if (0 <=? y) && (y <=? 99) then 1900 + y else y in
  UTC tz (MakeDay yy m0 d * msPerDay).

(** [d.setMonth(mon)]: the month is replaced in local time, the day of the
    month and the time of day are kept, and a day past the end of the new
    month carries over into the next one. *)
Definition setMonth (tz t mon : Z) : Z :=
  let lt := LocalTime tz t in
  let '(y, _, d) := civil_from_days (Day lt) in
  UTC tz (MakeDay y mon d * msPerDay + TimeWithinDay lt).

(** [s.padStart(n, '0')] *)
Definition padStart0 (n : nat) (s : jsstring) : jsstring :=
  repeat 48%N (n - List.length s) ++ s.

(** *** The calendar popup, lines 307-356 *)

(** A cell of the month table: an empty [td], or a [td] with the button of
    day [d], the date text its click handler holds, and whether it carries
    the class [today]. *)
Inductive Cell : Type :=
| Blank
| DayButton (d : Z) (iso : jsstring) (today : bool).

Record MonthTable : Type := mkMonthTable {
  calTitle : jsstring;
  calRows : list (list Cell)
}.

(** The text [iso] of line 340. *)
Definition calendarIso (y m d : Z) : jsstring :=
  padStart0 4 (num_text (Fin y)) ++ [dash] ++ padStart0 2 (num_text (Fin m))
  ++ [dash] ++ padStart0 2 (num_text (Fin d)).

(** The test of line 342, with the clock at [now]. *)
Definition isToday (tz now y m d : Z) : bool :=
  (getFullYear tz now =? y) && (getMonth1 tz now =? m) && (getDate tz now =? d).

(** The loop of lines 336-346, [n] turns from day [d] on: the open row and
    the rows already appended to [tbody]. *)
Fixpoint renderLoop (tz now y m startWeekday : Z) (n : nat) (d : Z)
    (row : list Cell) (tbody : list (list Cell)) : list Cell * list (list Cell) :=
  match n with
  | O => (row, tbody)
  | S n' =>
      let weekday := Z.rem (startWeekday + d - 1) 7 in
      let row' := row ++ [DayButton d (calendarIso y m d) (isToday tz now y m d)] in
      if weekday =? 6 then renderLoop tz now y m startWeekday n' (d + 1) [] (tbody ++ [row'])
      else renderLoop tz now y m startWeekday n' (d + 1) row' tbody
  end.

(** [render(y, m)], lines 328-348, at the clock value [now]. *)
Definition render (tz now y m : Z) : MonthTable :=
  let first := Date_local tz y (m - 1) 1 in
  let startWeekday := getDay tz first in
  let days := daysInMonth y m in
  let '(row, tbody) :=
    renderLoop tz now y m startWeekday (Z.to_nat days) 1
               (repeat Blank (Z.to_nat startWeekday)) [] in
  mkMonthTable (num_text (Fin y) ++ utf16 " - " ++ padStart0 2 (num_text (Fin m)))
               (match row with [] => tbody | _ :: _ => tbody ++ [row] end).

(** [btnPrev.onclick] and [btnNext.onclick], lines 350-351: the new value of
    [cur]; the table is then rendered for its local year and month. *)
Definition calendarPrev (tz cur : Z) : Z := setMonth tz cur (getMonth1 tz cur - 1 - 1).
Definition calendarNext (tz cur : Z) : Z := setMonth tz cur (getMonth1 tz cur - 1 + 1).

Definition shownMonth (tz cur : Z) : Z * Z := (getFullYear tz cur, getMonth1 tz cur).

(** *** Buttons, lines 439-471, and the view reload, lines 473-487 *)

(** [alert(msg)] *)
Definition alert (msg : jsstring) (u : UI) : UI :=
  mkUI (selectedDevice u) (charts u) (viewLabels u) (dayLog u) (selectors u)
       (console u) (dialogs u ++ [msg]).

Definition ChonNgay : jsstring :=
  [67; 104; 7885; 110; 32; 110; 103; 224; 121]%N.

Section WithEngine.
Context `{Engine}.
Variable tz : Z.

(** The click handler of a day button of the calendar, line 343. *)
Definition pickDay (iso : jsstring) (w : World) : World :=
  launch (loadDay tz iso) (with_ui (with_selectors (set_dayInput iso)) w).

(** [$('btnLoadDay').onclick] *)
Definition clickLoadDay (w : World) : World :=
  match dayInput (selectors (ui w)) with
  | [] => with_ui (alert ChonNgay) w
  | d => launch (loadDay tz d) (with_ui (syncSelectionsFromDate tz d) w)
  end.

(** [$('btnLoadWeek').onclick], [$('btnLoadMonth').onclick],
    [$('btnLoadYear').onclick] *)
Definition weekOfSelectors : M unit :=
  fun u => loadWeek (sel_text (weekYear (selectors u))) (sel_text (weekMonth (selectors u)))
                    (sel_text (weekIndex (selectors u))) u.
Definition monthOfSelectors : M unit :=
  fun u => loadMonth (sel_text (monthYear (selectors u))) (sel_text (monthSelect (selectors u))) u.
Definition yearOfSelectors : M unit :=
  fun u => loadYear (sel_text (yearSelect (selectors u))) u.

Definition clickLoadWeek (w : World) : World := launch weekOfSelectors w.
Definition clickLoadMonth (w : World) : World := launch monthOfSelectors w.
Definition clickLoadYear (w : World) : World := launch yearOfSelectors w.

(** [reloadCurrentView], lines 473-487.  [active] is [dataset.period] of the
    side button that carries the class [active], if there is one. *)
Definition reloadCurrentView (active : option jsstring) (now : Z) (w : World) : World :=
  match active with
  | None => w
  | Some period =>
      if jseqb period (utf16 "day") then
        let d := match dayInput (selectors (ui w)) with
                 | [] => toISODate now
                 | s => s
                 end in
        launch (loadDay tz d) w
      else if jseqb period (utf16 "week") then launch weekOfSelectors w
      else if jseqb period (utf16 "month") then launch monthOfSelectors w
      else if jseqb period (utf16 "year") then launch yearOfSelectors w
      else w
  end.

(** The click handlers of the device list, lines 270 and 278, as far as the
    charts go: the device is selected and the current view reloaded. *)
Definition set_device (name : jsstring) (u : UI) : UI :=
  mkUI name (charts u) (viewLabels u) (dayLog u) (selectors u) (console u) (dialogs u).

Definition chooseDevice (name : jsstring) (active : option jsstring) (now : Z) (w : World) : World :=
  reloadCurrentView active now (with_ui (set_device name) w).

(** [activePeriod === p], where [activePeriod] is [undefined] when no side
    button is active. *)
Definition activeIs (active : option jsstring) (p : string) : bool :=
  match active with
  | Some a => jseqb a (utf16 p)
  | None => false
  end.

(** The loads of the timer callback, lines 508-519. *)
Definition tickLoads (active : option jsstring) (now : Z) : M unit :=
  fun u =>
    let selected := dayInput (selectors u) in
    let todayNow := toISODate now in
    if activeIs active "day" && jseqb selected todayNow then loadDay tz selected u
    else if activeIs active "week" then weekOfSelectors u
    else if activeIs active "month" then monthOfSelectors u
    else if activeIs active "year" then yearOfSelectors u
    else ret tt u.

(** The selectors at start-up, lines 492-498: [populateSelects] reads the
    clock at [now], [start] reads it again at [now']. *)
Definition startSelectors (now now' : Z) (u : UI) : UI :=
  let today := toISODate now' in
  syncSelectionsFromDate tz today
    (with_selectors (set_dayInput today) (populateSelects tz now u)).

(** [start], lines 490-504, as far as the charts go: the selectors, then
    the four awaited loads.  ([fetchDevices] asks another endpoint and draws
    the device list only.) *)
Definition startPage (now now' : Z) : M unit :=
  fun u => startLoads tz (toISODate now') (startSelectors now now' u).

End WithEngine.

(** *** Vocabulary of the statements *)

(** The charts of the view that is active. *)
Definition viewCharts (active : option jsstring) (id : ChartId) : bool :=
  if activeIs active "day" then dayAndWeek id
  else if activeIs active "week" then only CWeek id
  else if activeIs active "month" then only CMonth id
  else if activeIs active "year" then only CYear id
  else false.

(** The requests a computation issues, in order, when it is run to its end
    against a server. *)
Fixpoint trace {A} (server : Request -> Response) (a : Async A) : list Request :=
  match a with
  | Wait u reqs k => reqs ++ trace server (k (map server reqs) u)
  | _ => []
  end.

(** The [?device=] parameter of a request. *)
Definition device_of (r : Request) : option jsstring :=
  match r with
  | DataDay _ d | LogsDay _ d | DataWeek _ _ _ d | DataMonth _ _ d | DataYear _ d => d
  end.

(** Every request a computation issues satisfies [P], whatever the server
    answers. *)
Definition Sends (P : Request -> Prop) {A} (m : M A) : Prop :=
  forall server u, Forall P (trace server (m u)).

(** The buttons of the days [d], [d + 1], .., [n] of them. *)
Definition dayButtons (tz now y m d : Z) (n : nat) : list Cell :=
  map (fun k => DayButton (d + Z.of_nat k) (calendarIso y m (d + Z.of_nat k))
                          (isToday tz now y m (d + Z.of_nat k)))
      (seq 0 n).

(** The month before and the month after month [m] of year [y]. *)
Definition monthBefore (y m : Z) : Z * Z := if m =? 1 then (y - 1, 12) else (y, m - 1).
Definition monthAfter (y m : Z) : Z * Z := if m =? 12 then (y + 1, 1) else (y, m + 1).

End Controls.
Import Controls.


(** ** Data of the examples *)


Definition okResponse (v : value) : Response := Http 200 (utf16 "OK") [] (Some v).

(** One device row with its counts. *)
Definition deviceRow (p f : Z) : value :=
  VObj [(utf16 "device_id", VStr (utf16 "M1")); (k_pass, VNum (Fin p)); (k_fail, VNum (Fin f))].

Definition payload (lbls : list string) (ps fs : list Z) : value :=
  VObj [(k_labels, VArr (map (fun l => VStr (utf16 l)) lbls));
        (k_pass, VArr (counts ps)); (k_fail, VArr (counts fs))].

(** An answer of [/data/week] with one label. *)
Definition weekAnswer (label : string) (p f : Z) : Response :=
  okResponse (payload [label] [p] [f]).

(** The server of scenario 1 of the specification: the week of 2024-01-10,
    with the request of Wednesday answered by a 500. *)
Definition scenarioServer (r : Request) : Response :=
  match r with
  | DataDay _ _ =>
      okResponse (VObj [(k_pass, VArr (counts (repeat 1 24))); (k_fail, VArr (counts [2]))])
  | LogsDay d _ =>
      if jseqb d (utf16 "2024-01-08") then okResponse (VArr [deviceRow 5 1])
      else if jseqb d (utf16 "2024-01-09") then okResponse (VArr [deviceRow 4 2; deviceRow 6 0])
      else if jseqb d (utf16 "2024-01-10")
           then Http 500 (utf16 "Internal Server Error") (utf16 "boom") None
      else if jseqb d (utf16 "2024-01-11") then okResponse (VArr [deviceRow 3 0])
      else if jseqb d (utf16 "2024-01-12") then okResponse (VArr [deviceRow 8 1])
      else if jseqb d (utf16 "2024-01-13") then okResponse (VArr [deviceRow 2 0])
      else okResponse (VArr [deviceRow 1 0])
  | DataWeek _ _ _ _ => Http 503 (utf16 "Service Unavailable") (utf16 "down") None
  | DataMonth _ _ _ => okResponse (payload ["Tuan 1"; "Tuan 2"]%string [40; 35] [10; 5])
  | DataYear _ _ => okResponse (payload ["Tuan 1"; "Tuan 2"]%string [40; 35] [10; 5])
  end.

(** The page on 15 March 2023, seven hours east of Greenwich, with week 5
    (days 29-31) picked in the week selector. *)
Definition march2023 : UI :=
  with_selectors (upd_weekIndex (fun s => mkSelect (options s) (Some 4%nat)))
                 (populateSelects 420 (days_from_civil 2023 3 15 * msPerDay) initialUI).

(** A page whose month chart shows the week blocks and whose year chart
    shows the months, as labelled by the server. *)
Definition labelled (ls : list jsstring) (c : Chart) : Chart :=
  set_labels (VArr (map VStr ls)) c.

Definition drillWorld : World :=
  mkWorld
    (with_charts (fun cs =>
       upd_chart CWeek (labelled [utf16 "2023-03-15"; utf16 "03-16"])
         (upd_chart CMonth (labelled [Tuan ++ utf16 " 1"; Tuan ++ utf16 " 2"; Tuan ++ utf16 " 3"])
            (upd_chart CYear (labelled [Thang ++ utf16 " 1"; Thang ++ utf16 " 2"; utf16 "03"]) cs)))
       march2023)
    [] 0.


(** An engine to run the examples with: digits, the empty text and the two
    most common object texts; any other text is not a number. *)
Definition exampleStringToNumber (s : jsstring) : number :=
  match s with
  | [] => Fin 0
  | _ => match digits_val 0 s with
         | Some z => Fin z
         | None => NaN
         end
  end.

Definition exampleObjToPrimitive (v : value) : jsstring :=
  match v with
  | VArr [] => []
  | _ => utf16 "[object Object]"
  end.

Lemma exampleStringToNumber_digits s z :
  s <> [] -> digits_val 0 s = Some z -> exampleStringToNumber s = Fin z.
Proof.
  intros Hs Hz. unfold exampleStringToNumber.
  destruct s as [|c r]; [congruence|]. now rewrite Hz.
Qed.

#[export] Instance exampleEngine : Engine :=
  Build_Engine exampleStringToNumber exampleObjToPrimitive exampleStringToNumber_digits.

(* ====================================================================== *)
(** * Part II: properties                                                  *)
(* ====================================================================== *)

(** ** The calendar *)

Lemma days_from_civil_shift y m d k :
  days_from_civil y m (d + k) = days_from_civil y m d + k.
Proof. unfold days_from_civil. lia. Qed.

Ltac split_ifs :=
  repeat match goal with
  | |- context [(?x <=? ?y)] => destruct (Z.leb_spec x y)
  | |- context [(?x <? ?y)] => destruct (Z.ltb_spec x y)
  | |- context [(?x =? ?y)] => destruct (Z.eqb_spec x y)
  end.

Ltac div_lia := Z.div_mod_to_equations; lia.

(** Day number -> date -> day number. *)
Lemma days_from_civil_from_days z :
  days_from_civil (fst (fst (civil_from_days z))) (snd (fst (civil_from_days z)))
                  (snd (civil_from_days z)) = z.
Proof.
  unfold civil_from_days, days_from_civil. cbv zeta. cbn [fst snd].
  set (doe := z + 719468 - (z + 719468) / 146097 * 146097).
  set (yoe := (doe - doe / 1460 + doe / 36524 - doe / 146096) / 365).
  set (doy := doe - (365 * yoe + yoe / 4 - yoe / 100)).
  set (mp := (5 * doy + 2) / 153).
  assert (Hdoe : 0 <= doe <= 146096) by (subst doe; div_lia).
  assert (Hy : 0 <= yoe <= 399 /\ 0 <= doy <= 365) by (subst doy yoe; div_lia).
  assert (Hmp : 0 <= mp <= 11) by (subst mp; div_lia).
  destruct (Z.ltb_spec mp 10).
  - destruct (Z.leb_spec (mp + 3) 2); [lia|].
    destruct (Z.ltb_spec 2 (mp + 3)); [|lia].
    replace (mp + 3 - 3) with mp by lia.
    subst mp doy yoe doe; div_lia.
  - destruct (Z.leb_spec (mp - 9) 2); [|lia].
    destruct (Z.ltb_spec 2 (mp - 9)); [lia|].
    replace (mp - 9 + 9) with mp by lia.
    replace (yoe + (z + 719468) / 146097 * 400 + 1 - 1) with (yoe + (z + 719468) / 146097 * 400) by lia.
    subst mp doy yoe doe; div_lia.
Qed.

Lemma isLeap_spec y :
  isLeap y = true <-> (y mod 4 = 0 /\ y mod 100 <> 0) \/ y mod 400 = 0.
Proof.
  unfold isLeap. rewrite orb_true_iff, andb_true_iff, negb_true_iff, !Z.eqb_eq, Z.eqb_neq.
  tauto.
Qed.

Lemma triple_eq {A B C} (a a' : A) (b b' : B) (c c' : C) :
  a = a' -> b = b' -> c = c' -> (a, b, c) = (a', b', c').
Proof. now intros -> -> ->. Qed.

Lemma yoe_inv yoe doy :
  0 <= yoe <= 399 -> 0 <= doy ->
  (doy <= 364 \/ (doy = 365 /\ (((yoe + 1) mod 4 = 0 /\ (yoe + 1) mod 100 <> 0) \/ (yoe + 1) mod 400 = 0))) ->
  let doe := yoe * 365 + yoe / 4 - yoe / 100 + doy in
  0 <= doe <= 146096 /\ (doe - doe / 1460 + doe / 36524 - doe / 146096) / 365 = yoe.
Proof.
  intros Hy Hd Hl doe. subst doe.
  destruct Hl as [Hl|[Hl [Hl'|Hl']]]; div_lia.
Qed.

Lemma month_inv mp d :
  0 <= mp <= 11 -> 1 <= d ->
  d <= (if mp =? 11 then 29 else (153 * (mp + 1) + 2) / 5 - (153 * mp + 2) / 5) ->
  let doy := (153 * mp + 2) / 5 + d - 1 in
  (5 * doy + 2) / 153 = mp /\ doy - (153 * mp + 2) / 5 + 1 = d.
Proof.
  intros Hm Hd1 Hd2 doy. subst doy.
  destruct (Z.eqb_spec mp 11); split; div_lia.
Qed.

(** Date -> day number -> date, for calendar dates. *)
Lemma civil_from_days_from_civil y m d :
  validDate y m d = true -> civil_from_days (days_from_civil y m d) = (y, m, d).
Proof.
  unfold validDate. rewrite !andb_true_iff, !Z.leb_le. intros [[[Hm1 Hm2] Hd1] Hd2].
  unfold civil_from_days, days_from_civil. cbv zeta.
  set (y' := if m <=? 2 then y - 1 else y).
  set (mp := if 2 <? m then m - 3 else m + 9).
  set (era := y' / 400). set (yoe := y' - era * 400).
  set (doy := (153 * mp + 2) / 5 + d - 1).
  set (doe := yoe * 365 + yoe / 4 - yoe / 100 + doy).
  assert (Hyoe : 0 <= yoe <= 399) by (subst yoe era; div_lia).
  assert (Hmp : 0 <= mp <= 11 /\ (m = if mp <? 10 then mp + 3 else mp - 9)).
  { subst mp. destruct (Z.ltb_spec 2 m); split_ifs; lia. }
  destruct Hmp as [Hmp Hm].
  assert (Hy : y = if m <=? 2 then y' + 1 else y').
  { subst y'. destruct (Z.leb_spec m 2); lia. }
  assert (Hlen : d <= (if mp =? 11 then 29 else (153 * (mp + 1) + 2) / 5 - (153 * mp + 2) / 5)
                 /\ (mp = 11 -> d <= 28 \/ isLeap y = true)).
  { unfold monthLength in Hd2. subst mp.
    destruct (isLeap y);
      repeat match type of Hd2 with
             | context [Z.eqb ?a ?b] => destruct (Z.eqb_spec a b)
             end; cbn [orb] in Hd2;
      (split; [split_ifs; div_lia | split_ifs; intros; first [left; lia | right; reflexivity | lia]]). }
  destruct Hlen as [Hlen Hfeb].
  destruct (month_inv mp d Hmp Hd1 Hlen) as [Hmi Hdi]. fold doy in Hmi, Hdi.
  clearbody mp.
  assert (Hdoy : 0 <= doy /\ (doy <= 364 \/ (doy = 365 /\
            (((yoe + 1) mod 4 = 0 /\ (yoe + 1) mod 100 <> 0) \/ (yoe + 1) mod 400 = 0)))).
  { split; [subst doy; div_lia|].
    destruct (Z.eq_dec mp 11) as [E|E].
    - destruct (Hfeb E) as [Hd28|Hl]; [left; subst doy mp; div_lia|].
      apply isLeap_spec in Hl.
      assert (Hm2' : m = 2) by (rewrite Hm, E; reflexivity).
      assert (Hy1 : y = y' + 1) by (rewrite Hy, Hm2'; reflexivity).
      assert (Hd365 : doy <= 365) by (subst doy mp; cbn in Hlen; div_lia).
      destruct (Z.eq_dec doy 365) as [E5|E5]; [right; split; [exact E5|]|left; lia].
      subst yoe era. clear - Hl Hy1. clearbody y'. subst y. div_lia.
    - left. subst doy. destruct (Z.eqb_spec mp 11); [lia|]. div_lia. }
  destruct Hdoy as [Hdoy0 Hdoy].
  destruct (yoe_inv yoe doy Hyoe Hdoy0 Hdoy) as [Hdoe Hinv]. fold doe in Hdoe, Hinv.
  replace (era * 146097 + doe - 719468 + 719468) with (era * 146097 + doe) by lia.
  assert (Hera : (era * 146097 + doe) / 146097 = era) by div_lia.
  rewrite Hera.
  replace (era * 146097 + doe - era * 146097) with doe by lia.
  rewrite Hinv.
  replace (doe - (365 * yoe + yoe / 4 - yoe / 100)) with doy by (subst doe; lia).
  rewrite Hmi, Hdi, <- Hm.
  replace (yoe + era * 400) with y' by (subst yoe; lia).
  rewrite <- Hy. reflexivity.
Qed.


Lemma isLeap_cases y :
  (isLeap y = true /\ ((y mod 4 = 0 /\ y mod 100 <> 0) \/ y mod 400 = 0))
  \/ (isLeap y = false /\ ~ ((y mod 4 = 0 /\ y mod 100 <> 0) \/ y mod 400 = 0)).
Proof.
  destruct (isLeap y) eqn:E; [left|right]; split; auto.
  - now apply isLeap_spec.
  - intro C. apply isLeap_spec in C. congruence.
Qed.

Lemma month_cases m :
  1 <= m <= 12 ->
  m = 1 \/ m = 2 \/ m = 3 \/ m = 4 \/ m = 5 \/ m = 6 \/ m = 7 \/ m = 8
  \/ m = 9 \/ m = 10 \/ m = 11 \/ m = 12.
Proof. lia. Qed.

(** The day after the last day of a month is the first of the next one. *)
Lemma last_day_of_month y m :
  1 <= m <= 12 ->
  days_from_civil y m (monthLength y m) + 1
  = days_from_civil (y + m / 12) (m mod 12 + 1) 1.
Proof.
  intros Hm. unfold monthLength.
  destruct (isLeap_cases y) as [[-> Hl]|[-> Hl]];
  destruct (month_cases m Hm) as [->|[->|[->|[->|[->|[->|[->|[->|[->|[->|[->| ->]]]]]]]]]]];
  unfold days_from_civil; cbv zeta;
  cbn [Z.modulo Z.div_eucl Z.pos_div_eucl Z.add Z.mul Z.sub Z.leb Z.ltb Z.eqb Z.compare
       Pos.compare Pos.compare_cont orb Pos.eqb Pos.add Pos.mul Pos.succ Z.opp Z.pos_sub
       Z.succ_double Z.pred_double Z.double Pos.pred_double snd fst Pos.add_carry Z.div];
  rewrite ?Z.add_0_r; div_lia.
Qed.

Lemma monthLength_pos y m : 28 <= monthLength y m <= 31.
Proof. unfold monthLength. destruct (isLeap y); split_ifs; cbn; lia. Qed.

(** [new Date(y, m, 0).getDate()] is the Gregorian length of month [m]. *)
Lemma daysInMonth_monthLength y m :
  1 <= m <= 12 -> ~ (0 <= y <= 99) -> daysInMonth y m = monthLength y m.
Proof.
  intros Hm Hy. unfold daysInMonth.
  replace ((0 <=? y) && (y <=? 99)) with false
    by (symmetry; apply andb_false_iff; destruct (Z.leb_spec 0 y); destruct (Z.leb_spec y 99); auto; lia).
  rewrite <- (last_day_of_month y m Hm).
  replace (days_from_civil y m (monthLength y m) + 1 + 0 - 1)
    with (days_from_civil y m (monthLength y m)) by lia.
  rewrite civil_from_days_from_civil; [reflexivity|].
  pose proof (monthLength_pos y m).
  unfold validDate. rewrite !andb_true_iff, !Z.leb_le. lia.
Qed.

(** Every day number is a calendar date. *)
Lemma civil_from_days_valid z :
  validDate (fst (fst (civil_from_days z))) (snd (fst (civil_from_days z)))
            (snd (civil_from_days z)) = true.
Proof.
  unfold civil_from_days. cbv zeta. cbn [fst snd].
  set (doe := z + 719468 - (z + 719468) / 146097 * 146097).
  set (era := (z + 719468) / 146097).
  set (yoe := (doe - doe / 1460 + doe / 36524 - doe / 146096) / 365).
  set (doy := doe - (365 * yoe + yoe / 4 - yoe / 100)).
  set (mp := (5 * doy + 2) / 153).
  set (d := doy - (153 * mp + 2) / 5 + 1).
  assert (Hdoe : 0 <= doe <= 146096) by (subst doe; div_lia).
  assert (Hy : 0 <= yoe <= 399) by (subst yoe; div_lia).
  assert (Hdoy : 0 <= doy /\ (doy <= 364 \/ (doy = 365 /\
            (((yoe + 1) mod 4 = 0 /\ (yoe + 1) mod 100 <> 0) \/ (yoe + 1) mod 400 = 0)))).
  { subst doy yoe. clearbody doe. clear - Hdoe. div_lia. }
  assert (Hmp : 0 <= mp <= 11) by (subst mp; div_lia).
  assert (Hd : 1 <= d /\ d <= (if mp =? 11 then 29 else (153 * (mp + 1) + 2) / 5 - (153 * mp + 2) / 5)
               /\ (mp = 11 -> d = 29 -> doy = 365)).
  { subst d mp. clearbody doy. clear - Hdoy. destruct Hdoy as [H0 H].
    assert (doy <= 365) by lia. split_ifs; div_lia. }
  clearbody d. clearbody doy.
  destruct Hd as (Hd1 & Hd2 & Hd3).
  set (m := if mp <? 10 then mp + 3 else mp - 9).
  assert (Hm : 1 <= m <= 12 /\ mp = (if 2 <? m then m - 3 else m + 9)).
  { subst m. clearbody mp. split_ifs; lia. }
  clearbody m. clearbody mp. destruct Hm as [Hm Hmp'].
  unfold validDate. rewrite !andb_true_iff, !Z.leb_le.
  repeat split; try lia.
  unfold monthLength.
  destruct (Z.eqb_spec m 2) as [E2|E2].
  - assert (Emp : mp = 11) by (rewrite Hmp', E2; reflexivity).
    rewrite Emp in Hd2. cbn in Hd2. rewrite E2. cbn [Z.leb Z.compare Pos.compare Pos.compare_cont].
    destruct (isLeap_cases (yoe + era * 400 + 1)) as [[-> Hl]|[-> Hl]]; [lia|].
    assert (d <> 29); [|lia].
    intro E. specialize (Hd3 Emp E).
    destruct Hdoy as [_ [Hc|[_ Hc]]]; [lia|]. apply Hl. clear - Hc. div_lia.
  - destruct (Z.eqb_spec m 4); destruct (Z.eqb_spec m 6); destruct (Z.eqb_spec m 9);
      destruct (Z.eqb_spec m 11); cbn [orb];
      destruct (Z.ltb_spec 2 m); destruct (Z.eqb_spec mp 11); try lia; subst mp; div_lia.
Qed.


(** ** Date texts *)

Lemma digit_val_digit k : (k < 10)%N -> digit_val (digit k) = Some (Z.of_N k).
Proof.
  intros Hk. unfold digit_val, digit.
  destruct (N.leb_spec 48 (48 + k)); [|lia].
  destruct (N.leb_spec (48 + k) 57); [|lia].
  cbn [andb]. f_equal. lia.
Qed.

Lemma digits_val_pad2 n : (n < 100)%N -> digits_val 0 (pad2 n) = Some (Z.of_N n).
Proof.
  intros Hn. unfold pad2. cbn [digits_val].
  rewrite !digit_val_digit by (apply N.mod_lt; lia).
  f_equal. pose proof (N.div_mod n 10). pose proof (N.mod_lt n 10).
  pose proof (N.mod_small (n / 10) 10).
  assert (n / 10 < 10)%N by (apply N.Div0.div_lt_upper_bound; lia). lia.
Qed.

Lemma digits_val_pad4 n : (n < 10000)%N -> digits_val 0 (pad4 n) = Some (Z.of_N n).
Proof.
  intros Hn. unfold pad4. cbn [digits_val].
  rewrite !digit_val_digit by (apply N.mod_lt; lia).
  f_equal. rewrite !N2Z.inj_mod, !N2Z.inj_div. change (Z.of_N 10) with 10.
  change (Z.of_N 100) with 100. change (Z.of_N 1000) with 1000.
  assert (0 <= Z.of_N n < 10000) by lia. div_lia.
Qed.

(** The text of a date reads back as its fields. *)
Lemma parseIsoFields_isoText y m d :
  0 <= y <= 9999 -> 0 <= m <= 99 -> 0 <= d <= 99 ->
  parseIsoFields (isoText y m d) = Some (y, m, d).
Proof.
  intros Hy Hm Hd.
  pose proof (digits_val_pad4 (Z.to_N y) ltac:(lia)) as H4.
  pose proof (digits_val_pad2 (Z.to_N m) ltac:(lia)) as Hm2.
  pose proof (digits_val_pad2 (Z.to_N d) ltac:(lia)) as Hd2.
  unfold isoText, pad4, pad2 in *. cbn [app parseIsoFields].
  rewrite N.eqb_refl. cbn [andb].
  rewrite H4, Hm2, Hd2. rewrite !Z2N.id by lia. reflexivity.
Qed.

Lemma Date_parse_isoText y m d :
  0 <= y <= 9999 -> validDate y m d = true ->
  Date_parse (isoText y m d) = Some (days_from_civil y m d * msPerDay).
Proof.
  intros Hy Hv. unfold Date_parse.
  pose proof (monthLength_pos y m).
  assert (1 <= m <= 12 /\ 1 <= d <= monthLength y m) as [Hm Hd].
  { unfold validDate in Hv. rewrite !andb_true_iff, !Z.leb_le in Hv. lia. }
  rewrite parseIsoFields_isoText by lia. now rewrite Hv.
Qed.

(** ** [weekDatesFrom] *)







(** C3 (code defect).  In a browser five hours west of Greenwich,
    [weekDatesFrom('2024-01-10')] (a Wednesday) returns 2024-01-09 ..
    2024-01-15: the first date is a Tuesday, not a Monday; and for the
    Sunday 2024-01-14 the same week comes out, so the Sunday is not the last
    day of its range and the first date is five days before it, not six. *)
Theorem weekDatesFrom_west_of_UTC_starts_on_Tuesday :
  weekDatesFrom (-300) (utf16 "2024-01-10")
  = Ok (map utf16 ["2024-01-09"; "2024-01-10"; "2024-01-11"; "2024-01-12";
                   "2024-01-13"; "2024-01-14"; "2024-01-15"]%string)
  /\ weekdayOfDay (days_from_civil 2024 1 9) = 2
  /\ weekdayOfDay (days_from_civil 2024 1 14) = 0
  /\ weekDatesFrom (-300) (utf16 "2024-01-14")
     = Ok (map utf16 ["2024-01-09"; "2024-01-10"; "2024-01-11"; "2024-01-12";
                      "2024-01-13"; "2024-01-14"; "2024-01-15"]%string).
Proof. repeat split; vm_compute; reflexivity. Qed.


(** ** Week blocks *)

Lemma weekOptionsLoop_step days start idx :
  start <= days ->
  weekOptionsLoop days start idx
  = (idx, start, Z.min (start + 6) days) :: weekOptionsLoop days (start + 7) (idx + 1).
Proof.
  intros H. rewrite weekOptionsLoop_equation_1.
  destruct (Z_le_dec start days); [reflexivity|lia].
Qed.

Lemma weekOptionsLoop_done days start idx :
  days < start -> weekOptionsLoop days start idx = [].
Proof.
  intros H. rewrite weekOptionsLoop_equation_1.
  destruct (Z_le_dec start days); [lia|reflexivity].
Qed.

(** Induction along the loop: on the number of days still to cover. *)
Lemma weekOptionsLoop_ind (P : Z -> Z -> Z -> Prop) :
  (forall days start idx, days < start -> P days start idx) ->
  (forall days start idx, start <= days -> P days (start + 7) (idx + 1) -> P days start idx) ->
  forall days start idx, P days start idx.
Proof.
  intros Hdone Hstep days start idx.
  remember (Z.to_nat (days + 1 - start)) as n eqn:En.
  revert start idx En. induction n as [n IH] using lt_wf_ind. intros start idx En.
  destruct (Z_le_dec start days) as [Hle|Hgt].
  - apply Hstep; [exact Hle|]. apply (IH (Z.to_nat (days + 1 - (start + 7)))); [lia|reflexivity].
  - apply Hdone. lia.
Qed.

Lemma blockLengths_loop days start idx :
  blockLengths (weekOptionsLoop days start idx) = Z.max 0 (days + 1 - start).
Proof.
  revert days start idx. apply weekOptionsLoop_ind; intros days start idx H.
  - rewrite weekOptionsLoop_done by lia. cbn. lia.
  - intros IH. rewrite weekOptionsLoop_step by lia.
    cbn [blockLengths fold_right]. fold (blockLengths (weekOptionsLoop days (start + 7) (idx + 1))).
    rewrite IH. unfold blockStop, blockStart. cbn [fst snd]. lia.
Qed.

Lemma nth_error_loop days k : forall start idx,
  start + 7 * Z.of_nat k <= days ->
  nth_error (weekOptionsLoop days start idx) k
  = Some (idx + Z.of_nat k, start + 7 * Z.of_nat k, Z.min (start + 7 * Z.of_nat k + 6) days).
Proof.
  induction k as [|k IH]; intros start idx H.
  - rewrite weekOptionsLoop_step by lia. cbn [nth_error Z.of_nat]. f_equal. apply triple_eq; lia.
  - rewrite weekOptionsLoop_step by lia. cbn [nth_error].
    rewrite IH by lia. f_equal. apply triple_eq; lia.
Qed.

Lemma length_loop days start idx :
  List.length (weekOptionsLoop days start idx)
  = Z.to_nat (if Z_le_dec start days then (days - start) / 7 + 1 else 0).
Proof.
  revert days start idx. apply weekOptionsLoop_ind; intros days start idx H.
  - rewrite weekOptionsLoop_done by lia. destruct (Z_le_dec start days); [lia|reflexivity].
  - intros IH. rewrite weekOptionsLoop_step by lia. cbn [List.length]. rewrite IH.
    destruct (Z_le_dec start days); [|lia].
    destruct (Z_le_dec (start + 7) days); div_lia.
Qed.

Lemma In_loop days start idx b :
  In b (weekOptionsLoop days start idx) ->
  exists k, 0 <= k /\ start + 7 * k <= days
            /\ b = (idx + k, start + 7 * k, Z.min (start + 7 * k + 6) days).
Proof.
  revert days start idx. apply (weekOptionsLoop_ind (fun days start idx =>
    In b (weekOptionsLoop days start idx) ->
    exists k, 0 <= k /\ start + 7 * k <= days
              /\ b = (idx + k, start + 7 * k, Z.min (start + 7 * k + 6) days)));
    intros days start idx H.
  - rewrite weekOptionsLoop_done by lia. intros [].
  - intros IH. rewrite weekOptionsLoop_step by lia. intros [<-|Hin].
    + exists 0. repeat split; try lia. apply triple_eq; lia.
    + destruct (IH Hin) as (k & Hk & Hle & ->). exists (k + 1). repeat split; try lia.
      apply triple_eq; lia.
Qed.

(** The blocks of a month of [days] days. *)
Lemma weekOptions_blocks days :
  0 <= days ->
  List.length (weekOptions days) = Z.to_nat ((days + 6) / 7)
  /\ (forall w, 1 <= w <= (days + 6) / 7 ->
        nth_error (weekOptions days) (Z.to_nat (w - 1))
        = Some (w, fst (weekBlockRange days w), snd (weekBlockRange days w)))
  /\ (forall d, 1 <= d <= days ->
        exists b, In b (weekOptions days) /\ covers b d /\ blockIdx b = weekIdxOfDay d
                  /\ forall b', In b' (weekOptions days) -> covers b' d -> b' = b)
  /\ blockLengths (weekOptions days) = days.
Proof.
  intros Hd. unfold weekOptions. repeat split.
  - rewrite length_loop. destruct (Z_le_dec 1 days); f_equal; div_lia.
  - intros w Hw. rewrite nth_error_loop by div_lia.
    unfold weekBlockRange. cbn [fst snd]. rewrite Z2Nat.id by lia.
    f_equal. apply triple_eq; lia.
  - intros d Hdd. unfold weekIdxOfDay.
    exists ((d - 1) / 7 + 1, (d - 1) / 7 * 7 + 1, Z.min ((d - 1) / 7 * 7 + 7) days).
    split; [|split; [|split]].
    + apply (nth_error_In _ (Z.to_nat ((d - 1) / 7))). rewrite nth_error_loop by div_lia.
      rewrite Z2Nat.id by div_lia. f_equal. apply triple_eq; lia.
    + unfold covers, blockStart, blockStop. cbn [fst snd]. div_lia.
    + reflexivity.
    + intros b' Hin Hc. apply In_loop in Hin. destruct Hin as (k & Hk & Hle & ->).
      unfold covers, blockStart, blockStop in Hc. cbn [fst snd] in Hc.
      assert (k = (d - 1) / 7) by div_lia. subst k. apply triple_eq; lia.
  - rewrite blockLengths_loop. lia.
Qed.

Lemma daysInMonth_pos y m : 1 <= daysInMonth y m.
Proof.
  unfold daysInMonth. cbv zeta.
  match goal with |- 1 <= snd (civil_from_days ?z) => pose proof (civil_from_days_valid z) as H end.
  unfold validDate in H. rewrite !andb_true_iff, !Z.leb_le in H. lia.
Qed.


(** ** Running asynchronous code *)

Section Run.
Context `{Engine}.
Variable server : Request -> Response.

Lemma run_bindA {A B} (a : Async A) (f : A -> M B) :
  run server (bindA a f)
  = match run server a with
    | (u, Ok x) => run server (f x u)
    | (u, Throw e) => (u, Throw e)
    end.
Proof.
  induction a as [u x|u e|u reqs k IH]; cbn [bindA run]; auto.
Qed.

Lemma run_catchA {A} (a : Async A) (h : exn -> M A) :
  run server (catchA a h)
  = match run server a with
    | (u, Ok x) => (u, Ok x)
    | (u, Throw e) => run server (h e u)
    end.
Proof.
  induction a as [u x|u e|u reqs k IH]; cbn [catchA run]; auto.
Qed.

Lemma run_bind {A B} (m : M A) (f : A -> M B) u :
  run server (bind m f u)
  = match run server (m u) with
    | (u', Ok x) => run server (f x u')
    | (u', Throw e) => (u', Throw e)
    end.
Proof. apply run_bindA. Qed.

Lemma run_try_catch {A} (m : M A) (h : exn -> M A) u :
  run server (try_catch m h u)
  = match run server (m u) with
    | (u', Ok x) => (u', Ok x)
    | (u', Throw e) => run server (h e u')
    end.
Proof. apply run_catchA. Qed.

Lemma run_lift {A} (r : Result A) u : run server (lift r u) = (u, r).
Proof. unfold lift. destruct r; reflexivity. Qed.

Lemma run_fetchJSON req u :
  run server (fetchJSON req u) = (u, fetchJSON_of (server req)).
Proof.
  unfold fetchJSON, bind, await_one, lift. cbn [bindA run map nth].
  destruct (fetchJSON_of (server req)); reflexivity.
Qed.

Lemma responses_for_map reqs :
  responses_for reqs (map server reqs) = map server reqs.
Proof.
  unfold responses_for. apply nth_ext with (d := Rejected) (d' := Rejected).
  - now rewrite !length_map, length_seq.
  - intros n Hn. rewrite length_map, length_seq in Hn.
    rewrite (nth_indep _ Rejected (nth 0 (map server reqs) Rejected)) by (now rewrite length_map, length_seq).
    rewrite (map_nth (fun i => nth i (map server reqs) Rejected) (seq 0 (List.length reqs)) 0%nat).
    rewrite seq_nth by exact Hn. reflexivity.
Qed.

Lemma run_await_all reqs u :
  run server (await_all reqs u) = (u, Ok (map server reqs)).
Proof. unfold await_all. cbn [run]. now rewrite responses_for_map. Qed.

End Run.

(** Symbolic execution of a loader: push [run] through the monad and
    rewrite with what is known about the response. *)
Ltac run_step :=
  first [ rewrite run_try_catch | rewrite run_bind | rewrite run_fetchJSON
        | rewrite run_await_all | rewrite run_lift ];
  cbn [run ret gets modify fst snd].

Ltac run_all := repeat run_step.


(** ** The loaders on a failed request *)

Section Loaders.
Context `{Engine}.
Variable server : Request -> Response.

Lemma loadWeek_failure u y m w e :
  fetchJSON_of (server (DataWeek y m w (deviceParam u))) = Throw e ->
  run server (loadWeek y m w u)
  = (with_labels (set_weekLabel (VStr Loi)) (log (ConsoleError (utf16 "loadWeek") e) u), Ok tt).
Proof.
  intros He. unfold loadWeek. run_all. rewrite He. run_all. reflexivity.
Qed.

Lemma loadMonth_failure u y m e :
  fetchJSON_of (server (DataMonth y m (deviceParam u))) = Throw e ->
  run server (loadMonth y m u)
  = (with_labels (set_monthLabel (VStr Loi)) (log (ConsoleError (utf16 "loadMonth") e) u), Ok tt).
Proof.
  intros He. unfold loadMonth. run_all. rewrite He. run_all. reflexivity.
Qed.

Lemma loadYear_failure u y e :
  fetchJSON_of (server (DataYear y (deviceParam u))) = Throw e ->
  run server (loadYear y u)
  = (with_labels (set_yearLabel (VStr Loi)) (log (ConsoleError (utf16 "loadYear") e) u), Ok tt).
Proof.
  intros He. unfold loadYear. run_all. rewrite He. run_all. reflexivity.
Qed.

End Loaders.

(** ** What a loader leaves alone *)

Section Frames.
Context `{Engine}.

Lemma untouched_refl t u : untouched t u u.
Proof. repeat split; auto. exists []. now rewrite app_nil_r. Qed.

Lemma untouched_trans t u1 u2 u3 :
  untouched t u1 u2 -> untouched t u2 u3 -> untouched t u1 u3.
Proof.
  intros (a1 & b1 & c1 & d1 & l1 & e1) (a2 & b2 & c2 & d2 & l2 & e2).
  repeat split; try congruence.
  - intros id Hid. rewrite d2, d1; auto.
  - exists (l1 ++ l2). now rewrite e2, e1, app_assoc.
Qed.

Lemma untouched_log t e u : untouched t u (log e u).
Proof. repeat split; auto. now exists [e]. Qed.

Lemma untouched_labels t f u : untouched t u (with_labels f u).
Proof. repeat split; auto. exists []. cbn. now rewrite app_nil_r. Qed.

Lemma untouched_dayLog t f u : untouched t u (with_dayLog f u).
Proof. repeat split; auto. exists []. cbn. now rewrite app_nil_r. Qed.

Lemma untouched_chart (t : ChartId -> bool) c f u :
  t c = true -> untouched t u (with_charts (upd_chart c f) u).
Proof.
  intros Hc. repeat split; auto.
  - intros id Hid. destruct c, id; cbn; try reflexivity; congruence.
  - exists []. cbn. now rewrite app_nil_r.
Qed.

Variable t : ChartId -> bool.

Lemma Keeps_ret {A} (x : A) : Keeps (untouched t) (ret x).
Proof. intros s u. apply untouched_refl. Qed.

Lemma Keeps_lift {A} (r : Result A) : Keeps (untouched t) (lift r).
Proof. intros s u. unfold lift. destruct r; apply untouched_refl. Qed.

Lemma Keeps_gets {A} (f : UI -> A) : Keeps (untouched t) (gets f).
Proof. intros s u. apply untouched_refl. Qed.

Lemma Keeps_modify (f : UI -> UI) :
  (forall u, untouched t u (f u)) -> Keeps (untouched t) (modify f).
Proof. intros Hf s u. apply Hf. Qed.

Lemma Keeps_bind {A B} (m : M A) (f : A -> M B) :
  Keeps (untouched t) m -> (forall x, Keeps (untouched t) (f x)) ->
  Keeps (untouched t) (bind m f).
Proof.
  intros Hm Hf s u. rewrite run_bind. specialize (Hm s u).
  destruct (run s (m u)) as [u' [x|e]]; cbn [fst] in *; [|exact Hm].
  eapply untouched_trans; [exact Hm|apply Hf].
Qed.

Lemma Keeps_try_catch {A} (m : M A) (h : exn -> M A) :
  Keeps (untouched t) m -> (forall e, Keeps (untouched t) (h e)) ->
  Keeps (untouched t) (try_catch m h).
Proof.
  intros Hm Hh s u. rewrite run_try_catch. specialize (Hm s u).
  destruct (run s (m u)) as [u' [x|e]]; cbn [fst] in *; [exact Hm|].
  eapply untouched_trans; [exact Hm|apply Hh].
Qed.

Lemma Keeps_fetchJSON req : Keeps (untouched t) (fetchJSON req).
Proof. intros s u. rewrite run_fetchJSON. apply untouched_refl. Qed.

Lemma Keeps_await_all reqs : Keeps (untouched t) (await_all reqs).
Proof. intros s u. rewrite run_await_all. apply untouched_refl. Qed.

Lemma untouched_catchEach dates rs u : untouched t u (fst (catchEach dates rs u)).
Proof.
  revert rs u. induction dates as [|dt dates IH]; intros [|r rs] u; cbn [catchEach fst];
    try apply untouched_refl.
  destruct (fetchJSON_of r) as [v|e].
  - specialize (IH rs u). destruct (catchEach dates rs u). exact IH.
  - specialize (IH rs (log (ConsoleWarn (utf16 "logs/day failed") dt e) u)).
    destruct (catchEach dates rs _). cbn [fst] in *.
    eapply untouched_trans; [apply untouched_log|exact IH].
Qed.

Lemma Keeps_catchEach dates rs :
  Keeps (untouched t) (fun u => let (u', vs) := catchEach dates rs u in Ret u' vs).
Proof.
  intros s u. pose proof (untouched_catchEach dates rs u) as Hc.
  destruct (catchEach dates rs u). exact Hc.
Qed.

Lemma Keeps_renderDayLog d data : Keeps (untouched t) (renderDayLog d data).
Proof.
  unfold renderDayLog.
  repeat first [ apply Keeps_bind; [|intros ?] | apply Keeps_lift
               | apply Keeps_modify; intros ?; apply untouched_dayLog ].
Qed.

End Frames.

Create HintDb frame.

#[local] Hint Resolve Keeps_ret Keeps_lift Keeps_gets Keeps_fetchJSON Keeps_await_all
  Keeps_catchEach Keeps_renderDayLog untouched_log untouched_labels untouched_dayLog
  untouched_refl : frame.

Ltac frame_steps :=
  repeat first
    [ apply Keeps_try_catch; [|intros ?]
    | apply Keeps_bind; [|intros ?]
    | apply Keeps_modify; intros ?
    | apply untouched_chart; reflexivity
    | solve [auto with frame] ].

Section LoaderFrames.
Context `{Engine}.

Lemma loadWeek_frame y m w : Keeps (untouched (only CWeek)) (loadWeek y m w).
Proof. unfold loadWeek. frame_steps. Qed.

Lemma loadMonth_frame y m : Keeps (untouched (only CMonth)) (loadMonth y m).
Proof. unfold loadMonth. frame_steps. Qed.

Lemma loadYear_frame y : Keeps (untouched (only CYear)) (loadYear y).
Proof. unfold loadYear. frame_steps. Qed.


Lemma loadDay_frame tz d : Keeps (untouched dayAndWeek) (loadDay tz d).
Proof. unfold loadDay, dayStep1, dayStep2, dayStep3. frame_steps. Qed.

(** A loader catches whatever goes wrong inside it. *)
Lemma loadDay_returns server tz d u : snd (run server (loadDay tz d u)) = Ok tt.
Proof.
  unfold loadDay. rewrite run_try_catch.
  destruct (run server _) as [u' [[]|e]]; reflexivity.
Qed.

Lemma loadWeek_returns server y m w u : snd (run server (loadWeek y m w u)) = Ok tt.
Proof.
  unfold loadWeek. rewrite run_try_catch.
  destruct (run server _) as [u' [[]|e]]; [reflexivity|]. run_all. reflexivity.
Qed.

Lemma loadMonth_returns server y m u : snd (run server (loadMonth y m u)) = Ok tt.
Proof.
  unfold loadMonth. rewrite run_try_catch.
  destruct (run server _) as [u' [[]|e]]; [reflexivity|]. run_all. reflexivity.
Qed.

Lemma loadYear_returns server y u : snd (run server (loadYear y u)) = Ok tt.
Proof.
  unfold loadYear. rewrite run_try_catch.
  destruct (run server _) as [u' [[]|e]]; [reflexivity|]. run_all. reflexivity.
Qed.

End LoaderFrames.


(** ** What a chart ends up showing depends on its own loader only *)

Ltac case_result :=
  match goal with
  | |- context [match ?r with Ok _ => _ | Throw _ => _ end] =>
      match type of r with
      | Result _ => destruct r
      end
  end.

Section Determinacy.
Context `{Engine}.
Variable server : Request -> Response.

Lemma deviceParam_eq u1 u2 :
  selectedDevice u1 = selectedDevice u2 -> deviceParam u1 = deviceParam u2.
Proof. unfold deviceParam. now intros ->. Qed.

Lemma loadMonth_month_chart y m u1 u2 :
  selectedDevice u1 = selectedDevice u2 ->
  month (charts u1) = month (charts u2) ->
  month (charts (fst (run server (loadMonth y m u1))))
  = month (charts (fst (run server (loadMonth y m u2)))).
Proof.
  intros Hd Hc. unfold loadMonth. run_all. rewrite (deviceParam_eq u1 u2 Hd).
  repeat (run_all; try case_result); cbn; rewrite ?Hc; reflexivity.
Qed.

Lemma loadYear_year_chart y u1 u2 :
  selectedDevice u1 = selectedDevice u2 ->
  year (charts u1) = year (charts u2) ->
  year (charts (fst (run server (loadYear y u1))))
  = year (charts (fst (run server (loadYear y u2)))).
Proof.
  intros Hd Hc. unfold loadYear. run_all. rewrite (deviceParam_eq u1 u2 Hd).
  repeat (run_all; try case_result); cbn; rewrite ?Hc; reflexivity.
Qed.

End Determinacy.


(** ** C6 *)

Ltac frame_rw c id :=
  let X := fresh in
  pose proof (c id eq_refl) as X; cbn [chart] in X; rewrite X; clear X.

Section StartUp.
Context `{Engine}.
Variable server : Request -> Response.
Variable tz : Z.

(** The state after the four awaited loads of [start], stage by stage. *)
Lemma startLoads_run today u :
  let u1 := fst (run server (loadDay tz today u)) in
  let u2 := fst (run server (loadWeek (sel_text (weekYear (selectors u1)))
                                      (sel_text (weekMonth (selectors u1)))
                                      (sel_text (weekIndex (selectors u1))) u1)) in
  let u3 := fst (run server (loadMonth (sel_text (monthYear (selectors u2)))
                                       (sel_text (monthSelect (selectors u2))) u2)) in
  let u4 := fst (run server (loadYear (sel_text (yearSelect (selectors u3))) u3)) in
  run server (startLoads tz today u) = (u4, Ok tt).
Proof.
  intros u1 u2 u3 u4. unfold startLoads.
  rewrite run_bind.
  pose proof (loadDay_returns server tz today u) as R1. fold u1.
  destruct (run server (loadDay tz today u)) as [u1' r1] eqn:E1. cbn [fst snd] in *. subst r1 u1.
  rewrite run_bind, run_bind. cbn [run gets].
  pose proof (loadWeek_returns server (sel_text (weekYear (selectors u1')))
                (sel_text (weekMonth (selectors u1'))) (sel_text (weekIndex (selectors u1'))) u1') as R2.
  fold u2.
  destruct (run server (loadWeek _ _ _ u1')) as [u2' r2] eqn:E2. cbn [fst snd] in *. subst r2 u2.
  rewrite run_bind, run_bind. cbn [run gets].
  pose proof (loadMonth_returns server (sel_text (monthYear (selectors u2')))
                (sel_text (monthSelect (selectors u2'))) u2') as R3.
  fold u3.
  destruct (run server (loadMonth _ _ u2')) as [u3' r3] eqn:E3. cbn [fst snd] in *. subst r3 u3.
  rewrite run_bind. cbn [run gets].
  pose proof (loadYear_returns server (sel_text (yearSelect (selectors u3'))) u3') as R4.
  subst u4.
  destruct (run server (loadYear _ u3')) as [u4' r4] eqn:E4. cbn [fst snd] in *. now subst r4.
Qed.

End StartUp.

(** C6.  A non-2xx response makes [fetchJSON] throw an [Error] whose
    message carries the status, the status text and the body.  [loadWeek],
    [loadMonth] and [loadYear] catch it: the loader returns normally, the
    label of its view reads 'Lỗi', the error is logged, no dialog opens and
    the data of every chart is as it was.  In the start-up sequence each
    loader catches its own failures, so all four always run, and the day,
    month and year charts end up as their own loader alone renders them from
    the server's answers, whatever happened to the others (the week chart is
    written by [loadDay] and then by [loadWeek]). *)
Theorem fetch_failure_is_contained `{Engine} (server : Request -> Response) (tz : Z) (u : UI) :
  (forall status statusText body json,
      ~ 200 <= status <= 299 ->
      fetchJSON_of (Http status statusText body json)
      = Throw (Error (decimal status ++ space ++ statusText ++ utf16 " - " ++ body)))
  /\ (forall y m w e,
        fetchJSON_of (server (DataWeek y m w (deviceParam u))) = Throw e ->
        let r := run server (loadWeek y m w u) in
        snd r = Ok tt /\ charts (fst r) = charts u
        /\ weekLabel (viewLabels (fst r)) = VStr Loi
        /\ console (fst r) = console u ++ [ConsoleError (utf16 "loadWeek") e]
        /\ dialogs (fst r) = dialogs u)
  /\ (forall y m e,
        fetchJSON_of (server (DataMonth y m (deviceParam u))) = Throw e ->
        let r := run server (loadMonth y m u) in
        snd r = Ok tt /\ charts (fst r) = charts u
        /\ monthLabel (viewLabels (fst r)) = VStr Loi
        /\ console (fst r) = console u ++ [ConsoleError (utf16 "loadMonth") e]
        /\ dialogs (fst r) = dialogs u)
  /\ (forall y e,
        fetchJSON_of (server (DataYear y (deviceParam u))) = Throw e ->
        let r := run server (loadYear y u) in
        snd r = Ok tt /\ charts (fst r) = charts u
        /\ yearLabel (viewLabels (fst r)) = VStr Loi
        /\ console (fst r) = console u ++ [ConsoleError (utf16 "loadYear") e]
        /\ dialogs (fst r) = dialogs u)
  /\ (forall today,
        let r := run server (startLoads tz today u) in
        let u1 := fst (run server (loadDay tz today u)) in
        snd r = Ok tt
        /\ day (charts (fst r)) = day (charts u1)
        /\ week (charts (fst r))
           = week (charts (fst (run server (loadWeek (sel_text (weekYear (selectors u)))
                                                     (sel_text (weekMonth (selectors u)))
                                                     (sel_text (weekIndex (selectors u))) u1))))
        /\ month (charts (fst r))
           = month (charts (fst (run server (loadMonth (sel_text (monthYear (selectors u)))
                                                       (sel_text (monthSelect (selectors u))) u))))
        /\ year (charts (fst r))
           = year (charts (fst (run server (loadYear (sel_text (yearSelect (selectors u))) u))))).
Proof.
  split; [|split; [|split; [|split]]].
  - intros status statusText body json Hs. cbn [fetchJSON_of].
    destruct (Z.leb_spec 200 status); destruct (Z.leb_spec status 299); cbn [andb];
      try reflexivity. lia.
  - intros y m w e He r. subst r. rewrite (loadWeek_failure server u y m w e He).
    cbn. auto.
  - intros y m e He r. subst r. rewrite (loadMonth_failure server u y m e He).
    cbn. auto.
  - intros y e He r. subst r. rewrite (loadYear_failure server u y e He).
    cbn. auto.
  - intros today r u1. subst r. rewrite startLoads_run. cbn [fst snd]. fold u1.
    set (u2 := fst (run server (loadWeek _ _ _ u1))).
    set (u3 := fst (run server (loadMonth _ _ u2))).
    set (u4 := fst (run server (loadYear _ u3))).
    pose proof (loadDay_frame tz today server u) as (d1 & s1 & _ & c1 & _). fold u1 in d1, s1, c1.
    pose proof (loadWeek_frame (sel_text (weekYear (selectors u1)))
                  (sel_text (weekMonth (selectors u1))) (sel_text (weekIndex (selectors u1)))
                  server u1) as (d2 & s2 & _ & c2 & _). fold u2 in d2, s2, c2.
    pose proof (loadMonth_frame (sel_text (monthYear (selectors u2)))
                  (sel_text (monthSelect (selectors u2))) server u2) as (d3 & s3 & _ & c3 & _).
    fold u3 in d3, s3, c3.
    pose proof (loadYear_frame (sel_text (yearSelect (selectors u3))) server u3)
      as (d4 & s4 & _ & c4 & _). fold u4 in d4, s4, c4.
    split; [reflexivity|]. repeat split.
    + frame_rw c4 CDay. frame_rw c3 CDay. frame_rw c2 CDay. reflexivity.
    + frame_rw c4 CWeek. frame_rw c3 CWeek. subst u2. now rewrite s1.
    + frame_rw c4 CMonth. subst u3. rewrite s2, s1.
      apply loadMonth_month_chart; [congruence|].
      frame_rw c2 CMonth. frame_rw c1 CMonth. reflexivity.
    + subst u4. rewrite s3, s2, s1.
      apply loadYear_year_chart; [congruence|].
      frame_rw c3 CYear. frame_rw c2 CYear. frame_rw c1 CYear. reflexivity.
Qed.


(** ** C1: the grouped bars of the day view *)

Section GroupedBars.
Context `{Engine}.

Lemma get_prop_field k it : isNullish it = false -> get_prop it k = Ok (field k it).
Proof. unfold field. destruct it; cbn; intros; congruence. Qed.

Lemma sumItems_ok items : forall a b,
  Forall (fun it => isNullish it = false) items ->
  sumItems (a, b) items
  = Ok (fold_left (fun acc it => num_add acc (numOr0 (field k_pass it))) items a,
        fold_left (fun acc it => num_add acc (numOr0 (field k_fail it))) items b).
Proof.
  induction items as [|it items IH]; intros a b Hall; [reflexivity|].
  inversion Hall as [|? ? Hit Hrest]; subst.
  cbn [sumItems fold_left]. unfold addItem.
  rewrite !get_prop_field by assumption. cbn [rbind fst snd]. now apply IH.
Qed.

Lemma length_array_set {A} i (x : A) a :
  (i < List.length a)%nat -> List.length (array_set i x a) = List.length a.
Proof.
  intros Hi. unfold array_set. rewrite length_app. cbn [List.length].
  rewrite length_firstn, length_skipn. lia.
Qed.

Lemma nth_error_array_set_same {A} i (x : A) a :
  (i < List.length a)%nat -> nth_error (array_set i x a) i = Some x.
Proof.
  intros Hi. unfold array_set.
  rewrite nth_error_app2 by (rewrite length_firstn; lia).
  rewrite length_firstn. replace (i - Nat.min i (List.length a))%nat with O by lia.
  reflexivity.
Qed.

Lemma nth_error_array_set_other {A} i j (x : A) a :
  (i < List.length a)%nat -> i <> j -> nth_error (array_set i x a) j = nth_error a j.
Proof.
  intros Hi Hij. unfold array_set.
  destruct (Nat.lt_ge_cases j i) as [Hlt|Hge].
  - rewrite nth_error_app1 by (rewrite length_firstn; lia).
    now rewrite nth_error_firstn, (proj2 (Nat.ltb_lt j i)) by lia.
  - rewrite nth_error_app2 by (rewrite length_firstn; lia).
    rewrite length_firstn. replace (Nat.min i (List.length a)) with i by lia.
    destruct (j - i)%nat as [|n] eqn:E; [lia|]. cbn [nth_error].
    rewrite nth_error_skipn. f_equal. lia.
Qed.

Lemma nth_as_nth_error {A} (l : list A) i d :
  nth i l d = match nth_error l i with Some x => x | None => d end.
Proof.
  revert i. induction l as [|x l IH]; intros [|i]; cbn; auto.
Qed.

Lemma groupLoop_ok perDayArr : forall idx pa fa,
  List.length pa = 7%nat -> List.length fa = 7%nat ->
  (idx + List.length perDayArr <= 7)%nat ->
  Forall rowsOk perDayArr ->
  exists pa' fa',
    groupLoop idx perDayArr (pa, fa) = Ok (pa', fa')
    /\ List.length pa' = 7%nat /\ List.length fa' = 7%nat
    /\ (forall i, (i < idx \/ idx + List.length perDayArr <= i)%nat ->
          nth_error pa' i = nth_error pa i /\ nth_error fa' i = nth_error fa i)
    /\ (forall j arr, nth_error perDayArr j = Some arr ->
          nth_error pa' (idx + j) = Some (dayCell k_pass (nth (idx + j) pa (Fin 0)) arr)
          /\ nth_error fa' (idx + j) = Some (dayCell k_fail (nth (idx + j) fa (Fin 0)) arr)).
Proof.
  induction perDayArr as [|arr rest IH]; intros idx pa fa Hp Hf Hlen Hall.
  - exists pa, fa. cbn [groupLoop].
    split; [reflexivity|]. split; [exact Hp|]. split; [exact Hf|]. split; [auto|].
    intros j arr Hn. destruct j; discriminate.
  - inversion Hall as [|? ? Harr Hrest]; subst. cbn [List.length] in Hlen.
    assert (Hstep : exists pa1 fa1,
      groupLoop idx (arr :: rest) (pa, fa) = groupLoop (S idx) rest (pa1, fa1)
      /\ List.length pa1 = 7%nat /\ List.length fa1 = 7%nat
      /\ (forall i, i <> idx -> nth_error pa1 i = nth_error pa i /\ nth_error fa1 i = nth_error fa i)
      /\ nth_error pa1 idx = Some (dayCell k_pass (nth idx pa (Fin 0)) arr)
      /\ nth_error fa1 idx = Some (dayCell k_fail (nth idx fa (Fin 0)) arr)).
    { assert (Hkeep : nth_error pa idx = Some (nth idx pa (Fin 0))
                      /\ nth_error fa idx = Some (nth idx fa (Fin 0))).
      { split; apply nth_error_nth'; lia. }
      destruct arr; cbn [groupLoop dayCell];
        try (exists pa, fa; split; [reflexivity|]; split; [exact Hp|]; split; [exact Hf|];
             split; [auto|exact Hkeep]).
      cbn [rowsOk] in Harr. rewrite (sumItems_ok items (Fin 0) (Fin 0) Harr). cbn [rbind fst snd].
      eexists _, _. split; [reflexivity|].
      rewrite !length_array_set by lia.
      split; [exact Hp|]. split; [exact Hf|]. split; [|split].
      - intros i Hi. split; apply nth_error_array_set_other; auto; lia.
      - apply nth_error_array_set_same; lia.
      - apply nth_error_array_set_same; lia. }
    destruct Hstep as (pa1 & fa1 & Heq & Hp1 & Hf1 & Hother & Hpi & Hfi).
    destruct (IH (S idx) pa1 fa1 Hp1 Hf1 ltac:(lia) Hrest)
      as (pa' & fa' & Hrun & Hp' & Hf' & Hout & Hin).
    exists pa', fa'. rewrite Heq, Hrun.
    split; [reflexivity|]. split; [exact Hp'|]. split; [exact Hf'|]. split.
    + intros i Hi. cbn [List.length] in Hi.
      destruct (Hout i ltac:(lia)) as [-> ->]. apply Hother. lia.
    + intros j a Hj. destruct j as [|j]; cbn [nth_error] in Hj.
      * injection Hj as <-. rewrite Nat.add_0_r.
        destruct (Hout idx ltac:(lia)) as [-> ->]. auto.
      * replace (idx + S j)%nat with (S idx + j)%nat by lia.
        destruct (Hin j a Hj) as [-> ->].
        destruct (Hother (S idx + j)%nat ltac:(lia)) as [E1 E2].
        rewrite !(nth_as_nth_error pa1), !(nth_as_nth_error fa1), E1, E2.
        rewrite <- !nth_as_nth_error. auto.
Qed.

Lemma nth_error_repeat {A} (x : A) n i : (i < n)%nat -> nth_error (repeat x n) i = Some x.
Proof.
  revert i. induction n as [|n IH]; intros [|i] Hi; cbn; try lia; auto. apply IH. lia.
Qed.

(** The two arrays of the grouped bar chart, for the seven values that the
    day requests settled to. *)
Lemma groupedCounts_ok perDayArr :
  List.length perDayArr = 7%nat -> Forall rowsOk perDayArr ->
  exists pa fa,
    groupedCounts perDayArr = Ok (pa, fa)
    /\ List.length pa = 7%nat /\ List.length fa = 7%nat
    /\ forall j arr, nth_error perDayArr j = Some arr ->
          nth_error pa j = Some (dayCell k_pass (Fin 0) arr)
          /\ nth_error fa j = Some (dayCell k_fail (Fin 0) arr).
Proof.
  intros Hlen Hall. unfold groupedCounts.
  destruct (groupLoop_ok perDayArr 0 (repeat (Fin 0) 7) (repeat (Fin 0) 7)
              eq_refl eq_refl ltac:(lia) Hall) as (pa & fa & Hrun & Hp & Hf & _ & Hin).
  exists pa, fa. split; [exact Hrun|]. split; [exact Hp|]. split; [exact Hf|].
  intros j arr Hj. destruct (Hin j arr Hj) as [E1 E2]. cbn [Nat.add] in E1, E2.
  assert (j < 7)%nat by (rewrite <- Hlen; apply nth_error_Some; congruence).
  rewrite E1, E2, !nth_as_nth_error, !nth_error_repeat by lia. auto.
Qed.

Lemma catchEach_values dates : forall rs u,
  List.length rs = List.length dates ->
  snd (catchEach dates rs u) = map caught rs.
Proof.
  induction dates as [|dt dates IH]; intros [|r rs] u Hlen; try discriminate; [reflexivity|].
  cbn [catchEach map]. unfold caught at 1. injection Hlen as Hlen.
  destruct (fetchJSON_of r) as [v|e].
  - specialize (IH rs u Hlen). destruct (catchEach dates rs u). cbn [snd] in *. now rewrite IH.
  - specialize (IH rs (log (ConsoleWarn (utf16 "logs/day failed") dt e) u) Hlen).
    destruct (catchEach dates rs _). cbn [snd] in *. now rewrite IH.
Qed.


End GroupedBars.


(** ** The log table *)

Section DayLogTable.
Context `{Engine}.
Variable server : Request -> Response.

Lemma hourCell_total col h : hourCell col h = Ok (cellOf col h).
Proof.
  unfold cellOf, hourCell. destruct (truthy col) eqn:Ht; [|reflexivity].
  destruct col; cbn in Ht |- *; try discriminate; reflexivity.
Qed.

Lemma hourRows_eq data n : forall h,
  isNullish data = false ->
  hourRows n h data
  = Ok (map (fun i => HourRow (h + Z.of_nat i) (cellOf (field k_pass data) (h + Z.of_nat i))
                              (cellOf (field k_fail data) (h + Z.of_nat i)))
            (seq 0 n)).
Proof.
  induction n as [|n IH]; intros h Hd; [reflexivity|].
  cbn [hourRows]. unfold hourRow. rewrite !get_prop_field by assumption.
  cbn [rbind]. rewrite !hourCell_total. cbn [rbind]. rewrite IH by assumption. cbn [rbind].
  cbn [seq map]. rewrite Z.add_0_r. do 2 f_equal.
  rewrite <- seq_shift, map_map. apply map_ext. intros i.
  replace (h + 1 + Z.of_nat i) with (h + Z.of_nat (S i)) by lia. reflexivity.
Qed.

(** [renderDayLog] on a value that is not [null] and whose columns [sum]
    accepts: the summary, the head row and 24 hour rows. *)
Lemma renderDayLog_run d data sp sf u :
  isNullish data = false ->
  sum (field k_pass data) = Ok sp -> sum (field k_fail data) = Ok sf ->
  run server (renderDayLog d data u)
  = (with_dayLog (fun _ =>
       mkDayLog (DaySummary d sp sf)
                (HeadRow :: map (fun i => HourRow (Z.of_nat i)
                                                  (cellOf (field k_pass data) (Z.of_nat i))
                                                  (cellOf (field k_fail data) (Z.of_nat i)))
                                (seq 0 24))) u,
     Ok tt).
Proof.
  intros Hd Hp Hf. unfold renderDayLog.
  repeat (progress (run_all; rewrite ?get_prop_field by assumption;
                    rewrite ?Hp, ?Hf, ?hourRows_eq by assumption)).
  reflexivity.
Qed.

Lemma sum_column col : isColumn col = true -> exists n, sum col = Ok n.
Proof.
  destruct col as [| | | | |l|]; cbn [isColumn]; intros Hc; try discriminate.
  - now exists (Fin 0).
  - now exists (Fin 0).
  - unfold sum. cbn [truthy get_length rbind].
    destruct (num_truthy (Fin (Z.of_nat (List.length l)))); eauto.
Qed.

Lemma renderDayLog_shape d hourly u :
  hourlyShape hourly = true ->
  exists u', run server (renderDayLog d hourly u) = (u', Ok tt).
Proof.
  intros Hs. destruct hourly; try discriminate. cbn [hourlyShape] in Hs.
  apply andb_true_iff in Hs as [Hp Hf].
  destruct (sum_column _ Hp) as [sp Hsp]. destruct (sum_column _ Hf) as [sf Hsf].
  eexists. apply (renderDayLog_run d (VObj fields) sp sf); auto.
Qed.

End DayLogTable.


Section DayBars.
Context `{Engine}.
Variable server : Request -> Response.

Lemma run_try_catch_bind {A B} (m : M A) (f : A -> M B) (h : exn -> M B) u :
  run server (try_catch (bind m f) h u)
  = match run server (m u) with
    | (u', Ok x) => run server (try_catch (f x) h u')
    | (u', Throw e) => run server (h e u')
    end.
Proof.
  rewrite run_try_catch, run_bind.
  destruct (run server (m u)) as [u' [x|e]]; [now rewrite run_try_catch|reflexivity].
Qed.

Lemma Ok_inj {A} (x y : A) : Ok x = Ok y -> x = y.
Proof. intros E. exact (f_equal (fun r => match r with Ok a => a | Throw _ => x end) E). Qed.

Lemma weekDatesFrom_length tz s l : weekDatesFrom tz s = Ok l -> List.length l = 7%nat.
Proof.
  unfold weekDatesFrom. destruct (Date_parse s); [|discriminate].
  intros Heq. apply Ok_inj in Heq. rewrite <- Heq, length_map. reflexivity.
Qed.

(** The second step of [loadDay], run on its own. *)
Lemma dayStep2_run tz dateStr dev weekDates u :
  weekDatesFrom tz dateStr = Ok weekDates ->
  (forall dt, In dt weekDates -> rowsOk (caught (server (LogsDay dt dev)))) ->
  exists pa fa uc,
    run server (dayStep2 tz dateStr dev u)
    = (with_charts (upd_chart CDay (fun c =>
         set_data1 fa (set_data0 pa (set_labels (VArr (map (dayLabel tz) weekDates)) c)))) uc,
       Ok tt)
    /\ uc = fst (catchEach weekDates (map server (map (fun dt => LogsDay dt dev) weekDates)) u)
    /\ List.length pa = 7%nat /\ List.length fa = 7%nat
    /\ forall i dt, nth_error weekDates i = Some dt ->
         nth_error pa i = Some (dayCell k_pass (Fin 0) (caught (server (LogsDay dt dev))))
         /\ nth_error fa i = Some (dayCell k_fail (Fin 0) (caught (server (LogsDay dt dev)))).
Proof.
  intros Hw Hrows. unfold dayStep2. run_all. rewrite Hw. run_all.
  pose proof (catchEach_values weekDates (map server (map (fun dt => LogsDay dt dev) weekDates)) u
                ltac:(now rewrite !length_map)) as Hvs.
  destruct (catchEach weekDates _ u) as [uc vs] eqn:Ec. cbn [snd] in Hvs. cbn [run].
  run_all.
  assert (Hlen : List.length vs = 7%nat).
  { rewrite Hvs, !length_map. eapply weekDatesFrom_length; eauto. }
  assert (Hall : Forall rowsOk vs).
  { rewrite Hvs, map_map. apply Forall_forall. intros v Hv.
    apply in_map_iff in Hv as (r & <- & Hr).
    apply in_map_iff in Hr as (dt & <- & Hdt). now apply Hrows. }
  destruct (groupedCounts_ok vs Hlen Hall) as (pa & fa & Hg & Hp & Hf & Hcells).
  rewrite Hg. run_all. exists pa, fa, uc.
  split; [reflexivity|]. split; [reflexivity|]. split; [exact Hp|]. split; [exact Hf|].
  intros i dt Hi. apply Hcells. rewrite Hvs, map_map, nth_error_map, nth_error_map, Hi.
  reflexivity.
Qed.

End DayBars.



(** ** The series transforms *)

Section Series.
Context `{Engine}.



Lemma numbersOf_array l : numbersOf (VArr l) = Ok (map numOr0 l).
Proof.
  unfold numbersOf, array_map. generalize 0.
  induction l as [|x l IH]; intros i; [reflexivity|].
  cbn [mapi_from rbind map]. now rewrite IH.
Qed.

Lemma get_index_array l k : 0 <= k -> get_index (VArr l) k = Ok (entry l (Z.to_nat k)).
Proof.
  intros Hk. unfold get_index, entry. destruct (Z.ltb_spec k 0); [lia|reflexivity].
Qed.


Lemma shortLabels_strings (ls : list jsstring) :
  shortLabels (VArr (map VStr ls)) = Ok (VArr (map (fun l => VStr (skipn 5 l)) ls)).
Proof.
  unfold shortLabels, array_map. 
  assert (Hgen : forall l i, mapi_from (fun (v : value) (_ : Z) => slice_from 5 v) i (map VStr l)
                 = Ok (map (fun s => VStr (skipn 5 s)) l)).
  { induction l as [|x l IH]; intros i; [reflexivity|].
    cbn [map mapi_from slice_from rbind]. rewrite IH. reflexivity. }
  rewrite Hgen. reflexivity.
Qed.

End Series.


Section RateLine.
Context `{Engine}.
Variable server : Request -> Response.



End RateLine.

Lemma float_neq_by_leb (a b : float) : PrimFloat.leb a b = false -> b <> a -> a <> b.
Proof. auto. Qed.




(** ** C8: running sums *)

Section Cumulative.
Context `{Engine}.








End Cumulative.



(** ** C10: what is absent counts as zero *)

Section Absent.
Context `{Engine}.






End Absent.



(** ** C2: two loads of the week chart in flight *)

(** C2, as stated, fails.  Run A ([loadWeek] for week 1) is launched, then
    run B (week 2); B's answer arrives first and the chart shows B's data;
    then A's answer arrives and the chart shows A's data: the late
    completion of the superseded run has overwritten what B wrote. *)
Lemma stale_week_response_overwrites_newer :
  let w0 := mkWorld initialUI [] 0 in
  let wA := launch (loadWeek (utf16 "2024") (utf16 "1") (utf16 "1")) w0 in
  let wAB := launch (loadWeek (utf16 "2024") (utf16 "1") (utf16 "2")) wA in
  let wB := deliver 1 [weekAnswer "2024-01-08" 20 2] wAB in
  let wEnd := deliver 0 [weekAnswer "2024-01-01" 10 1] wB in
  data0 (week (charts (ui wB))) = [Fin 20]
  /\ data0 (week (charts (ui wEnd))) = [Fin 10]
  /\ week (charts (ui wEnd)) <> week (charts (ui wB)).
Proof.
  cbv zeta. split; [vm_compute; reflexivity|]. split; [vm_compute; reflexivity|].
  intros E. apply (f_equal data0) in E. vm_compute in E. discriminate.
Qed.


Ltac async_step :=
  cbn [launch deliver settle take_task Nat.eqb ui tasks fresh resume pending
       loadWeek try_catch bind bindA catchA gets ret modify fetchJSON await_one lift
       nth app fst snd].

Lemma settled_bindA {A B} (a : Async A) (f : A -> M B) :
  settled a -> (forall x u, settled (f x u)) -> settled (bindA a f).
Proof. destruct a; cbn; auto. Qed.

Lemma settled_catchA {A} (a : Async A) (h : exn -> M A) :
  settled a -> (forall e u, settled (h e u)) -> settled (catchA a h).
Proof. destruct a; cbn; auto. Qed.

Lemma settled_lift {A} (r : Result A) u : settled (lift r u).
Proof. destruct r; exact I. Qed.

Ltac settle_all :=
  repeat first
    [ apply settled_catchA; [|intros ? ?]
    | apply settled_bindA; [|intros ? ?]
    | apply settled_lift
    | exact I
    | progress unfold bind, modify, ret, gets ].

(** C2, amended.  A parked loader keeps its requests and its continuation,
    and no Selection: there is no stale-response guard.  When run A and then
    run B of [loadWeek] are in flight and B completes first, the completion
    of A writes A's labels and series and A's range into the week view,
    whatever B had written there; the chart shows the run that completed
    last. *)
Theorem last_completed_week_load_wins `{Engine}
    (u : UI) (yA mA wA yB mB wB : jsstring) (rA rB : Response)
    (jA : value) (lblsA : list jsstring) (psA fsA : list value) :
  fetchJSON_of rA = Ok jA ->
  payloadArrays jA (map VStr lblsA) psA fsA ->
  let w0 := mkWorld u [] 0 in
  let w1 := launch (loadWeek yA mA wA) w0 in
  let w2 := launch (loadWeek yB mB wB) w1 in
  let w3 := deliver 1 [rB] w2 in
  let w4 := deliver 0 [rA] w3 in
  map (fun t => (fst t, pending (snd t))) (tasks w2)
  = [(0%nat, [DataWeek yA mA wA (deviceParam u)]); (1%nat, [DataWeek yB mB wB (deviceParam u)])]
  /\ tasks w4 = []
  /\ labels (week (charts (ui w4))) = VArr (map (fun l => VStr (skipn 5 l)) lblsA)
  /\ data0 (week (charts (ui w4))) = map numOr0 psA
  /\ data1 (week (charts (ui w4))) = map numOr0 fsA
  /\ weekLabel (viewLabels (ui w4)) = or_else (field k_range jA) (VStr []).
Proof.
  intros HA (Hl & Hp & Hf). cbv zeta.
  assert (Hnn : isNullish jA = false) by (destruct jA; cbn in Hl |- *; congruence).
  pose proof (get_prop_field k_range jA Hnn) as Hr.
  async_step. split; [reflexivity|].
  destruct (fetchJSON_of rB) as [jB|eB].
  - async_step.
    (* whatever B's answer makes of the page, A's continuation runs next *)
    match goal with
    | |- context [catchA ?a ?h] =>
        assert (Hs : settled (catchA a h)) by settle_all;
        destruct (catchA a h) as [uB xB|uB eB|uB reqs k]; [| |contradiction Hs]
    end.
    all: async_step; rewrite HA; async_step; rewrite Hl; async_step;
         rewrite shortLabels_strings; async_step; rewrite Hp; async_step;
         rewrite numbersOf_array; async_step; rewrite Hf; async_step;
         rewrite numbersOf_array; async_step; rewrite Hr; async_step;
         repeat split; reflexivity.
  - async_step. rewrite HA; async_step; rewrite Hl; async_step;
         rewrite shortLabels_strings; async_step; rewrite Hp; async_step;
         rewrite numbersOf_array; async_step; rewrite Hf; async_step;
         rewrite numbersOf_array; async_step; rewrite Hr; async_step;
         repeat split; reflexivity.
Qed.


(** ** C5: drill-down *)







(** ** Selectors *)

Lemma find_index_present v opts : forall i,
  In v (map optValue opts) ->
  exists k o, find_index v opts i = Some (i + k)%nat
              /\ nth_error opts k = Some o /\ optValue o = v.
Proof.
  induction opts as [|o opts IH]; intros i Hin; [destruct Hin|].
  cbn [find_index]. destruct (Z.eqb_spec (optValue o) v) as [E|E].
  - exists 0%nat, o. rewrite Nat.add_0_r. auto.
  - destruct Hin as [Hin|Hin]; [congruence|].
    destruct (IH (S i) Hin) as (k & o' & Hf & Hn & Ho).
    exists (S k), o'. rewrite Hf. split; [f_equal; lia|auto].
Qed.

Lemma sel_value_set_value v s :
  In v (values s) -> sel_value (set_value (Fin v) s) = Some v.
Proof.
  intros Hin. destruct (find_index_present v (options s) 0 Hin) as (k & o & Hf & Hn & Ho).
  unfold sel_value, set_value. cbn [selectedIndex options]. rewrite Hf. cbn [Nat.add].
  rewrite Hn. cbn [option_map]. now rewrite Ho.
Qed.

Lemma values_set_value v s : values (set_value v s) = values s.
Proof. reflexivity. Qed.

(** The values of the week-index options are 1, 2, .. in order. *)
Lemma values_weekOptions_loop days start idx :
  map optValue (map weekOption (weekOptionsLoop days start idx))
  = map (fun k => idx + Z.of_nat k) (seq 0 (List.length (weekOptionsLoop days start idx))).
Proof.
  revert days start idx. apply weekOptionsLoop_ind; intros days start idx Hc.
  - rewrite weekOptionsLoop_done by lia. reflexivity.
  - intros IH. rewrite weekOptionsLoop_step by lia.
    cbn [map List.length seq weekOption optValue fst]. rewrite IH.
    f_equal; [lia|]. rewrite <- seq_shift, map_map. apply map_ext. intros k. lia.
Qed.

Lemma values_weekOptions days :
  0 <= days ->
  map optValue (map weekOption (weekOptions days))
  = map (fun k => 1 + Z.of_nat k) (seq 0 (Z.to_nat ((days + 6) / 7))).
Proof.
  intros Hd. unfold weekOptions. rewrite values_weekOptions_loop.
  destruct (weekOptions_blocks days Hd) as (Hlen & _). unfold weekOptions in Hlen.
  now rewrite Hlen.
Qed.

Lemma In_values_weekOptions days v :
  0 <= days -> 1 <= v <= (days + 6) / 7 ->
  In v (map optValue (map weekOption (weekOptions days))).
Proof.
  intros Hd Hv. rewrite values_weekOptions by assumption.
  apply in_map_iff. exists (Z.to_nat (v - 1)). split; [lia|]. apply in_seq. lia.
Qed.

Section SelectorsSync.
Context `{Engine}.

Lemma buildWeekIndex_selectors u y m :
  sel_value (weekYear (selectors u)) = Some y ->
  sel_value (weekMonth (selectors u)) = Some m ->
  selectors (buildWeekIndex u)
  = upd_weekIndex (fun _ => set_options (map weekOption (weekOptions (daysInMonth y m))))
                  (selectors u).
Proof. intros Hy Hm. unfold buildWeekIndex. now rewrite Hy, Hm. Qed.

(** After [buildWeekIndex] the options are the blocks of the selected month
    and the first of them is the selected one. *)
Lemma buildWeekIndex_resets u y m :
  sel_value (weekYear (selectors u)) = Some y ->
  sel_value (weekMonth (selectors u)) = Some m ->
  let s' := weekIndex (selectors (buildWeekIndex u)) in
  values s' = map (fun k => 1 + Z.of_nat k) (seq 0 (Z.to_nat ((daysInMonth y m + 6) / 7)))
  /\ sel_value s' = Some 1
  /\ 1 <= 1 <= (daysInMonth y m + 6) / 7.
Proof.
  intros Hy Hm s'. subst s'. rewrite (buildWeekIndex_selectors u y m Hy Hm).
  cbn [weekIndex upd_weekIndex].
  pose proof (daysInMonth_pos y m) as Hpos.
  split; [|split].
  - unfold values, set_options. cbn [options]. apply values_weekOptions. lia.
  - unfold weekOptions. rewrite weekOptionsLoop_step by lia. reflexivity.
  - div_lia.
Qed.

Lemma local_fields_east tz y m d :
  0 <= tz < 1440 -> validDate y m d = true ->
  let t := days_from_civil y m d * msPerDay in
  getFullYear tz t = y /\ getMonth1 tz t = m /\ getDate tz t = d.
Proof.
  intros Htz Hv t. subst t. unfold getFullYear, getMonth1, getDate.
  replace (Day (LocalTime tz (days_from_civil y m d * msPerDay))) with (days_from_civil y m d)
    by (unfold Day, LocalTime, msPerDay, msPerMinute; div_lia).
  rewrite civil_from_days_from_civil by assumption. auto.
Qed.

(** [syncSelectionsFromDate] east of Greenwich, for a date whose year and
    month are among the options of the selects. *)
Lemma syncSelectionsFromDate_selects tz y m d u :
  0 <= tz < 1440 -> 100 <= y <= 9999 -> validDate y m d = true ->
  In y (values (weekYear (selectors u))) -> In y (values (monthYear (selectors u))) ->
  In y (values (yearSelect (selectors u))) ->
  In m (values (weekMonth (selectors u))) -> In m (values (monthSelect (selectors u))) ->
  let s' := selectors (syncSelectionsFromDate tz (isoText y m d) u) in
  dayInput s' = isoText y m d
  /\ sel_value (weekYear s') = Some y /\ sel_value (monthYear s') = Some y
  /\ sel_value (yearSelect s') = Some y
  /\ sel_value (weekMonth s') = Some m /\ sel_value (monthSelect s') = Some m
  /\ values (weekIndex s')
     = map (fun k => 1 + Z.of_nat k) (seq 0 (Z.to_nat ((daysInMonth y m + 6) / 7)))
  /\ sel_value (weekIndex s') = Some (weekIdxOfDay d)
  /\ 1 <= weekIdxOfDay d <= (daysInMonth y m + 6) / 7.
Proof.
  intros Htz Hy Hv Hwy Hmy Hys Hwm Hms s'. subst s'.
  unfold syncSelectionsFromDate.
  rewrite Date_parse_isoText by (assumption || lia).
  destruct (local_fields_east tz y m d Htz Hv) as (-> & -> & ->).
  set (u1 := with_selectors _ u).
  assert (H1y : sel_value (weekYear (selectors u1)) = Some y).
  { subst u1. cbn. now apply sel_value_set_value. }
  assert (H1m : sel_value (weekMonth (selectors u1)) = Some m).
  { subst u1. cbn. now apply sel_value_set_value. }
  cbn [selectors with_selectors].
  rewrite (buildWeekIndex_selectors u1 y m H1y H1m).
  assert (Hd : 1 <= d <= daysInMonth y m).
  { unfold validDate in Hv. rewrite !andb_true_iff, !Z.leb_le in Hv.
    rewrite daysInMonth_monthLength by lia. lia. }
  assert (Hwk : 1 <= weekIdxOfDay d <= (daysInMonth y m + 6) / 7).
  { unfold weekIdxOfDay. div_lia. }
  subst u1. cbn [selectors with_selectors upd_weekIndex upd_monthSelect upd_weekMonth
                 upd_yearSelect upd_monthYear upd_weekYear set_dayInput dayInput weekYear
                 monthYear yearSelect weekMonth monthSelect weekIndex].
  split; [reflexivity|].
  split; [now apply sel_value_set_value|]. split; [now apply sel_value_set_value|].
  split; [now apply sel_value_set_value|]. split; [now apply sel_value_set_value|].
  split; [now apply sel_value_set_value|].
  split; [|split; [|exact Hwk]].
  - rewrite values_set_value. unfold values, set_options. cbn [options].
    apply values_weekOptions. lia.
  - apply sel_value_set_value. unfold values, set_options. cbn [options].
    apply In_values_weekOptions; [lia|exact Hwk].
Qed.

End SelectorsSync.




(** ** C9: the week index after a change of month *)




(** ** C4: the week blocks of a month *)

Lemma dayField_of_isoText `{Engine} y m d :
  0 <= d <= 99 ->
  weekIdxOf (ToNumber (VStr (firstn 2 (skipn 8 (isoText y m d))))) = Fin (weekIdxOfDay d).
Proof.
  intros Hd.
  change (firstn 2 (skipn 8 (isoText y m d))) with (pad2 (Z.to_N d)).
  cbn [ToNumber].
  rewrite (StringToNumber_digits (pad2 (Z.to_N d)) d).
  - reflexivity.
  - discriminate.
  - rewrite digits_val_pad2 by lia. f_equal. lia.
Qed.

(** C4.  For every year and month, with [days] the length of the month as
    [buildWeekIndex] computes it: the options that [buildWeekIndex] builds
    are the blocks [w], [weekBlockRange(w)] for w = 1 .. ceil(days / 7);
    every day 1 .. days lies in exactly one block, the one numbered
    floor((day - 1) / 7) + 1, which is the week index that [loadDay] reads
    off the date; the lengths of the blocks add up to [days]; and in
    February 2024 (29 days) block 4 is 22-28 and day 29 is in block 5. *)
Theorem week_blocks_partition_month `{Engine} (y m : Z) :
  let days := daysInMonth y m in
  let blocks := weekOptions days in
  List.length blocks = Z.to_nat ((days + 6) / 7)
  /\ (forall w, 1 <= w <= (days + 6) / 7 ->
        nth_error blocks (Z.to_nat (w - 1))
        = Some (w, fst (weekBlockRange days w), snd (weekBlockRange days w)))
  /\ (forall d, 1 <= d <= days ->
        exists b, In b blocks /\ covers b d /\ blockIdx b = (d - 1) / 7 + 1
                  /\ forall b', In b' blocks -> covers b' d -> b' = b)
  /\ blockLengths blocks = days
  /\ (forall yy mm d, 0 <= d <= 99 ->
        weekIdxOf (ToNumber (VStr (firstn 2 (skipn 8 (isoText yy mm d)))))
        = Fin ((d - 1) / 7 + 1))
  /\ daysInMonth 2024 2 = 29
  /\ nth_error (weekOptions (daysInMonth 2024 2)) 3 = Some (4, 22, 28)
  /\ weekIdxOfDay 29 = 5.
Proof.
  intros days blocks. subst blocks.
  pose proof (daysInMonth_pos y m) as Hpos. fold days in Hpos.
  destruct (weekOptions_blocks days ltac:(lia)) as (Hlen & Hnth & Hpart & Hsum).
  split; [exact Hlen|]. split; [exact Hnth|]. split; [exact Hpart|]. split; [exact Hsum|].
  split; [intros yy mm d Hd; now apply dayField_of_isoText|].
  repeat split; vm_compute; reflexivity.
Qed.


(** ** The theorems at work on the examples *)

Lemma scenario_rows_ok dt :
  In dt (map utf16 ["2024-01-08"; "2024-01-09"; "2024-01-10"; "2024-01-11";
                    "2024-01-12"; "2024-01-13"; "2024-01-14"]%string) ->
  rowsOk (caught (scenarioServer (LogsDay dt (deviceParam initialUI)))).
Proof.
  intros [<-|[<-|[<-|[<-|[<-|[<-|[<-|[]]]]]]]]; vm_compute; repeat constructor.
Defined.


Lemma last_completed_week_load_witness :
  data0 (week (charts (ui
    (deliver 0 [weekAnswer "2024-01-01" 10 1]
       (deliver 1 [weekAnswer "2024-01-08" 20 2]
          (launch (loadWeek (utf16 "2024") (utf16 "1") (utf16 "2"))
             (launch (loadWeek (utf16 "2024") (utf16 "1") (utf16 "1"))
                (mkWorld initialUI [] 0))))))))
  = map numOr0 (counts [10]).
Proof.
  destruct (last_completed_week_load_wins initialUI
              (utf16 "2024") (utf16 "1") (utf16 "1") (utf16 "2024") (utf16 "1") (utf16 "2")
              (weekAnswer "2024-01-01" 10 1) (weekAnswer "2024-01-08" 20 2)
              (payload ["2024-01-01"]%string [10] [1]) [utf16 "2024-01-01"]
              (counts [10]) (counts [1])
              eq_refl (conj eq_refl (conj eq_refl eq_refl)))
    as (_ & _ & _ & Hd & _).
  exact Hd.
Defined.

Lemma february_2024_blocks_witness :
  nth_error (weekOptions (daysInMonth 2024 2)) (Z.to_nat (4 - 1))
  = Some (4, fst (weekBlockRange (daysInMonth 2024 2) 4),
             snd (weekBlockRange (daysInMonth 2024 2) 4))
  /\ exists b, In b (weekOptions (daysInMonth 2024 2)) /\ covers b 29 /\ blockIdx b = (29 - 1) / 7 + 1
               /\ forall b', In b' (weekOptions (daysInMonth 2024 2)) -> covers b' 29 -> b' = b.
Proof.
  destruct (week_blocks_partition_month 2024 2) as (_ & Hn & Hp & _).
  assert (E : daysInMonth 2024 2 = 29) by (vm_compute; reflexivity).
  split.
  - apply Hn. rewrite E. vm_compute. split; discriminate.
  - apply Hp. rewrite E. lia.
Defined.


Lemma week_fetch_503_witness :
  charts (fst (run scenarioServer (loadWeek (utf16 "2024") (utf16 "1") (utf16 "2") initialUI)))
  = charts initialUI
  /\ weekLabel (viewLabels (fst (run scenarioServer
                                   (loadWeek (utf16 "2024") (utf16 "1") (utf16 "2") initialUI))))
     = VStr Loi.
Proof.
  destruct (fetch_failure_is_contained scenarioServer 420 initialUI) as (_ & Hw & _).
  destruct (Hw (utf16 "2024") (utf16 "1") (utf16 "2") _ eq_refl) as (_ & Hc & Hl & _).
  split; [exact Hc|exact Hl].
Defined.






(* ====================================================================== *)
(** * Part III: the rest of the page                                       *)
(* ====================================================================== *)

(** ** The requests a computation issues *)

Section Traces.
Context `{Engine}.
Variable server : Request -> Response.

Lemma trace_bindA {A B} (a : Async A) (f : A -> M B) :
  trace server (bindA a f)
  = trace server a ++ match run server a with
                      | (u, Ok x) => trace server (f x u)
                      | (_, Throw _) => []
                      end.
Proof.
  induction a as [u x|u e|u reqs k IH]; cbn [bindA trace run app]; auto.
  now rewrite IH, app_assoc.
Qed.

Lemma trace_catchA {A} (a : Async A) (h : exn -> M A) :
  trace server (catchA a h)
  = trace server a ++ match run server a with
                      | (_, Ok _) => []
                      | (u, Throw e) => trace server (h e u)
                      end.
Proof.
  induction a as [u x|u e|u reqs k IH]; cbn [catchA trace run app]; auto.
  now rewrite IH, app_assoc.
Qed.

Lemma trace_bind {A B} (m : M A) (f : A -> M B) u :
  trace server (bind m f u)
  = trace server (m u) ++ match run server (m u) with
                          | (u', Ok x) => trace server (f x u')
                          | (_, Throw _) => []
                          end.
Proof. apply trace_bindA. Qed.

Lemma trace_try_catch {A} (m : M A) (h : exn -> M A) u :
  trace server (try_catch m h u)
  = trace server (m u) ++ match run server (m u) with
                          | (_, Ok _) => []
                          | (u', Throw e) => trace server (h e u')
                          end.
Proof. apply trace_catchA. Qed.

Lemma trace_lift {A} (r : Result A) u : trace server (lift r u) = [].
Proof. destruct r; reflexivity. Qed.

Lemma trace_fetchJSON req u : trace server (fetchJSON req u) = [req].
Proof.
  unfold fetchJSON. rewrite trace_bind. unfold await_one at 1. cbn [trace run map nth app].
  unfold await_one. cbn [run map nth]. now rewrite trace_lift.
Qed.

Lemma trace_await_all reqs u : trace server (await_all reqs u) = reqs.
Proof. unfold await_all. cbn [trace]. apply app_nil_r. Qed.

(** Whatever [P] the requests of the parts satisfy, those of the whole do. *)
Variable P : Request -> Prop.

Lemma Sends_ret {A} (x : A) : Sends P (ret x).
Proof. intros s u. constructor. Qed.

Lemma Sends_lift {A} (r : Result A) : Sends P (lift r).
Proof. intros s u. destruct r; constructor. Qed.

Lemma Sends_gets {A} (f : UI -> A) : Sends P (gets f).
Proof. intros s u. constructor. Qed.

Lemma Sends_modify (f : UI -> UI) : Sends P (modify f).
Proof. intros s u. constructor. Qed.

End Traces.

Section Sending.
Context `{Engine}.
Variable P : Request -> Prop.

Lemma Sends_bind {A B} (m : M A) (f : A -> M B) :
  Sends P m -> (forall x, Sends P (f x)) -> Sends P (bind m f).
Proof.
  intros Hm Hf s u. rewrite trace_bind. apply Forall_app. split; [apply Hm|].
  destruct (run s (m u)) as [u' [x|e]]; [apply Hf|constructor].
Qed.

Lemma Sends_try_catch {A} (m : M A) (h : exn -> M A) :
  Sends P m -> (forall e, Sends P (h e)) -> Sends P (try_catch m h).
Proof.
  intros Hm Hh s u. rewrite trace_try_catch. apply Forall_app. split; [apply Hm|].
  destruct (run s (m u)) as [u' [x|e]]; [constructor|apply Hh].
Qed.

Lemma Sends_fetchJSON req : P req -> Sends P (fetchJSON req).
Proof. intros Hp s u. rewrite trace_fetchJSON. now constructor. Qed.

Lemma Sends_await_all reqs : Forall P reqs -> Sends P (await_all reqs).
Proof. intros Hp s u. now rewrite trace_await_all. Qed.

Lemma Sends_catchEach dates rs :
  Sends P (fun u => let (u', vs) := catchEach dates rs u in Ret u' vs).
Proof. intros s u. destruct (catchEach dates rs u). constructor. Qed.

End Sending.

Ltac sends_steps :=
  repeat first
    [ apply Sends_fetchJSON
    | apply Sends_await_all
    | apply Sends_catchEach
    | apply Sends_lift | apply Sends_modify | apply Sends_gets | apply Sends_ret
    | apply Sends_try_catch; [|intros ?]
    | apply Sends_bind; [|intros ?] ].

Section DeviceOfRequests.
Context `{Engine}.

Lemma renderDayLog_sends P d data : Sends P (renderDayLog d data).
Proof. unfold renderDayLog. sends_steps. Qed.

Lemma loadDay_body_sends tz d dev :
  Sends (fun r => device_of r = dev)
        (dayStep1 d dev >> dayStep2 tz d dev >> dayStep3 d dev).
Proof.
  unfold dayStep1, dayStep2, dayStep3, renderDayLog. sends_steps; try reflexivity.
  apply Forall_forall. intros r Hr. apply in_map_iff in Hr as (dt & <- & _). reflexivity.
Qed.

End DeviceOfRequests.

Lemma Sends_nothing `{Engine} {A} (m : M A) :
  Sends (fun _ => False) m -> forall server u, trace server (m u) = [].
Proof.
  intros Hm server u. specialize (Hm server u).
  destruct (trace server (m u)) as [|r l]; [reflexivity|].
  inversion Hm as [|? ? F _]. destruct F.
Qed.

(** A loader that asks once: the request, then nothing more. *)
Lemma one_request `{Engine} server req (f : value -> M unit) (h : exn -> M unit) u :
  (forall j, Sends (fun _ => False) (f j)) -> (forall e, Sends (fun _ => False) (h e)) ->
  trace server (try_catch (bind (fetchJSON req) f) h u) = [req].
Proof.
  intros Hf Hh. rewrite trace_try_catch, trace_bind, trace_fetchJSON.
  rewrite run_bind, run_fetchJSON.
  destruct (fetchJSON_of (server req)) as [j|e].
  - rewrite (Sends_nothing (f j) (Hf j)). cbn [app].
    destruct (run server (f j u)) as [u' [x|e]]; [reflexivity|].
    now rewrite (Sends_nothing (h e) (Hh e)).
  - cbn [app]. now rewrite (Sends_nothing (h e) (Hh e)).
Qed.

Section OneRequest.
Context `{Engine}.
Variable server : Request -> Response.

Lemma trace_loadWeek y m w u :
  trace server (loadWeek y m w u) = [DataWeek y m w (deviceParam u)].
Proof. apply (one_request server (DataWeek y m w (deviceParam u))); intros; sends_steps. Qed.

Lemma trace_loadMonth y m u :
  trace server (loadMonth y m u) = [DataMonth y m (deviceParam u)].
Proof. apply (one_request server (DataMonth y m (deviceParam u))); intros; sends_steps. Qed.

Lemma trace_loadYear y u : trace server (loadYear y u) = [DataYear y (deviceParam u)].
Proof. apply (one_request server (DataYear y (deviceParam u))); intros; sends_steps. Qed.

End OneRequest.

(** X1.  Every request that a loader issues carries the device that was
    selected when the loader was called, and no [device] parameter when that
    was ['all'], whatever the server answers and however far the loader
    gets; the week, month and year loaders issue exactly one request. *)
Theorem loaders_send_the_selected_device `{Engine}
    (server : Request -> Response) (tz : Z) (u : UI) :
  let dev := if jseqb (selectedDevice u) (utf16 "all") then None else Some (selectedDevice u) in
  (forall d, Forall (fun r => device_of r = dev) (trace server (loadDay tz d u)))
  /\ (forall y m w, trace server (loadWeek y m w u) = [DataWeek y m w dev])
  /\ (forall y m, trace server (loadMonth y m u) = [DataMonth y m dev])
  /\ (forall y, trace server (loadYear y u) = [DataYear y dev]).
Proof.
  intros dev. change dev with (deviceParam u). clear dev.
  split; [|split; [|split]].
  - intros d. unfold loadDay. rewrite trace_try_catch, trace_bind. cbn [trace gets run app].
    apply Forall_app. split; [apply loadDay_body_sends|].
    destruct (run server _) as [u' [x|e]]; constructor.
  - intros y m w. apply trace_loadWeek.
  - intros y m. apply trace_loadMonth.
  - intros y. apply trace_loadYear.
Qed.


(** ** [loadDay] step by step *)

Section DaySteps.
Context `{Engine}.
Variable server : Request -> Response.

Lemma trace_renderDayLog d data u : trace server (renderDayLog d data u) = [].
Proof. apply Sends_nothing, renderDayLog_sends. Qed.

Lemma trace_dayStep3 d dev u :
  trace server (dayStep3 d dev u)
  = [DataWeek (firstn 4 d)
              (num_text (ToNumber (VStr (firstn 2 (skipn 5 d)))))
              (num_text (weekIdxOf (ToNumber (VStr (firstn 2 (skipn 8 d))))))
              dev].
Proof.
  unfold dayStep3. rewrite trace_bind, trace_fetchJSON, run_fetchJSON.
  destruct (fetchJSON_of _) as [j|e]; [|reflexivity].
  rewrite Sends_nothing; [reflexivity|]. sends_steps.
Qed.

Lemma trace_dayStep2 tz d dev wd u :
  weekDatesFrom tz d = Ok wd ->
  trace server (dayStep2 tz d dev u) = map (fun dt => LogsDay dt dev) wd.
Proof.
  intros Hw. unfold dayStep2. rewrite trace_bind, trace_lift, run_lift, Hw. cbn [app].
  rewrite trace_bind, trace_await_all, run_await_all.
  rewrite Sends_nothing; [apply app_nil_r|]. sends_steps.
Qed.

Lemma trace_dayStep2_bad tz d dev u :
  Date_parse d = None -> trace server (dayStep2 tz d dev u) = [].
Proof.
  intros Hp. unfold dayStep2, weekDatesFrom. rewrite Hp.
  now rewrite trace_bind, trace_lift, run_lift.
Qed.

Lemma run_dayStep2_bad tz d dev u :
  Date_parse d = None -> run server (dayStep2 tz d dev u) = (u, Throw RangeError).
Proof.
  intros Hp. unfold dayStep2, weekDatesFrom. rewrite Hp. now rewrite run_bind, run_lift.
Qed.

(** The handler of [loadDay] asks nothing. *)
Lemma trace_loadDay tz d u :
  trace server (loadDay tz d u)
  = trace server ((dayStep1 d (deviceParam u) >> dayStep2 tz d (deviceParam u)
                   >> dayStep3 d (deviceParam u)) u).
Proof.
  unfold loadDay. rewrite trace_try_catch, trace_bind, run_bind. cbn [trace gets run app].
  destruct (run server _) as [u' [x|e]]; cbn [trace modify]; apply app_nil_r.
Qed.

End DaySteps.

(** X2.  When the hourly request of [loadDay] fails, nothing is drawn: the
    page is as it was, but for one [console.error] entry; the loader returns
    normally and issues no other request. *)
Theorem loadDay_stops_when_the_hourly_request_fails `{Engine}
    (server : Request -> Response) (tz : Z) (d : jsstring) (u : UI) (e : exn) :
  fetchJSON_of (server (DataDay d (deviceParam u))) = Throw e ->
  run server (loadDay tz d u) = (log (ConsoleError (utf16 "loadDay error") e) u, Ok tt)
  /\ trace server (loadDay tz d u) = [DataDay d (deviceParam u)].
Proof.
  intros He. split.
  - unfold loadDay. rewrite run_try_catch_bind. cbn [run gets].
    rewrite run_try_catch_bind. unfold dayStep1 at 1. rewrite run_bind, run_fetchJSON, He.
    reflexivity.
  - rewrite trace_loadDay, trace_bind. unfold dayStep1.
    rewrite trace_bind, trace_fetchJSON, !run_bind, run_fetchJSON, He. reflexivity.
Qed.

(** X3.  When the text handed to [loadDay] has the shape YYYY-MM-DD but a
    month outside 1..12 or a day outside 1..31 (and the server still answers
    the hourly request), the log table is drawn, then [weekDatesFrom]
    throws: the error is logged, no chart and no label changes, and no day
    or week request is issued. *)
Theorem loadDay_draws_only_the_table_for_a_bad_date `{Engine}
    (server : Request -> Response) (tz : Z) (d : jsstring) (y m dd : Z) (u : UI)
    (hourly : value) :
  fetchJSON_of (server (DataDay d (deviceParam u))) = Ok hourly ->
  hourlyShape hourly = true ->
  parseIsoFields d = Some (y, m, dd) ->
  ~ (1 <= m <= 12 /\ 1 <= dd <= 31) ->
  let r := run server (loadDay tz d u) in
  snd r = Ok tt
  /\ charts (fst r) = charts u
  /\ viewLabels (fst r) = viewLabels u
  /\ console (fst r) = console u ++ [ConsoleError (utf16 "loadDay error") RangeError]
  /\ List.length (logTable (dayLog (fst r))) = 25%nat
  /\ (exists sp sf, logSummary (dayLog (fst r)) = DaySummary d sp sf)
  /\ trace server (loadDay tz d u) = [DataDay d (deviceParam u)].
Proof.
  intros Hh Hs Hf Hbad r.
  assert (Hp : Date_parse d = None).
  { unfold Date_parse. rewrite Hf. destruct (validDate y m dd) eqn:Hv; [|reflexivity].
    exfalso. apply Hbad. pose proof (monthLength_pos y m).
    unfold validDate in Hv. rewrite !andb_true_iff, !Z.leb_le in Hv. lia. }
  assert (Hrender : exists sp sf,
    run server (renderDayLog d hourly u)
    = (with_dayLog (fun _ =>
         mkDayLog (DaySummary d sp sf)
                  (HeadRow :: map (fun i => HourRow (Z.of_nat i)
                                                    (cellOf (field k_pass hourly) (Z.of_nat i))
                                                    (cellOf (field k_fail hourly) (Z.of_nat i)))
                                  (seq 0 24))) u, Ok tt)).
  { destruct hourly; try discriminate. cbn [hourlyShape] in Hs.
    apply andb_true_iff in Hs as [H1 H2].
    destruct (sum_column _ H1) as [sp Hsp]. destruct (sum_column _ H2) as [sf Hsf].
    exists sp, sf. apply (renderDayLog_run server d (VObj fields) sp sf); auto. }
  destruct Hrender as (sp & sf & Hr).
  assert (Hrun : r = (log (ConsoleError (utf16 "loadDay error") RangeError)
                        (with_dayLog (fun _ =>
                           mkDayLog (DaySummary d sp sf)
                             (HeadRow :: map (fun i => HourRow (Z.of_nat i)
                                                    (cellOf (field k_pass hourly) (Z.of_nat i))
                                                    (cellOf (field k_fail hourly) (Z.of_nat i)))
                                  (seq 0 24))) u), Ok tt)).
  { subst r. unfold loadDay. rewrite run_try_catch_bind. cbn [run gets].
    rewrite run_try_catch_bind. unfold dayStep1 at 1. rewrite run_bind, run_fetchJSON, Hh, Hr.
    rewrite run_try_catch_bind, run_dayStep2_bad by assumption. reflexivity. }
  rewrite Hrun. cbn [fst snd log with_dayLog charts viewLabels console dayLog logTable logSummary].
  split; [reflexivity|]. split; [reflexivity|]. split; [reflexivity|]. split; [reflexivity|].
  split; [reflexivity|]. split; [now exists sp, sf|].
  rewrite trace_loadDay, trace_bind. unfold dayStep1 at 1 2.
  rewrite trace_bind, trace_fetchJSON, !run_bind, run_fetchJSON, Hh, Hr, trace_renderDayLog.
  rewrite trace_bind, trace_dayStep2_bad, run_dayStep2_bad by assumption.
  reflexivity.
Qed.

Section WeekRequest.
Context `{Engine}.

Lemma monthField_of_isoText y m d :
  0 <= m <= 99 -> ToNumber (VStr (firstn 2 (skipn 5 (isoText y m d)))) = Fin m.
Proof.
  intros Hm.
  change (firstn 2 (skipn 5 (isoText y m d))) with (pad2 (Z.to_N m)).
  cbn [ToNumber].
  rewrite (StringToNumber_digits (pad2 (Z.to_N m)) m).
  - reflexivity.
  - discriminate.
  - rewrite digits_val_pad2 by lia. f_equal. lia.
Qed.

Lemma num_text_nonneg z : 0 <= z -> num_text (Fin z) = decimal z.
Proof. intros Hz. unfold num_text. destruct (Z.ltb_spec z 0); [lia|reflexivity]. Qed.

(** The request of the third step of [loadDay] for a date text: the year as
    written, the month and the week block as numbers. *)
Lemma weekRequest_of_isoText server y m d dev u :
  validDate y m d = true ->
  trace server (dayStep3 (isoText y m d) dev u)
  = [DataWeek (pad4 (Z.to_N y)) (decimal m) (decimal (weekIdxOfDay d)) dev].
Proof.
  intros Hv. pose proof (monthLength_pos y m).
  assert (1 <= m <= 12 /\ 1 <= d <= monthLength y m) as [Hm Hd].
  { unfold validDate in Hv. rewrite !andb_true_iff, !Z.leb_le in Hv. lia. }
  rewrite trace_dayStep3, monthField_of_isoText, dayField_of_isoText by lia.
  rewrite !num_text_nonneg by (unfold weekIdxOfDay; div_lia). reflexivity.
Qed.

Lemma dayStep3_failure server y m d dev u e :
  validDate y m d = true ->
  fetchJSON_of (server (DataWeek (pad4 (Z.to_N y)) (decimal m) (decimal (weekIdxOfDay d)) dev))
  = Throw e ->
  run server (dayStep3 (isoText y m d) dev u) = (u, Throw e).
Proof.
  intros Hv He. pose proof (monthLength_pos y m).
  assert (1 <= m <= 12 /\ 1 <= d <= monthLength y m) as [Hm Hd].
  { unfold validDate in Hv. rewrite !andb_true_iff, !Z.leb_le in Hv. lia. }
  unfold dayStep3. rewrite monthField_of_isoText, dayField_of_isoText by lia.
  rewrite !num_text_nonneg by (unfold weekIdxOfDay; div_lia).
  change (firstn 4 (isoText y m d)) with (pad4 (Z.to_N y)).
  now rewrite run_bind, run_fetchJSON, He.
Qed.

(** [.catch] on the day requests only writes to the console. *)
Lemma catchEach_logs dates : forall rs u,
  exists l, fst (catchEach dates rs u)
            = mkUI (selectedDevice u) (charts u) (viewLabels u) (dayLog u) (selectors u)
                   (console u ++ l) (dialogs u).
Proof.
  induction dates as [|dt dates IH]; intros [|r rs] u; cbn [catchEach fst];
    try (exists []; rewrite app_nil_r; now destruct u).
  destruct (fetchJSON_of r) as [v|e].
  - destruct (IH rs u) as [l Hl]. exists l. destruct (catchEach dates rs u). exact Hl.
  - destruct (IH rs (log (ConsoleWarn (utf16 "logs/day failed") dt e) u)) as [l Hl].
    exists (ConsoleWarn (utf16 "logs/day failed") dt e :: l).
    destruct (catchEach dates rs _). cbn [fst] in *. rewrite Hl. cbn [log selectedDevice charts
      viewLabels dayLog selectors console dialogs]. now rewrite <- app_assoc.
Qed.

End WeekRequest.

(** The requests of [loadDay] on its way through the three steps. *)
Lemma loadDay_trace `{Engine} (server : Request -> Response) (tz y m d : Z) (u : UI)
    (hourly : value) (wd : list jsstring) :
  validDate y m d = true ->
  fetchJSON_of (server (DataDay (isoText y m d) (deviceParam u))) = Ok hourly ->
  hourlyShape hourly = true ->
  weekDatesFrom tz (isoText y m d) = Ok wd ->
  (forall dt, In dt wd -> rowsOk (caught (server (LogsDay dt (deviceParam u))))) ->
  trace server (loadDay tz (isoText y m d) u)
  = [DataDay (isoText y m d) (deviceParam u)]
    ++ map (fun dt => LogsDay dt (deviceParam u)) wd
    ++ [DataWeek (pad4 (Z.to_N y)) (decimal m) (decimal (weekIdxOfDay d)) (deviceParam u)].
Proof.
  intros Hv Hh Hs Hw Hrows.
  rewrite trace_loadDay, trace_bind. unfold dayStep1 at 1 2.
  rewrite trace_bind, trace_fetchJSON, !run_bind, run_fetchJSON, Hh.
  destruct (renderDayLog_shape server (isoText y m d) hourly u Hs) as [u1 E1].
  rewrite E1, trace_renderDayLog, trace_bind, (trace_dayStep2 server tz _ _ wd) by assumption.
  destruct (dayStep2_run server tz (isoText y m d) (deviceParam u) wd u1 Hw Hrows)
    as (pa & fa & uc & E2 & _).
  rewrite E2, weekRequest_of_isoText by assumption. reflexivity.
Qed.

(** X4.  The requests of [loadDay] for a calendar date, when the hourly
    request answers and no day answer holds a [null] row: the hourly counts
    of the date, then the logs of the seven week dates in their order, then
    the week block of the date, asked for as [/data/week/YYYY/m/w] with the
    year as written, the month without its leading zero and
    [w = floor((day - 1) / 7) + 1]; nine requests in all, whatever the
    server answers to the last eight. *)
Theorem loadDay_asks_nine_requests `{Engine}
    (server : Request -> Response) (tz y m d : Z) (u : UI) (hourly : value)
    (wd : list jsstring) :
  validDate y m d = true ->
  fetchJSON_of (server (DataDay (isoText y m d) (deviceParam u))) = Ok hourly ->
  hourlyShape hourly = true ->
  weekDatesFrom tz (isoText y m d) = Ok wd ->
  (forall dt, In dt wd -> rowsOk (caught (server (LogsDay dt (deviceParam u))))) ->
  trace server (loadDay tz (isoText y m d) u)
  = [DataDay (isoText y m d) (deviceParam u)]
    ++ map (fun dt => LogsDay dt (deviceParam u)) wd
    ++ [DataWeek (pad4 (Z.to_N y)) (decimal m) (decimal (weekIdxOfDay d)) (deviceParam u)]
  /\ List.length (trace server (loadDay tz (isoText y m d) u)) = 9%nat.
Proof.
  intros Hv Hh Hs Hw Hrows.
  pose proof (loadDay_trace server tz y m d u hourly wd Hv Hh Hs Hw Hrows) as E.
  split; [exact E|].
  rewrite E, !length_app, length_map, (weekDatesFrom_length tz _ _ Hw). reflexivity.
Qed.

(** X5.  When the week request of [loadDay] fails after the bars are drawn,
    the day chart shows the new bars, the week chart (and the month and year
    charts and the labels) keep what they showed, and the error is the last
    entry of the console; the loader returns normally. *)
Theorem loadDay_keeps_the_week_chart_when_its_request_fails `{Engine}
    (server : Request -> Response) (tz y m d : Z) (u : UI) (hourly : value)
    (wd : list jsstring) (e : exn) :
  validDate y m d = true ->
  fetchJSON_of (server (DataDay (isoText y m d) (deviceParam u))) = Ok hourly ->
  hourlyShape hourly = true ->
  weekDatesFrom tz (isoText y m d) = Ok wd ->
  (forall dt, In dt wd -> rowsOk (caught (server (LogsDay dt (deviceParam u))))) ->
  fetchJSON_of (server (DataWeek (pad4 (Z.to_N y)) (decimal m) (decimal (weekIdxOfDay d))
                                 (deviceParam u))) = Throw e ->
  let r := run server (loadDay tz (isoText y m d) u) in
  snd r = Ok tt
  /\ week (charts (fst r)) = week (charts u)
  /\ month (charts (fst r)) = month (charts u)
  /\ year (charts (fst r)) = year (charts u)
  /\ viewLabels (fst r) = viewLabels u
  /\ labels (day (charts (fst r))) = VArr (map (dayLabel tz) wd)
  /\ List.length (data0 (day (charts (fst r)))) = 7%nat
  /\ List.length (data1 (day (charts (fst r)))) = 7%nat
  /\ exists warns,
       console (fst r) = console u ++ warns ++ [ConsoleError (utf16 "loadDay error") e].
Proof.
  intros Hv Hh Hs Hw Hrows He r.
  assert (Hrender : exists sp sf rows,
    run server (renderDayLog (isoText y m d) hourly u)
    = (with_dayLog (fun _ => mkDayLog (DaySummary (isoText y m d) sp sf) rows) u, Ok tt)).
  { destruct hourly; try discriminate. cbn [hourlyShape] in Hs.
    apply andb_true_iff in Hs as [H1 H2].
    destruct (sum_column _ H1) as [sp Hsp]. destruct (sum_column _ H2) as [sf Hsf].
    exists sp, sf. eexists. apply (renderDayLog_run server _ (VObj fields) sp sf); auto. }
  destruct Hrender as (sp & sf & rows & E1).
  set (u1 := with_dayLog (fun _ => mkDayLog (DaySummary (isoText y m d) sp sf) rows) u) in *.
  destruct (dayStep2_run server tz (isoText y m d) (deviceParam u) wd u1 Hw Hrows)
    as (pa & fa & uc & E2 & Euc & Hp & Hf & _).
  destruct (catchEach_logs wd (map server (map (fun dt => LogsDay dt (deviceParam u)) wd)) u1)
    as [warns Hwarns].
  rewrite <- Euc in Hwarns.
  assert (Hrun : r = (log (ConsoleError (utf16 "loadDay error") e)
                        (with_charts (upd_chart CDay (fun c =>
                           set_data1 fa (set_data0 pa
                             (set_labels (VArr (map (dayLabel tz) wd)) c)))) uc), Ok tt)).
  { subst r. unfold loadDay. rewrite run_try_catch_bind. cbn [run gets].
    rewrite run_try_catch_bind. unfold dayStep1 at 1. rewrite run_bind, run_fetchJSON, Hh, E1.
    rewrite run_try_catch_bind, E2, run_try_catch.
    rewrite (dayStep3_failure server y m d _ _ e) by assumption. reflexivity. }
  rewrite Hrun, Hwarns. subst u1.
  cbn [fst snd log with_charts with_dayLog upd_chart charts viewLabels console day week month year
       labels data0 data1 set_labels set_data0 set_data1].
  repeat (split; [first [reflexivity | assumption]|]).
  exists warns. now rewrite <- app_assoc.
Qed.


(** ** The week window and the names of its days *)












(** ** The selectors *)

Lemma year_of_next_day k :
  let y := fst (fst (civil_from_days k)) in
  let y' := fst (fst (civil_from_days (k + 1))) in
  y <= y' <= y + 1.
Proof.
  cbv zeta.
  pose proof (civil_from_days_valid k) as V1.
  pose proof (civil_from_days_valid (k + 1)) as V2.
  pose proof (days_from_civil_from_days k) as R1.
  pose proof (days_from_civil_from_days (k + 1)) as R2.
  destruct (civil_from_days k) as [[y m] d].
  destruct (civil_from_days (k + 1)) as [[y' m'] d']. cbn [fst snd] in *.
  pose proof (monthLength_pos y m). pose proof (monthLength_pos y' m').
  unfold validDate in V1, V2. rewrite !andb_true_iff, !Z.leb_le in V1, V2.
  unfold days_from_civil in R1, R2. cbv zeta in R1, R2.
  destruct (Z.leb_spec m 2); destruct (Z.ltb_spec 2 m); try lia;
    destruct (Z.leb_spec m' 2); destruct (Z.ltb_spec 2 m'); try lia; div_lia.
Qed.

Lemma find_index_absent v opts : forall i,
  ~ In v (map optValue opts) -> find_index v opts i = None.
Proof.
  induction opts as [|o opts IH]; intros i Hn; [reflexivity|].
  cbn [find_index]. destruct (Z.eqb_spec (optValue o) v) as [E|E].
  - exfalso. apply Hn. now left.
  - apply IH. intros Hin. apply Hn. now right.
Qed.

Lemma sel_value_absent v s : ~ In v (values s) -> sel_value (set_value (Fin v) s) = None.
Proof.
  intros Hn. unfold sel_value, set_value. cbn [selectedIndex options].
  now rewrite find_index_absent.
Qed.

Lemma month_in_range tz t : 1 <= getMonth1 tz t <= 12.
Proof.
  unfold getMonth1. pose proof (civil_from_days_valid (Day (LocalTime tz t))) as V.
  unfold validDate in V. rewrite !andb_true_iff, !Z.leb_le in V. lia.
Qed.

(** [populateSelects] at the clock value [now]: the three year selects
    offer the local year, the two before it and the one after it, with the
    local year selected; the two month selects offer 1..12 with the local
    month selected; the week-index select offers the blocks of that month
    with the first one selected; the day input is not touched. *)
Lemma populateSelects_facts (tz now : Z) (u : UI) :
  let s := selectors (populateSelects tz now u) in
  let y := getFullYear tz now in
  let m := getMonth1 tz now in
  values (weekYear s) = [y - 2; y - 1; y; y + 1]
  /\ sel_value (weekYear s) = Some y
  /\ monthYear s = weekYear s /\ yearSelect s = weekYear s
  /\ values (weekMonth s) = [1; 2; 3; 4; 5; 6; 7; 8; 9; 10; 11; 12]
  /\ sel_value (weekMonth s) = Some m
  /\ monthSelect s = weekMonth s
  /\ values (weekIndex s)
     = map (fun k => 1 + Z.of_nat k) (seq 0 (Z.to_nat ((daysInMonth y m + 6) / 7)))
  /\ sel_value (weekIndex s) = Some 1
  /\ dayInput s = dayInput (selectors u).
Proof.
  intros s y m. subst s. unfold populateSelects. fold y. fold m.
  set (u1 := with_selectors _ u).
  assert (Hy : sel_value (weekYear (selectors u1)) = Some y) by reflexivity.
  assert (Hm : sel_value (weekMonth (selectors u1)) = Some m).
  { subst u1. cbn [selectors with_selectors weekMonth]. unfold sel_value.
    cbn [selectedIndex options]. pose proof (month_in_range tz now) as Hr. fold m in Hr.
    assert (m = 1 \/ m = 2 \/ m = 3 \/ m = 4 \/ m = 5 \/ m = 6 \/ m = 7 \/ m = 8 \/ m = 9
            \/ m = 10 \/ m = 11 \/ m = 12) as Hc by lia.
    clearbody m. decompose [or] Hc; subst m; reflexivity. }
  destruct (buildWeekIndex_resets u1 y m Hy Hm) as (Hv & Hs & _).
  rewrite (buildWeekIndex_selectors u1 y m Hy Hm) in *.
  cbn [weekYear monthYear yearSelect weekMonth monthSelect weekIndex dayInput upd_weekIndex] in *.
  split; [reflexivity|]. split; [exact Hy|]. split; [reflexivity|]. split; [reflexivity|].
  split; [reflexivity|]. split; [exact Hm|]. split; [reflexivity|].
  split; [exact Hv|]. split; [exact Hs|reflexivity].
Qed.

(** X8.  [populateSelects] at the clock value [now]: the three year selects
    offer the local year, the two before it and the one after it, with the
    local year selected; the two month selects offer 1..12 with the local
    month selected; the week-index select offers the blocks of that month
    with the first one selected; the day input is not touched. *)
Theorem populateSelects_selects_the_local_month (tz now : Z) (u : UI) :
  let s := selectors (populateSelects tz now u) in
  let y := getFullYear tz now in
  let m := getMonth1 tz now in
  values (weekYear s) = [y - 2; y - 1; y; y + 1]
  /\ sel_value (weekYear s) = Some y
  /\ monthYear s = weekYear s /\ yearSelect s = weekYear s
  /\ values (weekMonth s) = [1; 2; 3; 4; 5; 6; 7; 8; 9; 10; 11; 12]
  /\ sel_value (weekMonth s) = Some m
  /\ monthSelect s = weekMonth s
  /\ values (weekIndex s)
     = map (fun k => 1 + Z.of_nat k) (seq 0 (Z.to_nat ((daysInMonth y m + 6) / 7)))
  /\ sel_value (weekIndex s) = Some 1
  /\ dayInput s = dayInput (selectors u).
Proof. apply populateSelects_facts. Qed.


(** [syncSelectionsFromDate] in any zone, in terms of the local date fields
    of the parsed date, when the selects offer the year and the month. *)
Lemma sync_selects_local tz s t u :
  Date_parse s = Some t ->
  let Y := getFullYear tz t in
  let Mo := getMonth1 tz t in
  let D := getDate tz t in
  ~ (0 <= Y <= 99) ->
  In Y (values (weekYear (selectors u))) -> In Y (values (monthYear (selectors u))) ->
  In Y (values (yearSelect (selectors u))) ->
  In Mo (values (weekMonth (selectors u))) -> In Mo (values (monthSelect (selectors u))) ->
  let s' := selectors (syncSelectionsFromDate tz s u) in
  dayInput s' = s
  /\ sel_value (weekYear s') = Some Y /\ sel_value (monthYear s') = Some Y
  /\ sel_value (yearSelect s') = Some Y
  /\ sel_value (weekMonth s') = Some Mo /\ sel_value (monthSelect s') = Some Mo
  /\ values (weekIndex s')
     = map (fun k => 1 + Z.of_nat k) (seq 0 (Z.to_nat ((daysInMonth Y Mo + 6) / 7)))
  /\ sel_value (weekIndex s') = Some (weekIdxOfDay D)
  /\ values (weekYear s') = values (weekYear (selectors u)).
Proof.
  intros Hp Y Mo D Hy Hwy Hmy Hys Hwm Hms s'. subst s'.
  unfold syncSelectionsFromDate. rewrite Hp. fold Y. fold Mo. fold D.
  assert (Hv : validDate Y Mo D = true) by apply civil_from_days_valid.
  set (u1 := with_selectors _ u).
  assert (H1y : sel_value (weekYear (selectors u1)) = Some Y).
  { subst u1. cbn. now apply sel_value_set_value. }
  assert (H1m : sel_value (weekMonth (selectors u1)) = Some Mo).
  { subst u1. cbn. now apply sel_value_set_value. }
  cbn [selectors with_selectors].
  rewrite (buildWeekIndex_selectors u1 Y Mo H1y H1m).
  assert (Hd : 1 <= D <= daysInMonth Y Mo).
  { unfold validDate in Hv. rewrite !andb_true_iff, !Z.leb_le in Hv.
    rewrite daysInMonth_monthLength by lia. lia. }
  assert (Hwk : 1 <= weekIdxOfDay D <= (daysInMonth Y Mo + 6) / 7).
  { unfold weekIdxOfDay. div_lia. }
  subst u1. cbn [selectors with_selectors upd_weekIndex upd_monthSelect upd_weekMonth
                 upd_yearSelect upd_monthYear upd_weekYear set_dayInput dayInput weekYear
                 monthYear yearSelect weekMonth monthSelect weekIndex].
  split; [reflexivity|].
  split; [now apply sel_value_set_value|]. split; [now apply sel_value_set_value|].
  split; [now apply sel_value_set_value|]. split; [now apply sel_value_set_value|].
  split; [now apply sel_value_set_value|].
  split; [|split; [|reflexivity]].
  - rewrite values_set_value. unfold values, set_options. cbn [options].
    apply values_weekOptions. lia.
  - apply sel_value_set_value. unfold values, set_options. cbn [options].
    apply In_values_weekOptions; [lia|exact Hwk].
Qed.

(** West of UTC the local date of midnight UTC is the day before. *)
Lemma local_fields_west tz n :
  -1440 <= tz < 0 ->
  let t := n * msPerDay in
  (getFullYear tz t, getMonth1 tz t, getDate tz t) = civil_from_days (n - 1).
Proof.
  intros Htz t. subst t. unfold getFullYear, getMonth1, getDate.
  replace (Day (LocalTime tz (n * msPerDay))) with (n - 1)
    by (unfold Day, LocalTime, msPerDay, msPerMinute; div_lia).
  now destruct (civil_from_days (n - 1)) as [[a b] c].
Qed.

(** X9.  West of UTC [syncSelectionsFromDate] sets the selectors to the day
    before the date it is given: the day input shows the date, while the
    year, the month and the week block selected are those of the previous
    day (when the selects offer them). *)
Theorem syncSelectionsFromDate_west_selects_the_day_before
    (tz y m d py pm pd : Z) (u : UI) :
  -1440 <= tz < 0 -> 0 <= y <= 9999 -> validDate y m d = true ->
  civil_from_days (days_from_civil y m d - 1) = (py, pm, pd) ->
  ~ (0 <= py <= 99) ->
  In py (values (weekYear (selectors u))) -> In py (values (monthYear (selectors u))) ->
  In py (values (yearSelect (selectors u))) ->
  In pm (values (weekMonth (selectors u))) -> In pm (values (monthSelect (selectors u))) ->
  let s' := selectors (syncSelectionsFromDate tz (isoText y m d) u) in
  dayInput s' = isoText y m d
  /\ sel_value (weekYear s') = Some py /\ sel_value (monthYear s') = Some py
  /\ sel_value (yearSelect s') = Some py
  /\ sel_value (weekMonth s') = Some pm /\ sel_value (monthSelect s') = Some pm
  /\ sel_value (weekIndex s') = Some (weekIdxOfDay pd).
Proof.
  intros Htz Hy Hv Hprev Hpy H1 H2 H3 H4 H5 s'. subst s'.
  pose proof (Date_parse_isoText y m d Hy Hv) as Hp.
  pose proof (local_fields_west tz (days_from_civil y m d) Htz) as Hl. cbv zeta in Hl.
  rewrite Hprev in Hl. injection Hl as Ey Em Ed.
  pose proof (sync_selects_local tz _ _ u Hp) as X. cbv zeta in X.
  rewrite Ey, Em, Ed in X.
  destruct (X Hpy H1 H2 H3 H4 H5) as (A & B & C & D & E & F & _ & G & _).
  auto 10.
Qed.

(** On 1 March 2024, five hours west of UTC, the selectors show February. *)
Lemma syncSelectionsFromDate_west_witness :
  let s' := selectors (syncSelectionsFromDate (-300) (isoText 2024 3 1) march2023) in
  dayInput s' = isoText 2024 3 1
  /\ sel_value (weekYear s') = Some 2024 /\ sel_value (monthYear s') = Some 2024
  /\ sel_value (yearSelect s') = Some 2024
  /\ sel_value (weekMonth s') = Some 2 /\ sel_value (monthSelect s') = Some 2
  /\ sel_value (weekIndex s') = Some (weekIdxOfDay 29).
Proof.
  apply (syncSelectionsFromDate_west_selects_the_day_before (-300) 2024 3 1 2024 2 29 march2023);
    try lia; try reflexivity; vm_compute; intuition discriminate.
Defined.

(** X10.  When the year of the date is not among the years the selects offer
    (the page offers four), [syncSelectionsFromDate] leaves the week-year
    select without a selection, so that [buildWeekIndex] finds no month
    length: the week-index select ends up with no option at all, and the
    texts read from the two selects are empty. *)
Theorem syncSelectionsFromDate_year_not_offered (tz : Z) (s : jsstring) (t : Z) (u : UI) :
  Date_parse s = Some t ->
  ~ In (getFullYear tz t) (values (weekYear (selectors u))) ->
  let s' := selectors (syncSelectionsFromDate tz s u) in
  dayInput s' = s
  /\ options (weekYear s') = options (weekYear (selectors u))
  /\ sel_value (weekYear s') = None /\ sel_text (weekYear s') = []
  /\ options (weekIndex s') = []
  /\ sel_value (weekIndex s') = None /\ sel_text (weekIndex s') = [].
Proof.
  intros Hp Hn s'. subst s'. unfold syncSelectionsFromDate. rewrite Hp.
  set (u1 := with_selectors _ u).
  assert (H1 : sel_value (weekYear (selectors u1)) = None).
  { subst u1. cbn. now apply sel_value_absent. }
  assert (Hb : selectors (buildWeekIndex u1)
               = upd_weekIndex (fun _ => set_options []) (selectors u1)).
  { unfold buildWeekIndex. now rewrite H1. }
  cbn [selectors with_selectors]. rewrite Hb. subst u1.
  cbn [selectors with_selectors upd_weekIndex upd_monthSelect upd_weekMonth
       upd_yearSelect upd_monthYear upd_weekYear set_dayInput dayInput weekYear weekIndex] in *.
  unfold sel_text. rewrite H1.
  split; [reflexivity|]. split; [reflexivity|]. split; [reflexivity|]. split; [reflexivity|].
  split; [reflexivity|]. split; reflexivity.
Qed.

(** The page of March 2023 offers 2021..2024; a date of 2019 is synced. *)
Lemma syncSelectionsFromDate_year_not_offered_witness :
  let s' := selectors (syncSelectionsFromDate 420 (isoText 2019 5 5) march2023) in
  dayInput s' = isoText 2019 5 5
  /\ options (weekYear s') = options (weekYear (selectors march2023))
  /\ sel_value (weekYear s') = None /\ sel_text (weekYear s') = []
  /\ options (weekIndex s') = []
  /\ sel_value (weekIndex s') = None /\ sel_text (weekIndex s') = [].
Proof.
  apply (syncSelectionsFromDate_year_not_offered 420 (isoText 2019 5 5)
           (days_from_civil 2019 5 5 * msPerDay) march2023).
  - reflexivity.
  - vm_compute. intuition discriminate.
Defined.

(** The selectors after the start-up sequence, at or east of UTC: the
    day input shows the UTC date of the clock, and the year, month and
    week-index selects show the year, the month and the week block of that
    UTC date, which is always among the four years offered, even when the
    local date is already the next day or the next year. *)
Lemma startSelectors_facts (tz now now' y m d : Z) (u : UI) :
  0 <= tz < 1440 -> now <= now' <= now + msPerDay ->
  civil_from_days (Day now') = (y, m, d) -> 100 <= y <= 9999 ->
  let s := selectors (startSelectors tz now now' u) in
  dayInput s = isoText y m d
  /\ sel_value (weekYear s) = Some y /\ sel_value (monthYear s) = Some y
  /\ sel_value (yearSelect s) = Some y
  /\ sel_value (weekMonth s) = Some m /\ sel_value (monthSelect s) = Some m
  /\ sel_value (weekIndex s) = Some (weekIdxOfDay d)
  /\ 1 <= weekIdxOfDay d <= (daysInMonth y m + 6) / 7
  /\ values (weekYear s)
     = [getFullYear tz now - 2; getFullYear tz now - 1; getFullYear tz now; getFullYear tz now + 1].
Proof.
  intros Htz Hnow Hc Hy s. subst s. unfold startSelectors.
  assert (Hv : validDate y m d = true).
  { pose proof (civil_from_days_valid (Day now')) as V. now rewrite Hc in V. }
  assert (Ht : toISODate now' = isoText y m d).
  { unfold toISODate. rewrite Hc.
    destruct (Z.leb_spec 0 y); [|lia]. destruct (Z.leb_spec y 9999); [|lia]. reflexivity. }
  rewrite Ht.
  destruct (populateSelects_facts tz now u) as (Vy & _ & Emy & Eys & Vm & _ & Ems & _).
  set (u0 := populateSelects tz now u) in *.
  set (u1 := with_selectors (set_dayInput (isoText y m d)) u0).
  assert (Hyear : getFullYear tz now - 1 <= y <= getFullYear tz now + 1).
  { unfold getFullYear.
    assert (HL : Day (LocalTime tz now) = Day now \/ Day (LocalTime tz now) = Day now + 1)
      by (unfold Day, LocalTime, msPerDay, msPerMinute; div_lia).
    assert (HU : Day now' = Day now \/ Day now' = Day now + 1)
      by (unfold Day, msPerDay in *; div_lia).
    pose proof (year_of_next_day (Day now)) as N. cbv zeta in N.
    replace y with (fst (fst (civil_from_days (Day now')))) by now rewrite Hc.
    destruct HL as [-> | ->]; destruct HU as [-> | ->]; lia. }
  assert (Iy : In y (values (weekYear (selectors u0)))) by (rewrite Vy; cbn [In]; lia).
  assert (Im : In m (values (weekMonth (selectors u0)))).
  { rewrite Vm. unfold validDate in Hv. rewrite !andb_true_iff, !Z.leb_le in Hv. cbn [In]. lia. }
  destruct (syncSelectionsFromDate_selects tz y m d u1 Htz Hy Hv) as (A & B & C & D & E & F & _ & G & K);
    try (subst u1; cbn [selectors with_selectors set_dayInput weekYear monthYear yearSelect
                        weekMonth monthSelect]; rewrite ?Emy, ?Eys, ?Ems; assumption).
  split; [exact A|]. split; [exact B|]. split; [exact C|]. split; [exact D|].
  split; [exact E|]. split; [exact F|]. split; [exact G|]. split; [exact K|].
  pose proof (Date_parse_isoText y m d ltac:(lia) Hv) as Hp.
  destruct (sync_selects_local tz _ _ u1 Hp) as (_ & _ & _ & _ & _ & _ & _ & _ & Vs).
  - destruct (local_fields_east tz y m d Htz Hv) as (-> & _ & _). lia.
  - destruct (local_fields_east tz y m d Htz Hv) as (-> & _ & _).
    subst u1. cbn [selectors with_selectors set_dayInput weekYear]. exact Iy.
  - destruct (local_fields_east tz y m d Htz Hv) as (-> & _ & _).
    subst u1. cbn [selectors with_selectors set_dayInput monthYear]. now rewrite Emy.
  - destruct (local_fields_east tz y m d Htz Hv) as (-> & _ & _).
    subst u1. cbn [selectors with_selectors set_dayInput yearSelect]. now rewrite Eys.
  - destruct (local_fields_east tz y m d Htz Hv) as (_ & -> & _).
    subst u1. cbn [selectors with_selectors set_dayInput weekMonth]. exact Im.
  - destruct (local_fields_east tz y m d Htz Hv) as (_ & -> & _).
    subst u1. cbn [selectors with_selectors set_dayInput monthSelect]. now rewrite Ems.
  - rewrite Vs. subst u1. cbn [selectors with_selectors set_dayInput weekYear]. exact Vy.
Qed.

(** X11.  The selectors after the start-up sequence, at or east of UTC: the
    day input shows the UTC date of the clock, and the year, month and
    week-index selects show the year, the month and the week block of that
    UTC date, which is always among the four years offered, even when the
    local date is already the next day or the next year. *)
Theorem start_selectors_show_the_UTC_date (tz now now' y m d : Z) (u : UI) :
  0 <= tz < 1440 -> now <= now' <= now + msPerDay ->
  civil_from_days (Day now') = (y, m, d) -> 100 <= y <= 9999 ->
  let s := selectors (startSelectors tz now now' u) in
  dayInput s = isoText y m d
  /\ sel_value (weekYear s) = Some y /\ sel_value (monthYear s) = Some y
  /\ sel_value (yearSelect s) = Some y
  /\ sel_value (weekMonth s) = Some m /\ sel_value (monthSelect s) = Some m
  /\ sel_value (weekIndex s) = Some (weekIdxOfDay d)
  /\ 1 <= weekIdxOfDay d <= (daysInMonth y m + 6) / 7
  /\ values (weekYear s)
     = [getFullYear tz now - 2; getFullYear tz now - 1; getFullYear tz now; getFullYear tz now + 1].
Proof. intros. now apply startSelectors_facts. Qed.

(** New Year's night in Hanoi: at 03:00 local time on 1 January 2025 the
    page starts on 31 December 2024. *)
Lemma start_selectors_witness :
  let now := days_from_civil 2024 12 31 * msPerDay + 20 * 3600000 in
  let s := selectors (startSelectors 420 now now initialUI) in
  dayInput s = isoText 2024 12 31
  /\ sel_value (weekYear s) = Some 2024 /\ sel_value (monthYear s) = Some 2024
  /\ sel_value (yearSelect s) = Some 2024
  /\ sel_value (weekMonth s) = Some 12 /\ sel_value (monthSelect s) = Some 12
  /\ sel_value (weekIndex s) = Some (weekIdxOfDay 31)
  /\ 1 <= weekIdxOfDay 31 <= (daysInMonth 2024 12 + 6) / 7
  /\ values (weekYear s) = [2025 - 2; 2025 - 1; 2025; 2025 + 1].
Proof.
  cbv zeta.
  apply (start_selectors_show_the_UTC_date 420
           (days_from_civil 2024 12 31 * msPerDay + 20 * 3600000)
           (days_from_civil 2024 12 31 * msPerDay + 20 * 3600000) 2024 12 31 initialUI).
  - lia.
  - vm_compute. split; discriminate.
  - reflexivity.
  - lia.
Defined.

(** ** The week chart after a load *)

Section WeekChart.
Context `{Engine}.
Variable server : Request -> Response.

(** [loadWeek] on an answer made of arrays whose labels are texts. *)
Lemma loadWeek_run y m w u j ls ps fs :
  fetchJSON_of (server (DataWeek y m w (deviceParam u))) = Ok j ->
  payloadArrays j (map VStr ls) ps fs ->
  run server (loadWeek y m w u)
  = (with_labels (set_weekLabel (or_else (field k_range j) (VStr [])))
       (with_charts (upd_chart CWeek (fun c =>
          mkChart (VArr (map (fun l => VStr (skipn 5 l)) ls)) (map numOr0 ps) (map numOr0 fs)
                  (data2 c))) u),
     Ok tt).
Proof.
  intros Hj (Hl & Hp & Hf).
  assert (Hnn : isNullish j = false) by (destruct j; cbn in Hl |- *; congruence).
  pose proof (get_prop_field k_range j Hnn) as Hrg.
  unfold loadWeek.
  repeat (progress (run_all; rewrite ?Hj, ?Hl, ?Hp, ?Hf, ?numbersOf_array, ?shortLabels_strings,
                    ?Hrg)).
  destruct u as [dv [cd cw cm cy] vl dl sl co di]. reflexivity.
Qed.

Lemma parseIsoFields_length s f : parseIsoFields s = Some f -> List.length s = 10%nat.
Proof.
  unfold parseIsoFields.
  do 10 (destruct s as [|? s]; [discriminate|]). destruct s; [reflexivity|discriminate].
Qed.

(** A click on a chart whose labels are texts cut by [slice(5)]. *)
Lemma clickWeek_on_short_labels tz (ls : list jsstring) hit w :
  labels (week (charts (ui w))) = VArr (map (fun l => VStr (skipn 5 l)) ls) ->
  Forall (fun l => List.length l <> 15%nat) ls ->
  clickWeek tz hit w = Ok w.
Proof.
  intros Hl Hall. destruct hit as [idx|]; [|reflexivity].
  unfold clickWeek. rewrite Hl. rewrite get_index_array by lia. cbn [rbind].
  rewrite Nat2Z.id. unfold entry.
  destruct (parseIsoFields _) as [f|] eqn:Ep; [|reflexivity].
  exfalso. apply parseIsoFields_length in Ep.
  destruct (nth_error (map (fun l => VStr (skipn 5 l)) ls) idx) as [v|] eqn:En.
  - rewrite (nth_error_nth _ _ _ En) in Ep.
    rewrite nth_error_map in En. unfold jsstring in *.
    destruct (nth_error ls idx) as [l|] eqn:El; cbn [option_map] in En; [|discriminate].
    injection En as <-. change (List.length (skipn 5 l) = 10%nat) in Ep.
    rewrite Forall_forall in Hall. apply (Hall l); [eapply nth_error_In; eauto|].
    rewrite length_skipn in Ep. lia.
  - rewrite nth_overflow in Ep by (now apply nth_error_None). discriminate.
Qed.

End WeekChart.

(** X12.  After [loadWeek] has drawn an answer whose labels are date texts
    (or any texts that are not 15 code units long), the week chart shows
    them from their sixth character on, MM-DD, and a click on any of its
    points does nothing: no label has the form YYYY-MM-DD any more, and
    [labelsFull] is never assigned. *)
Theorem week_chart_clicks_do_nothing_after_loadWeek `{Engine}
    (server : Request -> Response) (tz : Z) (y m w : jsstring) (u : UI)
    (j : value) (ls : list jsstring) (ps fs : list value) :
  fetchJSON_of (server (DataWeek y m w (deviceParam u))) = Ok j ->
  payloadArrays j (map VStr ls) ps fs ->
  Forall (fun l => List.length l <> 15%nat) ls ->
  let u' := fst (run server (loadWeek y m w u)) in
  labels (week (charts u')) = VArr (map (fun l => VStr (skipn 5 l)) ls)
  /\ forall hit ts n, clickWeek tz hit (mkWorld u' ts n) = Ok (mkWorld u' ts n).
Proof.
  intros Hj Hpay Hall u'.
  assert (Hl : labels (week (charts u')) = VArr (map (fun l => VStr (skipn 5 l)) ls)).
  { subst u'. now rewrite (loadWeek_run server y m w u j ls ps fs Hj Hpay). }
  split; [exact Hl|].
  intros hit ts n. now apply (clickWeek_on_short_labels tz ls).
Qed.

Lemma week_chart_clicks_witness :
  let server := fun _ : Request => okResponse (payload ["2024-01-08"; "2024-01-09"]%string [5; 10] [1; 2]) in
  let u' := fst (run server (loadWeek (utf16 "2024") (utf16 "1") (utf16 "2") initialUI)) in
  labels (week (charts u')) = VArr [VStr (utf16 "01-08"); VStr (utf16 "01-09")]
  /\ forall hit ts n, clickWeek 420 hit (mkWorld u' ts n) = Ok (mkWorld u' ts n).
Proof.
  cbv zeta.
  apply (week_chart_clicks_do_nothing_after_loadWeek
           (fun _ => okResponse (payload ["2024-01-08"; "2024-01-09"]%string [5; 10] [1; 2]))
           420 (utf16 "2024") (utf16 "1") (utf16 "2") initialUI
           (payload ["2024-01-08"; "2024-01-09"]%string [5; 10] [1; 2])
           [utf16 "2024-01-08"; utf16 "2024-01-09"] (counts [5; 10]) (counts [1; 2])).
  - reflexivity.
  - repeat split; reflexivity.
  - repeat constructor; discriminate.
Defined.


(** ** The calendar popup *)

(** A property checked on every number of a range. *)
Lemma range_check (P : Z -> bool) lo n :
  forallb P (map (fun k => lo + Z.of_nat k) (seq 0 (Z.to_nat n))) = true ->
  forall z, lo <= z < lo + n -> P z = true.
Proof.
  intros Hall z Hz. rewrite forallb_forall in Hall. apply Hall.
  apply in_map_iff. exists (Z.to_nat (z - lo)). split; [lia|]. apply in_seq. lia.
Qed.

Lemma jseqb_eq (l1 l2 : jsstring) : jseqb l1 l2 = true -> l1 = l2.
Proof.
  revert l2. induction l1 as [|a l1 IH]; intros [|b l2]; cbn [jseqb]; try discriminate;
    [reflexivity|].
  rewrite andb_true_iff, N.eqb_eq. intros [-> E]. f_equal. now apply IH.
Qed.

Lemma padStart_year y : 100 <= y <= 9999 -> padStart0 4 (num_text (Fin y)) = pad4 (Z.to_N y).
Proof.
  intros Hy. apply jseqb_eq.
  apply (range_check (fun y => jseqb (padStart0 4 (num_text (Fin y))) (pad4 (Z.to_N y))) 100 9900).
  - vm_compute. reflexivity.
  - lia.
Qed.

Lemma padStart_two k : 0 <= k <= 99 -> padStart0 2 (num_text (Fin k)) = pad2 (Z.to_N k).
Proof.
  intros Hk. apply jseqb_eq.
  apply (range_check (fun k => jseqb (padStart0 2 (num_text (Fin k))) (pad2 (Z.to_N k))) 0 100).
  - vm_compute. reflexivity.
  - lia.
Qed.

(** The date text of a calendar button is the ISO text of its date. *)
Lemma calendarIso_isoText y m d :
  100 <= y <= 9999 -> 0 <= m <= 99 -> 0 <= d <= 99 -> calendarIso y m d = isoText y m d.
Proof.
  intros Hy Hm Hd. unfold calendarIso, isoText.
  now rewrite padStart_year, !padStart_two by assumption.
Qed.

Lemma dayButtons_S tz now y m d n :
  dayButtons tz now y m d (S n)
  = DayButton d (calendarIso y m d) (isToday tz now y m d) :: dayButtons tz now y m (d + 1) n.
Proof.
  unfold dayButtons. cbn [seq map]. rewrite Z.add_0_r. f_equal.
  rewrite <- seq_shift, map_map. apply map_ext. intros k.
  replace (d + 1 + Z.of_nat k) with (d + Z.of_nat (S k)) by lia. reflexivity.
Qed.

(** The loop of [render] fills rows of seven cells. *)
Lemma renderLoop_rows tz now y m sw n : forall d row tbody,
  0 <= sw -> 1 <= d ->
  Forall (fun r => List.length r = 7%nat) tbody ->
  Z.of_nat (List.length row) = (sw + d - 1) mod 7 ->
  let r := renderLoop tz now y m sw n d row tbody in
  Forall (fun r => List.length r = 7%nat) (snd r)
  /\ Z.of_nat (List.length (fst r)) = (sw + d + Z.of_nat n - 1) mod 7
  /\ List.concat (snd r) ++ fst r = List.concat tbody ++ row ++ dayButtons tz now y m d n.
Proof.
  induction n as [|n IH]; intros d row tbody Hsw Hd Hall Hrow.
  - cbn [renderLoop fst snd dayButtons seq map]. rewrite app_nil_r.
    split; [exact Hall|]. split; [rewrite Hrow; f_equal; lia|reflexivity].
  - cbn [renderLoop]. rewrite Z.rem_mod_nonneg by lia. rewrite dayButtons_S.
    destruct (Z.eqb_spec ((sw + d - 1) mod 7) 6) as [E|E].
    + specialize (IH (d + 1) [] (tbody ++ [row ++ [DayButton d (calendarIso y m d)
                                                     (isToday tz now y m d)]]) Hsw ltac:(lia)).
      destruct IH as (A & B & C).
      * apply Forall_app. split; [exact Hall|]. constructor; [|constructor].
        rewrite length_app. cbn [List.length]. lia.
      * cbn [List.length]. div_lia.
      * split; [exact A|]. split; [rewrite B; f_equal; lia|].
        rewrite C, concat_app. cbn [List.concat]. rewrite app_nil_r, <- !app_assoc. reflexivity.
    + specialize (IH (d + 1) (row ++ [DayButton d (calendarIso y m d) (isToday tz now y m d)])
                     tbody Hsw ltac:(lia) Hall).
      destruct IH as (A & B & C).
      * rewrite length_app. cbn [List.length]. div_lia.
      * split; [exact A|]. split; [rewrite B; f_equal; lia|].
        rewrite C, <- !app_assoc. reflexivity.
Qed.

(** Where a cell of a table of full rows sits: cell [i] of the flattened
    table is in row [i / 7], column [i mod 7]. *)
Lemma nth_error_full_rows {A} (tb : list (list A)) : forall (row : list A) i c,
  Forall (fun r => List.length r = 7%nat) tb -> (List.length row <= 7)%nat ->
  nth_error (List.concat tb ++ row) i = Some c ->
  nth_error (nth (i / 7) (tb ++ [row]) []) (i mod 7) = Some c.
Proof.
  induction tb as [|r tb IH]; intros row i c Hall Hrow Hi.
  - cbn [List.concat app] in *.
    assert (i < List.length row)%nat by (apply nth_error_Some; congruence).
    rewrite Nat.div_small, Nat.mod_small by lia. exact Hi.
  - inversion Hall as [|? ? Hr Hrest]; subst. cbn [List.concat app] in *.
    rewrite <- app_assoc in Hi.
    destruct (Nat.lt_ge_cases i 7) as [Hlt|Hge].
    + rewrite nth_error_app1 in Hi by lia.
      rewrite Nat.div_small, Nat.mod_small by lia. exact Hi.
    + rewrite nth_error_app2 in Hi by lia. rewrite Hr in Hi.
      specialize (IH row (i - 7)%nat c Hrest Hrow Hi).
      replace (i / 7)%nat with (S ((i - 7) / 7)) by
        (replace i with ((i - 7) + 1 * 7)%nat at 2 by lia; rewrite Nat.div_add by lia; lia).
      replace (i mod 7)%nat with ((i - 7) mod 7)%nat by
        (replace i with ((i - 7) + 1 * 7)%nat at 2 by lia; now rewrite Nat.Div0.mod_add).
      exact IH.
Qed.

Lemma nth_rows_drop_empty {A} (tb : list (list A)) k : nth k (tb ++ [[]]) [] = nth k tb [].
Proof.
  destruct (Nat.lt_ge_cases k (List.length tb)) as [Hlt|Hge].
  - now apply app_nth1.
  - rewrite app_nth2, (nth_overflow tb) by lia.
    destruct (k - List.length tb)%nat as [|[|j]]; reflexivity.
Qed.

(** The weekday of the first of the month, as [render] computes it. *)
Lemma startWeekday_of_month tz y m :
  ~ (0 <= y <= 99) -> 1 <= m <= 12 ->
  getDay tz (Date_local tz y (m - 1) 1) = weekdayOfDay (days_from_civil y m 1).
Proof.
  intros Hy Hm. unfold Date_local, MakeDay.
  replace ((0 <=? y) && (y <=? 99)) with false
    by (symmetry; apply andb_false_iff; destruct (Z.leb_spec 0 y); destruct (Z.leb_spec y 99);
        auto; lia).
  replace (y + (m - 1) / 12) with y by div_lia.
  replace ((m - 1) mod 12 + 1) with m by div_lia.
  unfold getDay, WeekDay, weekdayOfDay, LocalTime, UTC, Day, msPerDay, msPerMinute.
  f_equal. f_equal. div_lia.
Qed.

Section MonthTable.
Variables tz now y m : Z.
Hypothesis Hy : 100 <= y <= 9999.
Hypothesis Hm : 1 <= m <= 12.

Let first := weekdayOfDay (days_from_civil y m 1).
Let days := monthLength y m.

Lemma render_rows :
  exists row tbody,
    calRows (render tz now y m) = match row with [] => tbody | _ :: _ => tbody ++ [row] end
    /\ Forall (fun r => List.length r = 7%nat) tbody
    /\ (List.length row < 7)%nat
    /\ List.concat tbody ++ row
       = repeat Blank (Z.to_nat first) ++ dayButtons tz now y m 1 (Z.to_nat days).
Proof.
  unfold render. rewrite startWeekday_of_month by lia.
  rewrite daysInMonth_monthLength by lia. fold first. fold days.
  assert (Hf : 0 <= first < 7) by (subst first; unfold weekdayOfDay; div_lia).
  pose proof (renderLoop_rows tz now y m first (Z.to_nat days) 1
                (repeat Blank (Z.to_nat first)) [] ltac:(lia) ltac:(lia) (Forall_nil _)) as X.
  cbv zeta in X. rewrite repeat_length in X.
  specialize (X ltac:(rewrite Z2Nat.id by lia; div_lia)).
  destruct (renderLoop tz now y m first (Z.to_nat days) 1 (repeat Blank (Z.to_nat first)) [])
    as [row tbody]. cbn [fst snd calRows] in *. destruct X as (A & B & C).
  exists row, tbody. split; [reflexivity|]. split; [exact A|]. split; [div_lia|exact C].
Qed.

Lemma render_table :
  let t := render tz now y m in
  calTitle t = decimal y ++ utf16 " - " ++ pad2 (Z.to_N m)
  /\ List.concat (calRows t)
     = repeat Blank (Z.to_nat first) ++ dayButtons tz now y m 1 (Z.to_nat days)
  /\ Forall (fun r => 1 <= List.length r <= 7)%nat (calRows t)
  /\ (forall i, (S i < List.length (calRows t))%nat -> List.length (nth i (calRows t) []) = 7%nat)
  /\ (forall d, 1 <= d <= days ->
        let i := Z.to_nat (first + d - 1) in
        nth_error (nth (i / 7) (calRows t) []) (i mod 7)
        = Some (DayButton d (isoText y m d) (isToday tz now y m d))
        /\ Z.of_nat (i mod 7) = weekdayOfDay (days_from_civil y m d)
        /\ Date_parse (isoText y m d) = Some (days_from_civil y m d * msPerDay)).
Proof.
  intros t. destruct render_rows as (row & tbody & Hrows & Hall & Hrow & Hcat). fold t in Hrows.
  assert (Hf : 0 <= first < 7) by (subst first; unfold weekdayOfDay; div_lia).
  assert (Hdays : 28 <= days <= 31) by apply monthLength_pos.
  assert (Hflat : List.concat (calRows t) = List.concat tbody ++ row).
  { rewrite Hrows. destruct row; [now rewrite app_nil_r|].
    rewrite concat_app. cbn [List.concat]. now rewrite app_nil_r. }
  assert (Hnth : forall k, nth k (calRows t) [] = nth k (tbody ++ [row]) []).
  { intros k. rewrite Hrows. destruct row; [now rewrite nth_rows_drop_empty|reflexivity]. }
  split; [|split; [|split; [|split]]].
  - subst t. unfold render.
    destruct (renderLoop _ _ _ _ _ _ _ _ _) as [r tb]. cbn [calTitle].
    rewrite num_text_nonneg, padStart_two by lia. reflexivity.
  - now rewrite Hflat.
  - rewrite Hrows. assert (Hfull : Forall (fun r => (1 <= List.length r <= 7)%nat) tbody).
    { eapply Forall_impl; [|exact Hall]. cbn. intros r Hr. lia. }
    destruct row as [|c row]; [exact Hfull|].
    apply Forall_app. split; [exact Hfull|]. constructor; [|constructor].
    cbn [List.length] in *. lia.
  - intros i Hi. rewrite Hrows in *. rewrite Forall_forall in Hall.
    destruct row as [|c row].
    + apply Hall. apply nth_In. lia.
    + rewrite length_app in Hi. cbn [List.length] in Hi.
      rewrite app_nth1 by lia. apply Hall. apply nth_In. lia.
  - intros d Hd i.
    assert (Hv : validDate y m d = true).
    { unfold validDate. rewrite !andb_true_iff, !Z.leb_le. subst days. lia. }
    assert (Hcell : nth_error (List.concat tbody ++ row) i
                    = Some (DayButton d (isoText y m d) (isToday tz now y m d))).
    { rewrite Hcat. subst i. rewrite nth_error_app2 by (rewrite repeat_length; lia).
      rewrite repeat_length. replace (Z.to_nat (first + d - 1) - Z.to_nat first)%nat
        with (Z.to_nat (d - 1)) by lia.
      unfold dayButtons. rewrite nth_error_map, nth_error_seq.
      destruct (Nat.ltb_spec (Z.to_nat (d - 1)) (Z.to_nat days)) as [_|]; [|lia].
      cbn [option_map Nat.add]. rewrite Z2Nat.id by lia.
      replace (1 + (d - 1)) with d by lia.
      now rewrite calendarIso_isoText by lia. }
    split; [|split].
    + rewrite Hnth. apply nth_error_full_rows; [exact Hall|lia|exact Hcell].
    + subst i. rewrite Nat2Z.inj_mod, Z2Nat.id by lia. change (Z.of_nat 7) with 7.
      pose proof (days_from_civil_shift y m 1 (d - 1)) as Hs.
      replace (1 + (d - 1)) with d in Hs by lia.
      subst first. unfold weekdayOfDay. rewrite Hs. div_lia.
    + apply Date_parse_isoText; [lia|exact Hv].
Qed.

End MonthTable.

(** X13.  The month table of the calendar popup, for a month of a year
    100..9999: read row by row it is the blanks before the first of the
    month and then one button per day, 1 to the length of the month; every
    row but the last has seven cells and no row is empty; the button of day
    [d] stands in the column of the weekday of that date (column 0 is
    Sunday, as the head row says), and the text it hands to [loadDay] is the
    ISO text of that date, which [Date] reads back as that date. *)
Theorem calendar_puts_each_day_under_its_weekday (tz now y m : Z) :
  100 <= y <= 9999 -> 1 <= m <= 12 ->
  let t := render tz now y m in
  let first := weekdayOfDay (days_from_civil y m 1) in
  let days := monthLength y m in
  calTitle t = decimal y ++ utf16 " - " ++ pad2 (Z.to_N m)
  /\ List.concat (calRows t)
     = repeat Blank (Z.to_nat first) ++ dayButtons tz now y m 1 (Z.to_nat days)
  /\ Forall (fun r => 1 <= List.length r <= 7)%nat (calRows t)
  /\ (forall i, (S i < List.length (calRows t))%nat -> List.length (nth i (calRows t) []) = 7%nat)
  /\ (forall d, 1 <= d <= days ->
        let i := Z.to_nat (first + d - 1) in
        nth_error (nth (i / 7) (calRows t) []) (i mod 7)
        = Some (DayButton d (isoText y m d) (isToday tz now y m d))
        /\ Z.of_nat (i mod 7) = weekdayOfDay (days_from_civil y m d)
        /\ Date_parse (isoText y m d) = Some (days_from_civil y m d * msPerDay)).
Proof. intros Hy Hm. apply render_table; assumption. Qed.

(** February 2024 starts on a Thursday: the 29th is in the fifth row, also
    under Thursday. *)
Lemma calendar_february_2024_witness :
  nth_error (nth 4 (calRows (render 420 0 2024 2)) []) 4
  = Some (DayButton 29 (isoText 2024 2 29) (isToday 420 0 2024 2 29))
  /\ weekdayOfDay (days_from_civil 2024 2 29) = 4.
Proof.
  destruct (calendar_puts_each_day_under_its_weekday 420 0 2024 2 ltac:(lia) ltac:(lia))
    as (_ & _ & _ & _ & Hd).
  destruct (Hd 29 ltac:(vm_compute; split; discriminate)) as (A & B & _).
  split; [exact A|symmetry; exact B].
Defined.

(** *** The arrows of the calendar *)

(** The local date after [setMonth]: the day number is that of the first of
    the wanted month plus the day of the month. *)
Lemma local_day_after_setMonth tz t mon :
  let '(y, _, d) := civil_from_days (Day (LocalTime tz t)) in
  Day (LocalTime tz (setMonth tz t mon)) = MakeDay y mon d.
Proof.
  unfold setMonth. destruct (civil_from_days (Day (LocalTime tz t))) as [[y m] d].
  unfold LocalTime, UTC, Day, TimeWithinDay, msPerDay, msPerMinute. div_lia.
Qed.

(** A day of the month past the end of the month is a day of the next one. *)
Lemma day_past_month_end y m d :
  1 <= m <= 12 -> monthLength y m < d <= 31 ->
  civil_from_days (days_from_civil y m 1 + d - 1)
  = (fst (monthAfter y m), snd (monthAfter y m), d - monthLength y m).
Proof.
  intros Hm Hd. pose proof (monthLength_pos y m) as Hl.
  pose proof (last_day_of_month y m Hm) as Hlast.
  pose proof (days_from_civil_shift y m 1 (monthLength y m - 1)) as Hs.
  replace (1 + (monthLength y m - 1)) with (monthLength y m) in Hs by lia.
  assert (Ey : y + m / 12 = fst (monthAfter y m)).
  { unfold monthAfter. destruct (Z.eqb_spec m 12) as [->|]; [reflexivity|]. cbn [fst]. div_lia. }
  assert (Em : m mod 12 + 1 = snd (monthAfter y m)).
  { unfold monthAfter. destruct (Z.eqb_spec m 12) as [->|]; [reflexivity|]. cbn [snd]. div_lia. }
  rewrite Ey, Em in Hlast.
  assert (Hnm : 1 <= snd (monthAfter y m) <= 12).
  { unfold monthAfter. destruct (Z.eqb_spec m 12); cbn [snd]; lia. }
  set (ny := fst (monthAfter y m)) in *. set (nm := snd (monthAfter y m)) in *.
  pose proof (monthLength_pos ny nm) as Hl'.
  pose proof (days_from_civil_shift ny nm 1 (d - monthLength y m - 1)) as Hs'.
  replace (1 + (d - monthLength y m - 1)) with (d - monthLength y m) in Hs' by lia.
  replace (days_from_civil y m 1 + d - 1)
    with (days_from_civil ny nm (d - monthLength y m)) by lia.
  apply civil_from_days_from_civil.
  unfold validDate. rewrite !andb_true_iff, !Z.leb_le. lia.
Qed.

Lemma MakeDay_month y m0 d :
  0 <= m0 <= 11 -> MakeDay y m0 d = days_from_civil y (m0 + 1) 1 + d - 1.
Proof.
  intros Hm. unfold MakeDay.
  replace (y + m0 / 12) with y by div_lia. replace (m0 mod 12 + 1) with (m0 + 1) by div_lia.
  reflexivity.
Qed.

(** The month shown after [setMonth] to a month [(y', m')]. *)
Lemma shown_after_setMonth tz cur y m d mon y' m' :
  civil_from_days (Day (LocalTime tz cur)) = (y, m, d) ->
  1 <= m' <= 12 -> MakeDay y mon d = days_from_civil y' m' 1 + d - 1 ->
  shownMonth tz (setMonth tz cur mon)
  = if d <=? monthLength y' m' then (y', m') else monthAfter y' m'.
Proof.
  intros Hc Hm' Hmk.
  pose proof (civil_from_days_valid (Day (LocalTime tz cur))) as Hv. rewrite Hc in Hv.
  cbn [fst snd] in Hv. unfold validDate in Hv. rewrite !andb_true_iff, !Z.leb_le in Hv.
  pose proof (monthLength_pos y m). pose proof (monthLength_pos y' m').
  pose proof (local_day_after_setMonth tz cur mon) as Hday. rewrite Hc in Hday.
  unfold shownMonth, getFullYear, getMonth1. rewrite Hday, Hmk.
  destruct (Z.leb_spec d (monthLength y' m')) as [Hle|Hgt].
  - pose proof (days_from_civil_shift y' m' 1 (d - 1)) as Hs.
    replace (1 + (d - 1)) with d in Hs by lia.
    replace (days_from_civil y' m' 1 + d - 1) with (days_from_civil y' m' d) by lia.
    rewrite civil_from_days_from_civil; [reflexivity|].
    unfold validDate. rewrite !andb_true_iff, !Z.leb_le. lia.
  - rewrite day_past_month_end by lia. cbn [fst snd]. now destruct (monthAfter y' m').
Qed.

(** X14.  The arrows of the calendar popup move [cur] with [setMonth], which
    keeps the day of the month.  When that day exists in the month aimed at,
    the calendar shows that month; when it does not (the 29th to the 31st),
    the date carries over: the left arrow shows the month it started from
    once more, and the right arrow skips a month. *)
Theorem calendar_arrows_carry_over (tz cur y m d : Z) :
  civil_from_days (Day (LocalTime tz cur)) = (y, m, d) ->
  shownMonth tz cur = (y, m)
  /\ shownMonth tz (calendarPrev tz cur)
     = (if d <=? monthLength (fst (monthBefore y m)) (snd (monthBefore y m))
        then monthBefore y m else (y, m))
  /\ shownMonth tz (calendarNext tz cur)
     = (if d <=? monthLength (fst (monthAfter y m)) (snd (monthAfter y m))
        then monthAfter y m
        else monthAfter (fst (monthAfter y m)) (snd (monthAfter y m))).
Proof.
  intros Hc.
  pose proof (civil_from_days_valid (Day (LocalTime tz cur))) as Hv. rewrite Hc in Hv.
  cbn [fst snd] in Hv. unfold validDate in Hv. rewrite !andb_true_iff, !Z.leb_le in Hv.
  assert (Hm : getMonth1 tz cur = m) by (unfold getMonth1; now rewrite Hc).
  split; [|split].
  - unfold shownMonth, getFullYear, getMonth1. now rewrite Hc.
  - unfold calendarPrev. rewrite Hm.
    rewrite (shown_after_setMonth tz cur y m d (m - 1 - 1)
               (fst (monthBefore y m)) (snd (monthBefore y m)) Hc).
    + destruct (Z.leb_spec d (monthLength (fst (monthBefore y m)) (snd (monthBefore y m))));
        [now destruct (monthBefore y m)|].
      unfold monthBefore, monthAfter. destruct (Z.eqb_spec m 1) as [->|]; cbn [fst snd].
      * cbn [Z.eqb Pos.eqb]. f_equal. lia.
      * destruct (Z.eqb_spec (m - 1) 12); [lia|]. f_equal. lia.
    + unfold monthBefore. destruct (Z.eqb_spec m 1); cbn [snd]; lia.
    + unfold monthBefore, MakeDay. destruct (Z.eqb_spec m 1) as [->|]; cbn [fst snd].
      * reflexivity.
      * replace (y + (m - 1 - 1) / 12) with y by div_lia.
        replace ((m - 1 - 1) mod 12 + 1) with (m - 1) by div_lia. reflexivity.
  - unfold calendarNext. rewrite Hm.
    rewrite (shown_after_setMonth tz cur y m d (m - 1 + 1)
               (fst (monthAfter y m)) (snd (monthAfter y m)) Hc).
    + destruct (Z.leb_spec d (monthLength (fst (monthAfter y m)) (snd (monthAfter y m))));
        [now destruct (monthAfter y m)|reflexivity].
    + unfold monthAfter. destruct (Z.eqb_spec m 12); cbn [snd]; lia.
    + unfold monthAfter, MakeDay. destruct (Z.eqb_spec m 12) as [->|]; cbn [fst snd].
      * reflexivity.
      * replace (y + (m - 1 + 1) / 12) with y by div_lia.
        replace ((m - 1 + 1) mod 12 + 1) with (m + 1) by div_lia. reflexivity.
Qed.

(** On 31 May 2024 at noon UTC, seven hours east: the left arrow shows May
    again (31 April is 1 May) and the right arrow shows July (31 June is
    1 July). *)
Lemma calendar_arrows_witness :
  let cur := days_from_civil 2024 5 31 * msPerDay + 12 * 3600000 in
  shownMonth 420 cur = (2024, 5)
  /\ shownMonth 420 (calendarPrev 420 cur) = (2024, 5)
  /\ shownMonth 420 (calendarNext 420 cur) = (2024, 7).
Proof.
  cbv zeta.
  apply (calendar_arrows_carry_over 420 (days_from_civil 2024 5 31 * msPerDay + 12 * 3600000)
           2024 5 31).
  reflexivity.
Defined.


(** ** The log table and its summary *)

Section LogTable.
Context `{Engine}.





End LogTable.



(** ** The timer and the view reload *)

Section ActiveView.
Context `{Engine}.

Lemma activeIs_eq active p : activeIs active p = true -> active = Some (utf16 p).
Proof.
  destruct active as [a|]; cbn [activeIs]; [|discriminate].
  intros E. apply jseqb_eq in E. now subst.
Qed.

Lemma untouched_weaken (t1 t2 : ChartId -> bool) u u' :
  (forall id, t1 id = true -> t2 id = true) -> untouched t1 u u' -> untouched t2 u u'.
Proof.
  intros Hsub (a & b & c & d & e). repeat split; auto.
  intros id Hid. apply d. destruct (t1 id) eqn:E; [|reflexivity].
  rewrite (Hsub id E) in Hid. discriminate.
Qed.

Lemma tickLoads_cases tz active now u :
  (activeIs active "day" = true /\ jseqb (dayInput (selectors u)) (toISODate now) = true
   /\ tickLoads tz active now u = loadDay tz (dayInput (selectors u)) u)
  \/ (activeIs active "day" = true /\ jseqb (dayInput (selectors u)) (toISODate now) = false
      /\ tickLoads tz active now u = ret tt u)
  \/ (activeIs active "day" = false /\ activeIs active "week" = true
      /\ tickLoads tz active now u = weekOfSelectors u)
  \/ (activeIs active "day" = false /\ activeIs active "week" = false
      /\ activeIs active "month" = true /\ tickLoads tz active now u = monthOfSelectors u)
  \/ (activeIs active "day" = false /\ activeIs active "week" = false
      /\ activeIs active "month" = false /\ activeIs active "year" = true
      /\ tickLoads tz active now u = yearOfSelectors u)
  \/ (activeIs active "day" = false /\ activeIs active "week" = false
      /\ activeIs active "month" = false /\ activeIs active "year" = false
      /\ tickLoads tz active now u = ret tt u).
Proof.
  unfold tickLoads.
  destruct (activeIs active "day") eqn:Ed.
  - destruct (jseqb (dayInput (selectors u)) (toISODate now)) eqn:Et; cbn [andb].
    + left. auto.
    + right. left. apply activeIs_eq in Ed. subst active. cbn. auto.
  - cbn [andb]. destruct (activeIs active "week") eqn:Ew; [right; right; left; auto|].
    destruct (activeIs active "month") eqn:Em; [right; right; right; left; auto|].
    destruct (activeIs active "year") eqn:Ey; [right; right; right; right; left; auto|].
    right. right. right. right. right. auto.
Qed.

End ActiveView.

(** X16.  A tick of the timer reloads the active view and nothing else: it
    returns normally; the device, the selectors and the dialogs are as they
    were, and so is every chart outside the active view (the day view owns
    the day chart and the week chart); in the day view nothing is asked and
    nothing changes unless the day input shows the UTC date of the clock;
    with no active view nothing is asked either. *)
Theorem timer_tick_reloads_only_the_active_view `{Engine}
    (server : Request -> Response) (tz : Z) (active : option jsstring) (now : Z) (u : UI) :
  let r := run server (tickLoads tz active now u) in
  snd r = Ok tt
  /\ untouched (viewCharts active) u (fst r)
  /\ (activeIs active "day" = true ->
      jseqb (dayInput (selectors u)) (toISODate now) = false ->
      fst r = u /\ trace server (tickLoads tz active now u) = [])
  /\ (active = None -> fst r = u /\ trace server (tickLoads tz active now u) = []).
Proof.
  intros r. subst r.
  destruct (tickLoads_cases tz active now u)
    as [(Ed & Et & E)|[(Ed & Et & E)|[(Ed & Ew & E)|[(Ed & Ew & Em & E)|[(Ed & Ew & Em & Ey & E)
       |(Ed & Ew & Em & Ey & E)]]]]];
    rewrite E; unfold viewCharts; rewrite ?Ed, ?Ew, ?Em, ?Ey.
  - split; [apply loadDay_returns|]. split; [apply loadDay_frame|]. split; [congruence|].
    intros ->. discriminate.
  - split; [reflexivity|]. split; [apply untouched_refl|]. split; [auto|auto].
  - split; [apply loadWeek_returns|]. split; [apply loadWeek_frame|]. split; [congruence|].
    intros ->. discriminate.
  - split; [apply loadMonth_returns|]. split; [apply loadMonth_frame|]. split; [congruence|].
    intros ->. discriminate.
  - split; [apply loadYear_returns|]. split; [apply loadYear_frame|]. split; [congruence|].
    intros ->. discriminate.
  - split; [reflexivity|]. split; [apply untouched_refl|]. split; [congruence|auto].
Qed.

Section Launching.
Context `{Engine}.

(** A loader called without [await] parks on its first request; the page
    is as it was. *)
Lemma launch_loadDay tz d w :
  exists t, launch (loadDay tz d) w
            = mkWorld (ui w) (tasks w ++ [(fresh w, t)]) (S (fresh w))
            /\ pending t = [DataDay d (deviceParam (ui w))].
Proof.
  unfold launch, loadDay, try_catch, bind, gets, dayStep1, fetchJSON, await_one.
  cbn [bindA catchA settle]. eexists. split; reflexivity.
Qed.

Lemma launch_loadWeek y m k w :
  exists t, launch (loadWeek y m k) w
            = mkWorld (ui w) (tasks w ++ [(fresh w, t)]) (S (fresh w))
            /\ pending t = [DataWeek y m k (deviceParam (ui w))].
Proof.
  unfold launch, loadWeek, try_catch, bind, gets, fetchJSON, await_one.
  cbn [bindA catchA settle]. eexists. split; reflexivity.
Qed.

Lemma launch_loadMonth y m w :
  exists t, launch (loadMonth y m) w
            = mkWorld (ui w) (tasks w ++ [(fresh w, t)]) (S (fresh w))
            /\ pending t = [DataMonth y m (deviceParam (ui w))].
Proof.
  unfold launch, loadMonth, try_catch, bind, gets, fetchJSON, await_one.
  cbn [bindA catchA settle]. eexists. split; reflexivity.
Qed.

Lemma launch_loadYear y w :
  exists t, launch (loadYear y) w
            = mkWorld (ui w) (tasks w ++ [(fresh w, t)]) (S (fresh w))
            /\ pending t = [DataYear y (deviceParam (ui w))].
Proof.
  unfold launch, loadYear, try_catch, bind, gets, fetchJSON, await_one.
  cbn [bindA catchA settle]. eexists. split; reflexivity.
Qed.

End Launching.

(** X17.  Choosing a device in the device list selects it and reloads the
    active view: the page itself is unchanged but for the selected device;
    one loader is parked on one request, that of the active view (for the
    day view, the date of the day input or, when it is empty, the UTC date
    of the clock), and this request carries the device just chosen, or no
    [device] parameter for 'all'; with no active view, or one that is not
    day, week, month or year, nothing is asked. *)
Theorem choosing_a_device_reloads_the_active_view `{Engine}
    (tz : Z) (name : jsstring) (active : option jsstring) (now : Z) (w : World) :
  let w' := chooseDevice tz name active now w in
  let dev := if jseqb name (utf16 "all") then None else Some name in
  let sel := selectors (ui w) in
  let asked req := exists t, tasks w' = tasks w ++ [(fresh w, t)] /\ pending t = [req] in
  ui w' = set_device name (ui w)
  /\ (activeIs active "day" = true ->
      asked (DataDay (match dayInput sel with [] => toISODate now | s => s end) dev))
  /\ (activeIs active "week" = true ->
      asked (DataWeek (sel_text (weekYear sel)) (sel_text (weekMonth sel))
                      (sel_text (weekIndex sel)) dev))
  /\ (activeIs active "month" = true ->
      asked (DataMonth (sel_text (monthYear sel)) (sel_text (monthSelect sel)) dev))
  /\ (activeIs active "year" = true -> asked (DataYear (sel_text (yearSelect sel)) dev))
  /\ (activeIs active "day" = false -> activeIs active "week" = false ->
      activeIs active "month" = false -> activeIs active "year" = false ->
      tasks w' = tasks w).
Proof.
  intros w' dev sel asked. subst w' asked. unfold chooseDevice, reloadCurrentView.
  set (w1 := with_ui (set_device name) w).
  assert (Hdev : deviceParam (ui w1) = dev) by reflexivity.
  destruct active as [a|]; cbn [activeIs].
  2: { repeat split; try discriminate; reflexivity. }
  destruct (jseqb a (utf16 "day")) eqn:Ed.
  { apply jseqb_eq in Ed. subst a. cbn [jseqb utf16 N_of_ascii N.eqb Pos.eqb andb].
    destruct (launch_loadDay tz (match dayInput (selectors (ui w1)) with
                                 | [] => toISODate now | s => s end) w1) as (t & E & P).
    rewrite E. cbn [ui tasks]. rewrite Hdev in P.
    split; [reflexivity|]. split; [intros _; now exists t|].
    repeat split; discriminate. }
  destruct (jseqb a (utf16 "week")) eqn:Ew.
  { apply jseqb_eq in Ew. subst a. cbn [jseqb utf16 N_of_ascii N.eqb Pos.eqb andb].
    unfold weekOfSelectors.
    destruct (launch_loadWeek (sel_text (weekYear (selectors (ui w1))))
                (sel_text (weekMonth (selectors (ui w1))))
                (sel_text (weekIndex (selectors (ui w1)))) w1) as (t & E & P).
    unfold launch in *. rewrite E. cbn [ui tasks]. rewrite Hdev in P.
    split; [reflexivity|]. split; [discriminate|]. split; [intros _; now exists t|].
    repeat split; discriminate. }
  destruct (jseqb a (utf16 "month")) eqn:Em.
  { apply jseqb_eq in Em. subst a. cbn [jseqb utf16 N_of_ascii N.eqb Pos.eqb andb].
    unfold monthOfSelectors.
    destruct (launch_loadMonth (sel_text (monthYear (selectors (ui w1))))
                (sel_text (monthSelect (selectors (ui w1)))) w1) as (t & E & P).
    unfold launch in *. rewrite E. cbn [ui tasks]. rewrite Hdev in P.
    split; [reflexivity|]. split; [discriminate|]. split; [discriminate|].
    split; [intros _; now exists t|]. repeat split; discriminate. }
  destruct (jseqb a (utf16 "year")) eqn:Ey.
  { apply jseqb_eq in Ey. subst a. cbn [jseqb utf16 N_of_ascii N.eqb Pos.eqb andb].
    unfold yearOfSelectors.
    destruct (launch_loadYear (sel_text (yearSelect (selectors (ui w1)))) w1) as (t & E & P).
    unfold launch in *. rewrite E. cbn [ui tasks]. rewrite Hdev in P.
    split; [reflexivity|]. split; [discriminate|]. split; [discriminate|].
    split; [discriminate|]. split; [intros _; now exists t|]. discriminate. }
  split; [reflexivity|]. repeat split; discriminate.
Qed.

Lemma choosing_a_device_witness :
  exists t,
    tasks (chooseDevice 420 (utf16 "M3") (Some (utf16 "week")) 0 drillWorld)
    = tasks drillWorld ++ [(fresh drillWorld, t)]
    /\ pending t = [DataWeek (utf16 "2023") (utf16 "3") (utf16 "5") (Some (utf16 "M3"))].
Proof.
  destruct (choosing_a_device_reloads_the_active_view 420 (utf16 "M3") (Some (utf16 "week")) 0
              drillWorld) as (_ & _ & Hw & _).
  exact (Hw eq_refl).
Defined.

(** ** The requests of the start-up sequence *)

Lemma pad4_decimal y : 1000 <= y <= 9999 -> pad4 (Z.to_N y) = decimal y.
Proof.
  intros Hy. apply jseqb_eq.
  apply (range_check (fun y => jseqb (pad4 (Z.to_N y)) (decimal y)) 1000 9000).
  - vm_compute. reflexivity.
  - lia.
Qed.

Lemma sel_text_value s z : sel_value s = Some z -> 0 <= z -> sel_text s = decimal z.
Proof. intros Hs Hz. unfold sel_text. rewrite Hs. now apply num_text_nonneg. Qed.

Lemma toISODate_fields t y m d :
  civil_from_days (Day t) = (y, m, d) -> 0 <= y <= 9999 -> toISODate t = isoText y m d.
Proof.
  intros Hc Hy. unfold toISODate. rewrite Hc.
  destruct (Z.leb_spec 0 y); [|lia]. destruct (Z.leb_spec y 9999); [|lia]. reflexivity.
Qed.

Lemma startSelectors_device tz now now' u :
  selectedDevice (startSelectors tz now now' u) = selectedDevice u.
Proof.
  unfold startSelectors, syncSelectionsFromDate. destruct (Date_parse _); reflexivity.
Qed.

(** X18.  The requests of the start-up sequence, at or east of UTC, on a day
    whose year has four digits, when the server answers the day requests:
    the hourly counts of the UTC date of the clock, the logs of the seven
    days of its week, and then the same week block twice, once for the
    cumulative lines of [loadDay] and once more for [loadWeek] (whose plain
    counts are what the week chart ends up showing), the month and the
    year; twelve requests, all for the selected device, and [start] goes
    through whatever the last five answer. *)
Theorem start_up_asks_for_the_week_block_twice `{Engine}
    (server : Request -> Response) (tz now now' y m d : Z) (u : UI)
    (hourly : value) (wd : list jsstring) :
  0 <= tz < 1440 -> now <= now' <= now + msPerDay ->
  civil_from_days (Day now') = (y, m, d) -> 1000 <= y <= 9999 ->
  fetchJSON_of (server (DataDay (isoText y m d) (deviceParam u))) = Ok hourly ->
  hourlyShape hourly = true ->
  weekDatesFrom tz (isoText y m d) = Ok wd ->
  (forall dt, In dt wd -> rowsOk (caught (server (LogsDay dt (deviceParam u))))) ->
  let weekReq := DataWeek (decimal y) (decimal m) (decimal (weekIdxOfDay d)) (deviceParam u) in
  trace server (startPage tz now now' u)
  = [DataDay (isoText y m d) (deviceParam u)]
    ++ map (fun dt => LogsDay dt (deviceParam u)) wd
    ++ [weekReq; weekReq;
        DataMonth (decimal y) (decimal m) (deviceParam u);
        DataYear (decimal y) (deviceParam u)]
  /\ snd (run server (startPage tz now now' u)) = Ok tt.
Proof.
  intros Htz Hnow Hc Hy Hh Hs Hw Hrows weekReq.
  assert (Hv : validDate y m d = true).
  { pose proof (civil_from_days_valid (Day now')) as V. now rewrite Hc in V. }
  assert (Hmd : 1 <= m <= 12 /\ 1 <= d <= 31).
  { pose proof (monthLength_pos y m). unfold validDate in Hv.
    rewrite !andb_true_iff, !Z.leb_le in Hv. lia. }
  unfold startPage. rewrite (toISODate_fields now' y m d Hc) by lia.
  destruct (startSelectors_facts tz now now' y m d u Htz Hnow Hc ltac:(lia))
    as (_ & Swy & Smy & Sys & Swm & Sms & Swi & _).
  pose proof (startSelectors_device tz now now' u) as Sdev.
  set (u0 := startSelectors tz now now' u) in *.
  assert (D0 : deviceParam u0 = deviceParam u) by now apply deviceParam_eq.
  (* the day *)
  pose proof (loadDay_trace server tz y m d u0 hourly wd Hv) as T1.
  rewrite D0 in T1. specialize (T1 Hh Hs Hw Hrows).
  pose proof (loadDay_returns server tz (isoText y m d) u0) as R1.
  pose proof (loadDay_frame tz (isoText y m d) server u0) as (F1d & F1s & _).
  destruct (run server (loadDay tz (isoText y m d) u0)) as [u1 r1] eqn:E1.
  cbn [fst snd] in *. subst r1.
  assert (D1 : deviceParam u1 = deviceParam u) by (rewrite <- D0; now apply deviceParam_eq).
  (* the week *)
  set (wy := sel_text (weekYear (selectors u1))).
  set (wm := sel_text (weekMonth (selectors u1))).
  set (wi := sel_text (weekIndex (selectors u1))).
  assert (Ewy : wy = decimal y) by (subst wy; rewrite F1s; apply sel_text_value; [exact Swy|lia]).
  assert (Ewm : wm = decimal m) by (subst wm; rewrite F1s; apply sel_text_value; [exact Swm|lia]).
  assert (Ewi : wi = decimal (weekIdxOfDay d)).
  { subst wi. rewrite F1s. apply sel_text_value; [exact Swi|]. unfold weekIdxOfDay. div_lia. }
  pose proof (trace_loadWeek server wy wm wi u1) as T2.
  pose proof (loadWeek_returns server wy wm wi u1) as R2.
  pose proof (loadWeek_frame wy wm wi server u1) as (F2d & F2s & _).
  destruct (run server (loadWeek wy wm wi u1)) as [u2 r2] eqn:E2.
  cbn [fst snd] in *. subst r2.
  assert (D2 : deviceParam u2 = deviceParam u) by (rewrite <- D1; now apply deviceParam_eq).
  (* the month *)
  set (my := sel_text (monthYear (selectors u2))).
  set (mm := sel_text (monthSelect (selectors u2))).
  assert (Emy : my = decimal y)
    by (subst my; rewrite F2s, F1s; apply sel_text_value; [exact Smy|lia]).
  assert (Emm : mm = decimal m)
    by (subst mm; rewrite F2s, F1s; apply sel_text_value; [exact Sms|lia]).
  pose proof (trace_loadMonth server my mm u2) as T3.
  pose proof (loadMonth_returns server my mm u2) as R3.
  pose proof (loadMonth_frame my mm server u2) as (F3d & F3s & _).
  destruct (run server (loadMonth my mm u2)) as [u3 r3] eqn:E3.
  cbn [fst snd] in *. subst r3.
  assert (D3 : deviceParam u3 = deviceParam u) by (rewrite <- D2; now apply deviceParam_eq).
  (* the year *)
  set (yy := sel_text (yearSelect (selectors u3))).
  assert (Eyy : yy = decimal y)
    by (subst yy; rewrite F3s, F2s, F1s; apply sel_text_value; [exact Sys|lia]).
  pose proof (trace_loadYear server yy u3) as T4.
  pose proof (loadYear_returns server yy u3) as R4.
  (* together *)
  unfold startLoads. split.
  - rewrite trace_bind, E1, T1.
    rewrite trace_bind, trace_bind. cbn [trace gets run app]. fold wy wm wi.
    rewrite T2, run_bind. cbn [run gets]. fold wy wm wi. rewrite E2.
    rewrite trace_bind, trace_bind. cbn [trace gets run app]. fold my mm.
    rewrite T3, run_bind. cbn [run gets]. fold my mm. rewrite E3.
    rewrite trace_bind. cbn [trace gets run app]. fold yy. rewrite T4.
    rewrite D1, D2, D3, Ewy, Ewm, Ewi, Emy, Emm, Eyy, pad4_decimal by lia.
    subst weekReq. rewrite <- !app_assoc. reflexivity.
  - rewrite run_bind, E1, run_bind, run_bind. cbn [run gets]. fold wy wm wi. rewrite E2.
    rewrite run_bind, run_bind. cbn [run gets]. fold my mm. rewrite E3.
    rewrite run_bind. cbn [run gets]. fold yy. exact R4.
Qed.


(** ** The day loader on the examples *)

Lemma loadDay_network_down_witness :
  run (fun _ => Rejected) (loadDay 420 (utf16 "2024-01-10") initialUI)
  = (log (ConsoleError (utf16 "loadDay error") NetworkError) initialUI, Ok tt)
  /\ trace (fun _ => Rejected) (loadDay 420 (utf16 "2024-01-10") initialUI)
     = [DataDay (utf16 "2024-01-10") None].
Proof.
  apply (loadDay_stops_when_the_hourly_request_fails (fun _ => Rejected) 420
           (utf16 "2024-01-10") initialUI NetworkError).
  reflexivity.
Defined.

(** There is no month 13: the table is drawn, the charts are not. *)
Lemma loadDay_bad_date_witness :
  let r := run scenarioServer (loadDay 420 (utf16 "2024-13-01") initialUI) in
  charts (fst r) = charts initialUI
  /\ console (fst r) = [ConsoleError (utf16 "loadDay error") RangeError]
  /\ List.length (logTable (dayLog (fst r))) = 25%nat
  /\ trace scenarioServer (loadDay 420 (utf16 "2024-13-01") initialUI)
     = [DataDay (utf16 "2024-13-01") None].
Proof.
  cbv zeta.
  destruct (loadDay_draws_only_the_table_for_a_bad_date scenarioServer 420 (utf16 "2024-13-01")
              2024 13 1 initialUI
              (VObj [(k_pass, VArr (counts (repeat 1 24))); (k_fail, VArr (counts [2]))])
              eq_refl eq_refl eq_refl ltac:(lia)) as (_ & A & _ & B & C & _ & D).
  split; [exact A|]. split; [exact B|]. split; [exact C|exact D].
Defined.

Lemma loadDay_nine_requests_witness :
  trace scenarioServer (loadDay 420 (isoText 2024 1 10) initialUI)
  = [DataDay (utf16 "2024-01-10") None]
    ++ map (fun dt => LogsDay (utf16 dt) None)
           ["2024-01-08"; "2024-01-09"; "2024-01-10"; "2024-01-11"; "2024-01-12";
            "2024-01-13"; "2024-01-14"]%string
    ++ [DataWeek (utf16 "2024") (utf16 "1") (utf16 "2") None].
Proof.
  destruct (loadDay_asks_nine_requests scenarioServer 420 2024 1 10 initialUI
              (VObj [(k_pass, VArr (counts (repeat 1 24))); (k_fail, VArr (counts [2]))])
              (map utf16 ["2024-01-08"; "2024-01-09"; "2024-01-10"; "2024-01-11";
                          "2024-01-12"; "2024-01-13"; "2024-01-14"]%string)
              eq_refl eq_refl eq_refl eq_refl scenario_rows_ok) as [E _].
  exact E.
Defined.

(** In the scenario the week request is answered by a 503. *)
Lemma loadDay_week_failure_witness :
  let r := run scenarioServer (loadDay 420 (isoText 2024 1 10) initialUI) in
  week (charts (fst r)) = week (charts initialUI)
  /\ List.length (data0 (day (charts (fst r)))) = 7%nat
  /\ exists warns,
       console (fst r)
       = console initialUI ++ warns
         ++ [ConsoleError (utf16 "loadDay error")
               (Error (utf16 "503 Service Unavailable - down"))].
Proof.
  cbv zeta.
  destruct (loadDay_keeps_the_week_chart_when_its_request_fails scenarioServer 420 2024 1 10
              initialUI
              (VObj [(k_pass, VArr (counts (repeat 1 24))); (k_fail, VArr (counts [2]))])
              (map utf16 ["2024-01-08"; "2024-01-09"; "2024-01-10"; "2024-01-11";
                          "2024-01-12"; "2024-01-13"; "2024-01-14"]%string)
              (Error (utf16 "503 Service Unavailable - down"))
              eq_refl eq_refl eq_refl eq_refl scenario_rows_ok eq_refl)
    as (_ & A & _ & _ & _ & _ & B & _ & C).
  split; [exact A|]. split; [exact B|exact C].
Defined.

(** The start of the page on 10 January 2024, 09:00 in Hanoi. *)
Lemma start_up_witness :
  let now := days_from_civil 2024 1 10 * msPerDay + 2 * 3600000 in
  trace scenarioServer (startPage 420 now now initialUI)
  = [DataDay (utf16 "2024-01-10") None]
    ++ map (fun dt => LogsDay (utf16 dt) None)
           ["2024-01-08"; "2024-01-09"; "2024-01-10"; "2024-01-11"; "2024-01-12";
            "2024-01-13"; "2024-01-14"]%string
    ++ [DataWeek (utf16 "2024") (utf16 "1") (utf16 "2") None;
        DataWeek (utf16 "2024") (utf16 "1") (utf16 "2") None;
        DataMonth (utf16 "2024") (utf16 "1") None;
        DataYear (utf16 "2024") None].
Proof.
  cbv zeta.
  exact (proj1 (start_up_asks_for_the_week_block_twice scenarioServer 420
                  (days_from_civil 2024 1 10 * msPerDay + 2 * 3600000)
                  (days_from_civil 2024 1 10 * msPerDay + 2 * 3600000) 2024 1 10 initialUI
                  (VObj [(k_pass, VArr (counts (repeat 1 24))); (k_fail, VArr (counts [2]))])
                  (map utf16 ["2024-01-08"; "2024-01-09"; "2024-01-10"; "2024-01-11";
                              "2024-01-12"; "2024-01-13"; "2024-01-14"]%string)
                  ltac:(lia) ltac:(vm_compute; split; discriminate) eq_refl ltac:(lia)
                  eq_refl eq_refl eq_refl scenario_rows_ok)).
Defined.

(** ** A loader in flight keeps its device *)

Section InFlight.
Context `{Engine}.

(** A computation that awaits nothing is what [run] says it is. *)
Lemma settled_run {A} server (a : Async A) u x :
  settled a -> run server a = (u, Ok x) -> a = Ret u x.
Proof.
  destruct a as [u' x'|u' e|u' reqs k]; cbn [settled run]; intros Hs E;
    [now injection E as -> ->|discriminate|contradiction].
Qed.

Lemma renderDayLog_Ret d hourly u :
  hourlyShape hourly = true ->
  exists u', renderDayLog d hourly u = Ret u' tt /\ selectedDevice u' = selectedDevice u.
Proof.
  intros Hs.
  destruct (renderDayLog_shape (fun _ => Rejected) d hourly u Hs) as [u' E].
  exists u'. split.
  - apply (settled_run (fun _ => Rejected)); [|exact E]. unfold renderDayLog. settle_all.
  - pose proof (Keeps_renderDayLog (fun _ => false) d hourly (fun _ => Rejected) u) as (Hd & _).
    now rewrite E in Hd.
Qed.

End InFlight.

(** X19.  [loadDay] reads the selected device once, when it is called.  While
    it waits for the hourly answer the page may change in any way, another
    device may be chosen: when the answer arrives, the seven day requests
    still go out for the device of the call, one task waiting for all
    seven, and the selection on the page is not touched. *)
Theorem loadDay_in_flight_keeps_its_device `{Engine}
    (tz : Z) (d : jsstring) (u u2 : UI) (r : Response) (hourly : value) (wd : list jsstring) :
  fetchJSON_of r = Ok hourly -> hourlyShape hourly = true ->
  weekDatesFrom tz d = Ok wd ->
  let w1 := launch (loadDay tz d) (mkWorld u [] 0) in
  let w2 := mkWorld u2 (tasks w1) (fresh w1) in
  let w3 := deliver 0 [r] w2 in
  map (fun t => (fst t, pending (snd t))) (tasks w1) = [(0%nat, [DataDay d (deviceParam u)])]
  /\ map (fun t => (fst t, pending (snd t))) (tasks w3)
     = [(1%nat, map (fun dt => LogsDay dt (deviceParam u)) wd)]
  /\ selectedDevice (ui w3) = selectedDevice u2.
Proof.
  intros Hr Hs Hw. cbv zeta.
  destruct (renderDayLog_Ret d hourly u2 Hs) as (u2' & HRet & Hdev).
  unfold launch, deliver, loadDay, dayStep1, dayStep2.
  cbn [settle take_task Nat.eqb ui tasks fresh resume pending try_catch bind bindA catchA gets
       fetchJSON await_one lift nth app fst snd map].
  split; [reflexivity|].
  rewrite Hr. cbn [bindA catchA lift]. rewrite HRet. cbn [bindA catchA bind]. rewrite Hw.
  cbn [bindA catchA lift bind await_all settle tasks ui app map fst snd pending].
  split; [reflexivity|exact Hdev].
Qed.

Lemma loadDay_in_flight_witness :
  let w1 := launch (loadDay 420 (utf16 "2024-01-10")) (mkWorld initialUI [] 0) in
  let w2 := mkWorld (set_device (utf16 "M3") initialUI) (tasks w1) (fresh w1) in
  let w3 := deliver 0 [scenarioServer (DataDay (utf16 "2024-01-10") None)] w2 in
  map (fun t => (fst t, pending (snd t))) (tasks w3)
  = [(1%nat, map (fun dt => LogsDay (utf16 dt) None)
                 ["2024-01-08"; "2024-01-09"; "2024-01-10"; "2024-01-11"; "2024-01-12";
                  "2024-01-13"; "2024-01-14"]%string)]
  /\ selectedDevice (ui w3) = utf16 "M3".
Proof.
  cbv zeta.
  destruct (loadDay_in_flight_keeps_its_device 420 (utf16 "2024-01-10") initialUI
              (set_device (utf16 "M3") initialUI)
              (scenarioServer (DataDay (utf16 "2024-01-10") None))
              (VObj [(k_pass, VArr (counts (repeat 1 24))); (k_fail, VArr (counts [2]))])
              (map utf16 ["2024-01-08"; "2024-01-09"; "2024-01-10"; "2024-01-11";
                          "2024-01-12"; "2024-01-13"; "2024-01-14"]%string)
              eq_refl eq_refl eq_refl) as (_ & A & B).
  split; [exact A|exact B].
Defined.

(** ** The load buttons and the calendar buttons *)

(** X20.  What the buttons ask for.  The day button with an empty day input
    opens one dialog and asks nothing; with a date it resynchronises the
    selectors from it and asks for its hourly counts.  The week, month and
    year buttons ask for what their selects show and leave the page as it
    is.  A day button of the calendar popup writes its date into the day
    input and asks for its hourly counts, but does not resynchronise: the
    year, month and week selects keep their selection.  Each request carries
    the selected device. *)
Theorem buttons_ask_for_what_is_selected `{Engine} (tz : Z) (w : World) :
  let sel := selectors (ui w) in
  let dev := deviceParam (ui w) in
  let asks w' req := exists t, tasks w' = tasks w ++ [(fresh w, t)] /\ pending t = [req] in
  (dayInput sel = [] ->
   ui (clickLoadDay tz w) = alert ChonNgay (ui w) /\ tasks (clickLoadDay tz w) = tasks w)
  /\ (dayInput sel <> [] ->
      ui (clickLoadDay tz w) = syncSelectionsFromDate tz (dayInput sel) (ui w)
      /\ asks (clickLoadDay tz w) (DataDay (dayInput sel) dev))
  /\ (ui (clickLoadWeek w) = ui w
      /\ asks (clickLoadWeek w) (DataWeek (sel_text (weekYear sel)) (sel_text (weekMonth sel))
                                          (sel_text (weekIndex sel)) dev))
  /\ (ui (clickLoadMonth w) = ui w
      /\ asks (clickLoadMonth w) (DataMonth (sel_text (monthYear sel))
                                            (sel_text (monthSelect sel)) dev))
  /\ (ui (clickLoadYear w) = ui w
      /\ asks (clickLoadYear w) (DataYear (sel_text (yearSelect sel)) dev))
  /\ (forall iso,
        selectors (ui (pickDay tz iso w)) = set_dayInput iso sel
        /\ asks (pickDay tz iso w) (DataDay iso dev)).
Proof.
  intros sel dev asks. subst sel dev asks. cbv beta.
  split; [|split; [|split; [|split; [|split]]]].
  - intros E. unfold clickLoadDay. rewrite E. split; reflexivity.
  - intros E. unfold clickLoadDay. destruct (dayInput (selectors (ui w))) as [|c s] eqn:Ed;
      [congruence|].
    destruct (launch_loadDay tz (c :: s) (with_ui (syncSelectionsFromDate tz (c :: s)) w))
      as (t & El & P).
    rewrite El. cbn [ui tasks with_ui fresh]. split; [reflexivity|]. exists t.
    split; [reflexivity|]. rewrite P. f_equal. f_equal.
    unfold syncSelectionsFromDate. destruct (Date_parse (c :: s)); reflexivity.
  - unfold clickLoadWeek, weekOfSelectors.
    destruct (launch_loadWeek (sel_text (weekYear (selectors (ui w))))
                (sel_text (weekMonth (selectors (ui w))))
                (sel_text (weekIndex (selectors (ui w)))) w) as (t & El & P).
    unfold launch in *. rewrite El. cbn [ui tasks]. split; [reflexivity|]. now exists t.
  - unfold clickLoadMonth, monthOfSelectors.
    destruct (launch_loadMonth (sel_text (monthYear (selectors (ui w))))
                (sel_text (monthSelect (selectors (ui w)))) w) as (t & El & P).
    unfold launch in *. rewrite El. cbn [ui tasks]. split; [reflexivity|]. now exists t.
  - unfold clickLoadYear, yearOfSelectors.
    destruct (launch_loadYear (sel_text (yearSelect (selectors (ui w)))) w) as (t & El & P).
    unfold launch in *. rewrite El. cbn [ui tasks]. split; [reflexivity|]. now exists t.
  - intros iso. unfold pickDay.
    destruct (launch_loadDay tz iso (with_ui (with_selectors (set_dayInput iso)) w))
      as (t & El & P).
    rewrite El. cbn [ui tasks with_ui fresh selectors with_selectors]. split; [reflexivity|].
    now exists t.
Qed.
